(** * Trading decision and guardrail engine

    A shallow embedding of the decision pipeline of the paper-trading bot:
    the strategy evaluator ([app/agents/strategy_brain.py]), the guardrail
    approval engine ([app/agents/risk_policy.py]), the paper execution
    simulator ([app/agents/execution_paper.py]), the SQLite store
    ([app/core/storage.py]) and the cycle scheduler
    ([app/core/scheduler.py]).

    Conventions of the embedding.
    - Python [float] values are read as exact rationals ([Q]); decimal
      literals such as [0.6] denote the rational 6/10.  Python [int] is [Z].
    - [datetime] is a number of microseconds ([Z]); a [timedelta] is a
      difference of two of them.
    - [Optional[T]] is [option T]; a dict is a [gmap].
    - A Python exception that escapes a function is a [Raise] result; the
      store is threaded explicitly, so that writes made before an exception
      stay visible.
    - Every reading of the wall clock and every answer of an external
      collaborator (market data, order ids) is an explicit argument. *)

From Stdlib Require Import QArith Qround Qabs Qminmax Lqa ZArith String Ascii List Lia.
From stdpp Require Import gmap strings pretty.

Local Open Scope Q_scope.

(** ** Python values *)

Inductive PyError := TypeError | ZeroDivisionError | ValueError.

Inductive result (A : Type) :=
| Ok (a : A)
| Raise (e : PyError).

Arguments Ok {A} a.
Arguments Raise {A} e.

Definition bind_result {A B} (r : result A) (k : A -> result B) : result B :=
  match r with
  | Ok a => k a
  | Raise e => Raise e
  end.

Definition Qltb (x y : Q) : bool := negb (Qle_bool y x).
Definition Qleb (x y : Q) : bool := Qle_bool x y.

(** [a < b] on operands that may be [None]: Python 3 raises [TypeError]. *)
Definition py_lt (a b : option Q) : result bool :=
  match a, b with
  | Some x, Some y => Ok (Qltb x y)
  | _, _ => Raise TypeError
  end.

Definition py_le (a b : option Q) : result bool :=
  match a, b with
  | Some x, Some y => Ok (Qleb x y)
  | _, _ => Raise TypeError
  end.

(** [min(a, b)] and [max(a, b)] keep the first argument unless the second
    is strictly better. *)
Definition py_min (a b : Q) : Q := if Qltb b a then b else a.
Definition py_max (a b : Q) : Q := if Qltb a b then b else a.

(** [int(x)] truncates toward zero. *)
Definition py_int (x : Q) : Z := if Qle_bool 0 x then Qfloor x else Qceiling x.

(** Truthiness of an optional float: [None] and [0.0] are falsy. *)
Definition truthy (o : option Q) : option Q :=
  match o with
  | Some x => if Qeq_bool x 0 then None else Some x
  | None => None
  end.

(** Truthiness of an optional int. *)
Definition truthy_int (o : option Z) : option Z :=
  match o with
  | Some x => if Z.eqb x 0 then None else Some x
  | None => None
  end.

(** [max(items, key)]: the first item whose key no later item beats
    strictly; [None] stands for the [ValueError] of an empty sequence. *)
Definition py_max_by {A} (key : A -> Q) (items : list A) : option A :=
  match items with
  | [] => None
  | x :: rest =>
      Some (fold_left (fun best y => if Qltb (key best) (key y) then y else best) rest x)
  end.

(** *** Time *)

Definition usec_per_sec : Z := 1000000.

(** [timedelta(minutes=m)] *)
Definition timedelta_minutes (m : Z) : Z := (m * 60 * usec_per_sec)%Z.

(** [td.seconds]: the seconds component of a normalised timedelta
    (days, seconds, microseconds), always in [0, 86400). *)
Definition td_seconds (d : Z) : Z := ((d `div` usec_per_sec) `mod` 86400)%Z.

(** [time(h, m)] as microseconds since midnight. *)
Definition time_of_day (h m : Z) : Z := ((h * 60 + m) * 60 * usec_per_sec)%Z.

(** *** Text *)

Definition ascii_lower (c : ascii) : ascii :=
  let n := nat_of_ascii c in
  if (65 <=? n)%nat && (n <=? 90)%nat then ascii_of_nat (n + 32) else c.

Fixpoint str_lower (s : string) : string :=
  match s with
  | EmptyString => EmptyString
  | String c s' => String (ascii_lower c) (str_lower s')
  end.

(** [needle in hay] *)
Definition str_contains (needle hay : string) : bool :=
  match String.index 0 needle hay with
  | Some _ => true
  | None => false
  end.

Definition is_py_space (c : ascii) : bool :=
  let n := nat_of_ascii c in
  ((9 <=? n)%nat && (n <=? 13)%nat) || (n =? 32)%nat || ((28 <=? n)%nat && (n <=? 31)%nat).

Fixpoint lstrip (s : string) : string :=
  match s with
  | String c s' => if is_py_space c then lstrip s' else s
  | EmptyString => EmptyString
  end.

Fixpoint rstrip (s : string) : string :=
  match s with
  | String c s' =>
      match rstrip s' with
      | EmptyString => if is_py_space c then EmptyString else String c EmptyString
      | r => String c r
      end
  | EmptyString => EmptyString
  end.

(** [s.strip()] *)
Definition str_strip (s : string) : string := rstrip (lstrip s).

(** [s.split(",")] *)
Fixpoint split_comma_aux (cur : string) (s : string) : list string :=
  match s with
  | EmptyString => [String.rev cur]
  | String c s' =>
      if Ascii.eqb c ","%char then String.rev cur :: split_comma_aux EmptyString s'
      else split_comma_aux (String c cur) s'
  end.

Definition split_comma (s : string) : list string := split_comma_aux EmptyString s.

(** Round half to even, as the [f] format does on the exact value. *)
Definition round_half_even (x : Q) : Z :=
  let f := Qfloor x in
  let frac := x - inject_Z f in
  if Qltb frac (1 # 2) then f
  else if Qltb (1 # 2) frac then (f + 1)%Z
  else if Z.even f then f else (f + 1)%Z.

Definition two_digits (n : Z) : string :=
  if (n <? 10)%Z then ("0" ++ pretty n)%string else pretty n.

(** [str(time(h, m))]: hours, minutes and zero seconds, two digits each. *)
Definition time_str (h m : Z) : string :=
  (two_digits h ++ ":" ++ two_digits m ++ ":00")%string.

(** [f"{x:.2f}"] *)
Definition fmt_2f (x : Q) : string :=
  let n := round_half_even (Qabs x * 100) in
  ((if Qltb x 0 then "-" else "") ++ pretty (n `div` 100)%Z ++ "." ++ two_digits (n `mod` 100)%Z)%string.

(** ** Data model ([app/core/schemas.py]) *)

(** Modelled from the spec: the enum [TradeSide] of [app/core/schemas.py]
    (side: long/short), with the member names the agents use. *)
Inductive TradeSide := BUY | SELL.

(** Modelled from the spec: the enum [StrategyType] of
    [app/core/schemas.py]; the three members the strategy evaluator
    registers. *)
Inductive StrategyType := MOMENTUM_BREAKOUT | MEAN_REVERSION | VOLATILITY_EXPANSION.

(** Modelled from the spec: the enum [OrderType] of [app/core/schemas.py]
    (order style: market/limit/stop); the simulator names [MARKET] and
    [LIMIT] and treats the rest as "STOP or STOP_LIMIT". *)
Inductive OrderType := MARKET | LIMIT | STOP | STOP_LIMIT.

(** Modelled from the spec: the enum [OrderStatus] of [app/core/schemas.py]
    (pending/filled/rejected/cancelled). *)
Inductive OrderStatus := PENDING | FILLED | REJECTED | CANCELLED.

(** Modelled from the spec: the enum [MarketRegime] of
    [app/core/schemas.py] (trending-up/down, ranging, volatile, whipsaw). *)
Inductive MarketRegime := TRENDING_UP | TRENDING_DOWN | RANGING | VOLATILE | WHIPSAW.

#[global] Instance TradeSide_eq_dec : EqDecision TradeSide.
Proof. solve_decision. Defined.
#[global] Instance StrategyType_eq_dec : EqDecision StrategyType.
Proof. solve_decision. Defined.
#[global] Instance OrderType_eq_dec : EqDecision OrderType.
Proof. solve_decision. Defined.
#[global] Instance OrderStatus_eq_dec : EqDecision OrderStatus.
Proof. solve_decision. Defined.
#[global] Instance MarketRegime_eq_dec : EqDecision MarketRegime.
Proof. solve_decision. Defined.

(** Modelled from the spec: the [value] strings of [TradeSide], which
    [app/core/schemas.py] declares and the sources at hand do not show.
    The agents use them in two ways: [calculate_slippage] lower-cases the
    value and compares it with ['buy'], and the de-duplication hash embeds
    it. *)
Definition TradeSide_value (s : TradeSide) : string :=
  match s with BUY => "buy" | SELL => "sell" end.

(** Modelled from the spec: the [value] strings of [StrategyType], which
    [app/core/schemas.py] declares; they appear in the de-duplication hash
    and in the sign-off reason of a strategy switch. *)
Definition StrategyType_value (s : StrategyType) : string :=
  match s with
  | MOMENTUM_BREAKOUT => "momentum_breakout"
  | MEAN_REVERSION => "mean_reversion"
  | VOLATILITY_EXPANSION => "volatility_expansion"
  end.

Module MarketSnapshot.
(** Modelled from the spec: the class [MarketSnapshot] of
    [app/core/schemas.py], with the fields the strategy evaluator reads;
    the fields it tests for truthiness before use are optional. *)
Record t := mk {
  symbol : string;
  ltp : Q;
  volume : Q;
  vwap : Q;
  regime : MarketRegime;
  volatility_percentile : Q;
  liquidity_score : Q;
  bb_upper : option Q;
  bb_middle : option Q;
  bb_lower : option Q;
  bb_width : option Q;
  atr : option Q;
  opening_range_high : option Q;
  opening_range_low : option Q;
  avg_volume_20d : option Q
}.
End MarketSnapshot.

Module StrategyScore.
(** Modelled from the spec: the class [StrategyScore] of
    [app/core/schemas.py]; the free-text rationale and the metrics
    dictionary are not modelled. *)
Record t := mk {
  strategy : StrategyType;
  confidence : Q
}.
End StrategyScore.

Module TradeIntent.
(** Modelled from the spec: the class [TradeIntent] of
    [app/core/schemas.py] (section 3, TradeProposal); the free-text
    rationale and invalidation conditions are not modelled. *)
Record t := mk {
  strategy_id : StrategyType;
  symbol : string;
  side : TradeSide;
  entry_type : OrderType;
  entry_price : option Q;
  quantity : Z;
  stop_loss_price : option Q;
  target_price : option Q;
  confidence_score : Q;
  expected_risk_rupees : Q;
  market_snapshot_id : option Z
}.
End TradeIntent.

(** A value of the [guardrail_flags] dictionary. *)
Inductive FlagValue :=
| FlagBool (b : bool)
| FlagFloat (x : Q).

Module RiskApproval.
(** Modelled from the spec: the class [RiskApproval] of
    [app/core/schemas.py] (section 3, ApprovalDecision), with the defaults
    of the [approvals] table. *)
Record t := mk {
  intent_id : option Z;
  approved : bool;
  adjusted_quantity : option Z;
  rejection_reason : option string;
  guardrail_flags : gmap string FlagValue;
  safe_mode_active : bool;
  hitl_required : bool;
  hitl_reason : option string;
  remaining_loss_budget : Q;
  trades_today : Z;
  current_strategy : option StrategyType
}.

Definition set_approved (v : bool) (a : t) : t :=
  mk (intent_id a) v (adjusted_quantity a) (rejection_reason a) (guardrail_flags a)
     (safe_mode_active a) (hitl_required a) (hitl_reason a) (remaining_loss_budget a)
     (trades_today a) (current_strategy a).

Definition set_adjusted_quantity (v : option Z) (a : t) : t :=
  mk (intent_id a) (approved a) v (rejection_reason a) (guardrail_flags a)
     (safe_mode_active a) (hitl_required a) (hitl_reason a) (remaining_loss_budget a)
     (trades_today a) (current_strategy a).

Definition set_rejection_reason (v : option string) (a : t) : t :=
  mk (intent_id a) (approved a) (adjusted_quantity a) v (guardrail_flags a)
     (safe_mode_active a) (hitl_required a) (hitl_reason a) (remaining_loss_budget a)
     (trades_today a) (current_strategy a).

(** [approval.guardrail_flags[k] = v] *)
Definition set_flag (k : string) (v : FlagValue) (a : t) : t :=
  mk (intent_id a) (approved a) (adjusted_quantity a) (rejection_reason a)
     (<[k := v]> (guardrail_flags a))
     (safe_mode_active a) (hitl_required a) (hitl_reason a) (remaining_loss_budget a)
     (trades_today a) (current_strategy a).

Definition set_hitl_required (v : bool) (a : t) : t :=
  mk (intent_id a) (approved a) (adjusted_quantity a) (rejection_reason a) (guardrail_flags a)
     (safe_mode_active a) v (hitl_reason a) (remaining_loss_budget a)
     (trades_today a) (current_strategy a).

Definition set_hitl_reason (v : option string) (a : t) : t :=
  mk (intent_id a) (approved a) (adjusted_quantity a) (rejection_reason a) (guardrail_flags a)
     (safe_mode_active a) (hitl_required a) v (remaining_loss_budget a)
     (trades_today a) (current_strategy a).

(** The three writes every failing check makes. *)
Definition reject (reason : string) (flag : string) (a : t) : t :=
  set_flag flag (FlagBool true) (set_rejection_reason (Some reason) (set_approved false a)).
End RiskApproval.

Module PaperOrder.
(** Modelled from the spec: the class [PaperOrder] of
    [app/core/schemas.py] (section 3, SimulatedOrder). *)
Record t := mk {
  order_id : string;
  intent_id : option Z;
  symbol : string;
  side : TradeSide;
  quantity : Z;
  order_type : OrderType;
  limit_price : option Q;
  status : OrderStatus;
  fill_price : option Q;
  fill_timestamp : option Z;
  slippage : option Q;
  brokerage : option Q;
  simulated_ltp : Q
}.
End PaperOrder.

Module Position.
(** Modelled from the spec: the class [Position] of [app/core/schemas.py]
    (section 3), with the columns of the [positions] table. *)
Record t := mk {
  symbol : string;
  quantity : Z;
  avg_price : Q;
  current_price : Q;
  unrealized_pnl : Q;
  entry_order_id : option string;
  stop_loss_price : option Q;
  target_price : option Q;
  strategy : option StrategyType;
  opened_at : Z;
  last_updated : Z
}.

Definition set_quantity (v : Z) (p : t) : t :=
  mk (symbol p) v (avg_price p) (current_price p) (unrealized_pnl p) (entry_order_id p)
     (stop_loss_price p) (target_price p) (strategy p) (opened_at p) (last_updated p).

Definition set_avg_price (v : Q) (p : t) : t :=
  mk (symbol p) (quantity p) v (current_price p) (unrealized_pnl p) (entry_order_id p)
     (stop_loss_price p) (target_price p) (strategy p) (opened_at p) (last_updated p).

Definition set_last_updated (v : Z) (p : t) : t :=
  mk (symbol p) (quantity p) (avg_price p) (current_price p) (unrealized_pnl p) (entry_order_id p)
     (stop_loss_price p) (target_price p) (strategy p) (opened_at p) v.

Definition set_symbol (v : string) (p : t) : t :=
  mk v (quantity p) (avg_price p) (current_price p) (unrealized_pnl p) (entry_order_id p)
     (stop_loss_price p) (target_price p) (strategy p) (opened_at p) (last_updated p).
End Position.

Module DailyState.
(** Modelled from the spec: the class [DailyState] of
    [app/core/schemas.py] (section 3, DailyRiskLedger), with the columns
    of the [daily_state] table. *)
Record t := mk {
  date : string;
  realized_pnl : Q;
  unrealized_pnl : Q;
  total_pnl : Q;
  loss_budget_remaining : Q;
  max_daily_loss : Q;
  safe_mode : bool;
  active_strategy : option StrategyType;
  strategy_switched_at : option Z;
  trades_count : Z;
  max_trades : Z;
  hitl_approvals_pending : Z;
  hitl_approvals_given : Z
}.

(** Modelled from the spec: the constructor call
    [DailyState(date, loss_budget_remaining, max_daily_loss, max_trades)],
    every other field at its default (zero PnL, safe-mode false, no active
    strategy, zero trades). *)
Definition fresh (d : string) (budget max_loss : Q) (max_tr : Z) : t :=
  mk d 0 0 0 budget max_loss false None None 0 max_tr 0 0.

Definition set_date (v : string) (s : t) : t :=
  mk v (realized_pnl s) (unrealized_pnl s) (total_pnl s) (loss_budget_remaining s)
     (max_daily_loss s) (safe_mode s) (active_strategy s) (strategy_switched_at s)
     (trades_count s) (max_trades s) (hitl_approvals_pending s) (hitl_approvals_given s).

Definition set_safe_mode (v : bool) (s : t) : t :=
  mk (date s) (realized_pnl s) (unrealized_pnl s) (total_pnl s) (loss_budget_remaining s)
     (max_daily_loss s) v (active_strategy s) (strategy_switched_at s)
     (trades_count s) (max_trades s) (hitl_approvals_pending s) (hitl_approvals_given s).

Definition set_active_strategy (v : option StrategyType) (s : t) : t :=
  mk (date s) (realized_pnl s) (unrealized_pnl s) (total_pnl s) (loss_budget_remaining s)
     (max_daily_loss s) (safe_mode s) v (strategy_switched_at s)
     (trades_count s) (max_trades s) (hitl_approvals_pending s) (hitl_approvals_given s).

Definition set_strategy_switched_at (v : option Z) (s : t) : t :=
  mk (date s) (realized_pnl s) (unrealized_pnl s) (total_pnl s) (loss_budget_remaining s)
     (max_daily_loss s) (safe_mode s) (active_strategy s) v
     (trades_count s) (max_trades s) (hitl_approvals_pending s) (hitl_approvals_given s).

Definition set_trades_count (v : Z) (s : t) : t :=
  mk (date s) (realized_pnl s) (unrealized_pnl s) (total_pnl s) (loss_budget_remaining s)
     (max_daily_loss s) (safe_mode s) (active_strategy s) (strategy_switched_at s)
     v (max_trades s) (hitl_approvals_pending s) (hitl_approvals_given s).

Definition set_hitl_approvals_pending (v : Z) (s : t) : t :=
  mk (date s) (realized_pnl s) (unrealized_pnl s) (total_pnl s) (loss_budget_remaining s)
     (max_daily_loss s) (safe_mode s) (active_strategy s) (strategy_switched_at s)
     (trades_count s) (max_trades s) v (hitl_approvals_given s).
End DailyState.

(** The two methods of [app/core/schemas.py] that the agents call and whose
    bodies are not part of the sources at hand: [DailyState.update_pnl]
    with its keyword arguments [realized] and [unrealized] ([None] when the
    keyword is not passed), and [Position.update_pnl(current_price)].  The
    agents are defined over any implementation of them. *)
Class SchemaMethods := {
  DailyState_update_pnl : option Q -> option Q -> DailyState.t -> DailyState.t;
  Position_update_pnl : Q -> Position.t -> Position.t
}.

(** What the guardrail and ledger results need of these methods: the ledger
    method keeps the date key and never clears the safe-mode latch. *)
Class SchemaLaws (SM : SchemaMethods) : Prop := {
  update_pnl_date : forall r u s,
    DailyState.date (DailyState_update_pnl r u s) = DailyState.date s;
  update_pnl_latch : forall r u s,
    DailyState.safe_mode s = true ->
    DailyState.safe_mode (DailyState_update_pnl r u s) = true
}.

(** What position monitoring needs of [Position.update_pnl]: it refreshes
    the mark price and the unrealized PnL and leaves the instrument, the
    size, the average price and the exit levels alone. *)
Class PositionLaws (SM : SchemaMethods) : Prop := {
  position_update_pnl_symbol : forall price p,
    Position.symbol (Position_update_pnl price p) = Position.symbol p;
  position_update_pnl_quantity : forall price p,
    Position.quantity (Position_update_pnl price p) = Position.quantity p;
  position_update_pnl_avg_price : forall price p,
    Position.avg_price (Position_update_pnl price p) = Position.avg_price p;
  position_update_pnl_stop_loss : forall price p,
    Position.stop_loss_price (Position_update_pnl price p) = Position.stop_loss_price p;
  position_update_pnl_target : forall price p,
    Position.target_price (Position_update_pnl price p) = Position.target_price p
}.

(** [repr] of a float, as an f-string field without a format writes it
    ([{intent.entry_price}], [{self.hitl_confidence_threshold}]).  The
    shortest-round-trip algorithm is not modelled; the agents are defined
    over any rendering. *)
Class PyRuntime := {
  float_repr : Q -> string
}.

(** ** Configuration ([app/core/config.py]) *)

Module Settings.
Record t := mk {
  DAILY_CAPITAL : Q;
  MAX_DAILY_LOSS : Q;
  MAX_TRADES_PER_DAY : Z;
  PER_TRADE_MAX_LOSS_PERCENT : Q;
  TRADING_START_HOUR : Z;
  TRADING_START_MINUTE : Z;
  TRADING_END_HOUR : Z;
  TRADING_END_MINUTE : Z;
  EXIT_ONLY_HOUR : Z;
  EXIT_ONLY_MINUTE : Z;
  REQUIRE_HITL_FIRST_N_TRADES : Z;
  HITL_CONFIDENCE_THRESHOLD : Q;
  STRATEGY_SWITCH_COOLDOWN_MINUTES : Z;
  STRATEGY_SWITCH_MIN_IMPROVEMENT : Q;
  PAPER_SLIPPAGE_PERCENT : Q;
  PAPER_BROKERAGE_PER_ORDER : Q;
  TRADING_SYMBOLS : string
}.

(** The [Field(default=...)] values. *)
Definition default : t :=
  mk 2000 300 5 50 9 15 15 15 15 0 2 0.7 20 0.15 0.05 20
     "HINDCOPPER,MCX,LAURUSLABS,NAVINFLUOR,RADICO".

Definition get_trading_symbols (s : t) : list string :=
  List.filter (fun x => negb (String.eqb x "")) (map str_strip (split_comma (TRADING_SYMBOLS s))).
End Settings.

(** ** Helpers ([app/core/utils.py]) *)

Module Utils.
Section WithSettings.
Variable settings : Settings.t.

(** [is_trading_hours()]: [current_time] is [datetime.now().time()]; the
    second component is [None] when inside trading hours. *)
Definition is_trading_hours (current_time : Z) : bool * option string :=
  let start_time :=
    time_of_day (Settings.TRADING_START_HOUR settings) (Settings.TRADING_START_MINUTE settings) in
  let end_time :=
    time_of_day (Settings.TRADING_END_HOUR settings) (Settings.TRADING_END_MINUTE settings) in
  if (current_time <? start_time)%Z then
    (false,
     Some ("Market not open yet (opens at "
           ++ time_str (Settings.TRADING_START_HOUR settings)
                (Settings.TRADING_START_MINUTE settings) ++ ")")%string)
  else if (end_time <? current_time)%Z then
    (false,
     Some ("Market closed (closed at "
           ++ time_str (Settings.TRADING_END_HOUR settings)
                (Settings.TRADING_END_MINUTE settings) ++ ")")%string)
  else (true, None).

Definition is_exit_only_time (current_time : Z) : bool :=
  let exit_only_time :=
    time_of_day (Settings.EXIT_ONLY_HOUR settings) (Settings.EXIT_ONLY_MINUTE settings) in
  (exit_only_time <=? current_time)%Z.

Definition calculate_slippage (price : Q) (side : string) (slippage_percent : option Q) : Q :=
  let slippage_percent :=
    match slippage_percent with
    | None => Settings.PAPER_SLIPPAGE_PERCENT settings
    | Some p => p
    end in
  let slippage_factor := slippage_percent / 100 in
  if String.eqb (str_lower side) "buy" then price * (1 + slippage_factor)
  else price * (1 - slippage_factor).
End WithSettings.
End Utils.

(** ** Persistence ([app/core/storage.py]) *)

Module Storage.
(** The tables the agents read back: [positions] (primary key [symbol]),
    [daily_state] (primary key [date]) and [paper_orders] (primary key
    [order_id]). *)
Record t := mk {
  positions : gmap string Position.t;
  daily_state : gmap string DailyState.t;
  paper_orders : gmap string PaperOrder.t
}.

Definition empty : t := mk ∅ ∅ ∅.

Definition save_paper_order (order : PaperOrder.t) (st : t) : t :=
  mk (positions st) (daily_state st) (<[PaperOrder.order_id order := order]> (paper_orders st)).

Definition save_position (position : Position.t) (st : t) : t :=
  mk (<[Position.symbol position := position]> (positions st)) (daily_state st) (paper_orders st).

(** A row read back carries its primary key in the [symbol] column. *)
Definition get_position (symbol : string) (st : t) : option Position.t :=
  Position.set_symbol symbol <$> positions st !! symbol.

(** [SELECT * FROM positions WHERE quantity != 0] *)
Definition get_all_positions (st : t) : list Position.t :=
  List.filter (fun p => negb (Position.quantity p =? 0)%Z)
    (map (fun kp => Position.set_symbol (fst kp) (snd kp)) (map_to_list (positions st))).

Definition delete_position (symbol : string) (st : t) : t :=
  mk (delete symbol (positions st)) (daily_state st) (paper_orders st).

Definition save_daily_state (state : DailyState.t) (st : t) : t :=
  mk (positions st) (<[DailyState.date state := state]> (daily_state st)) (paper_orders st).

(** [date] is the caller's [get_today_date_str()]. *)
Definition get_or_create_daily_state (settings : Settings.t) (date : string) (st : t)
  : DailyState.t * t :=
  match daily_state st !! date with
  | Some row => (DailyState.set_date date row, st)
  | None =>
      let state :=
        DailyState.fresh date (Settings.MAX_DAILY_LOSS settings)
          (Settings.MAX_DAILY_LOSS settings) (Settings.MAX_TRADES_PER_DAY settings) in
      (state, save_daily_state state st)
  end.
End Storage.

(** ** Guardrail approval engine ([app/agents/risk_policy.py]) *)

Module RiskPolicyAgent.
Section Agent.
Context {SM : SchemaMethods} {RT : PyRuntime}.
Variable settings : Settings.t.

Definition _check_safe_mode (daily_state : DailyState.t) (approval : RiskApproval.t)
  : bool * RiskApproval.t :=
  if DailyState.safe_mode daily_state then
    (false, RiskApproval.reject "SAFE_MODE active - max daily loss reached" "safe_mode" approval)
  else (true, approval).

Definition _check_stop_loss (intent : TradeIntent.t) (approval : RiskApproval.t)
  : result (bool * RiskApproval.t) :=
  match TradeIntent.stop_loss_price intent with
  | None =>
      Ok (false, RiskApproval.reject "Mandatory stop-loss missing" "missing_stop_loss" approval)
  | Some stop =>
      match TradeIntent.side intent with
      | BUY =>
          (* [intent.stop_loss_price >= intent.entry_price] *)
          match py_le (TradeIntent.entry_price intent) (Some stop) with
          | Raise e => Raise e
          | Ok true =>
              Ok (false, RiskApproval.reject "Stop-loss for BUY must be below entry price"
                           "invalid_stop_loss" approval)
          | Ok false => Ok (true, approval)
          end
      | SELL =>
          (* [intent.stop_loss_price <= intent.entry_price] *)
          match py_le (Some stop) (TradeIntent.entry_price intent) with
          | Raise e => Raise e
          | Ok true =>
              Ok (false, RiskApproval.reject "Stop-loss for SELL must be above entry price"
                           "invalid_stop_loss" approval)
          | Ok false => Ok (true, approval)
          end
      end
  end.

Definition _check_daily_loss_budget (intent : TradeIntent.t)
    (daily_state : DailyState.t) (approval : RiskApproval.t) (st : Storage.t)
  : bool * RiskApproval.t * DailyState.t * Storage.t :=
  let budget := DailyState.loss_budget_remaining daily_state in
  if Qleb budget 0 then
    let approval :=
      RiskApproval.reject
        ("Daily loss budget exhausted (₹" ++ fmt_2f budget ++ " remaining)")
        "loss_budget_exhausted" approval in
    if negb (DailyState.safe_mode daily_state) then
      let daily_state := DailyState.set_safe_mode true daily_state in
      (false, approval, daily_state, Storage.save_daily_state daily_state st)
    else (false, approval, daily_state, st)
  else if Qltb budget (TradeIntent.expected_risk_rupees intent) then
    (false,
     RiskApproval.reject
       ("Trade risk (₹" ++ fmt_2f (TradeIntent.expected_risk_rupees intent)
        ++ ") exceeds remaining budget (₹" ++ fmt_2f budget ++ ")")
       "risk_exceeds_budget" approval,
     daily_state, st)
  else (true, approval, daily_state, st).

Definition _check_per_trade_risk (intent : TradeIntent.t) (daily_state : DailyState.t)
    (approval : RiskApproval.t) : bool * RiskApproval.t :=
  let max_risk_per_trade :=
    DailyState.loss_budget_remaining daily_state
    * Settings.PER_TRADE_MAX_LOSS_PERCENT settings / 100 in
  let max_risk_per_trade := py_min max_risk_per_trade 100 in
  if Qltb max_risk_per_trade (TradeIntent.expected_risk_rupees intent) then
    (false,
     RiskApproval.reject
       ("Per-trade risk (₹" ++ fmt_2f (TradeIntent.expected_risk_rupees intent)
        ++ ") exceeds limit (₹" ++ fmt_2f max_risk_per_trade ++ ")")
       "per_trade_risk_exceeded" approval)
  else (true, RiskApproval.set_flag "max_risk_per_trade" (FlagFloat max_risk_per_trade) approval).

Definition _check_max_trades (daily_state : DailyState.t) (approval : RiskApproval.t)
  : bool * RiskApproval.t :=
  if (DailyState.max_trades daily_state <=? DailyState.trades_count daily_state)%Z then
    (false,
     RiskApproval.reject
       ("Max trades per day (" ++ pretty (DailyState.max_trades daily_state) ++ ") reached")
       "max_trades_reached" approval)
  else (true, approval).

Definition strategy_switch_cooldown : Z :=
  timedelta_minutes (Settings.STRATEGY_SWITCH_COOLDOWN_MINUTES settings).

(** [now] is the [datetime.now()] read for the cooldown. *)
Definition _check_strategy_switch (now : Z) (intent : TradeIntent.t)
    (daily_state : DailyState.t) (approval : RiskApproval.t) : bool * RiskApproval.t :=
  let new_strategy := TradeIntent.strategy_id intent in
  match DailyState.active_strategy daily_state with
  | None => (true, approval)
  | Some current_strategy =>
      if decide (current_strategy = new_strategy) then (true, approval)
      else
        let cooldown_left :=
          match DailyState.strategy_switched_at daily_state with
          | Some switched_at =>
              let time_since_switch := (now - switched_at)%Z in
              if (time_since_switch <? strategy_switch_cooldown)%Z
              then Some (strategy_switch_cooldown - time_since_switch)%Z
              else None
          | None => None
          end in
        match cooldown_left with
        | Some remaining =>
            (false,
             RiskApproval.reject
               ("Strategy switch cooldown active ("
                ++ pretty (td_seconds remaining `div` 60)%Z ++ " min remaining)")
               "strategy_switch_cooldown" approval)
        | None =>
            let bar := 0.6 + Settings.STRATEGY_SWITCH_MIN_IMPROVEMENT settings in
            if Qltb (TradeIntent.confidence_score intent) bar then
              (false,
               RiskApproval.reject ("Strategy switch requires confidence >= " ++ fmt_2f bar)
                 "strategy_switch_confidence_low" approval)
            else
              (true,
               RiskApproval.set_flag "strategy_switch" (FlagBool true)
                 (RiskApproval.set_hitl_reason
                    (Some ("Strategy switch: " ++ StrategyType_value current_strategy
                           ++ " -> " ++ StrategyType_value new_strategy)%string)
                    (RiskApproval.set_hitl_required true approval)))
        end
  end.

Definition _check_symbol_validity (intent : TradeIntent.t) (approval : RiskApproval.t)
  : bool * RiskApproval.t :=
  let allowed_symbols := Settings.get_trading_symbols settings in
  if negb (bool_decide (TradeIntent.symbol intent ∈ allowed_symbols)) then
    (false,
     RiskApproval.reject
       ("Symbol " ++ TradeIntent.symbol intent ++ " not in allowed trading list")
       "invalid_symbol" approval)
  else (true, approval).

Definition _check_liquidity (intent : TradeIntent.t) (approval : RiskApproval.t)
  : bool * RiskApproval.t :=
  (true, approval).

Definition _check_hitl_requirements (intent : TradeIntent.t) (daily_state : DailyState.t)
    (approval : RiskApproval.t) : RiskApproval.t :=
  let first_n := Settings.REQUIRE_HITL_FIRST_N_TRADES settings in
  let threshold := Settings.HITL_CONFIDENCE_THRESHOLD settings in
  let approval :=
    if (DailyState.trades_count daily_state <? first_n)%Z then
      RiskApproval.set_hitl_reason
        (Some ("First " ++ pretty first_n ++ " trades require approval (trade #"
               ++ pretty (DailyState.trades_count daily_state + 1)%Z ++ ")")%string)
        (RiskApproval.set_hitl_required true approval)
    else approval in
  let approval :=
    if Qltb (TradeIntent.confidence_score intent) threshold then
      let low :=
        ("Low confidence (" ++ fmt_2f (TradeIntent.confidence_score intent) ++ " < "
         ++ float_repr threshold ++ ")")%string in
      let approval := RiskApproval.set_hitl_required true approval in
      match RiskApproval.hitl_reason approval with
      | Some (String c r) =>
          RiskApproval.set_hitl_reason (Some (String c r ++ "; " ++ low)%string) approval
      | _ => RiskApproval.set_hitl_reason (Some low) approval
      end
    else approval in
  if RiskApproval.hitl_required approval then
    RiskApproval.set_flag "hitl_required" (FlagBool true) approval
  else approval.

(** [flags.get('max_risk_per_trade', default)]; a boolean flag read as a
    number is 1 or 0. *)
Definition flag_number (flags : gmap string FlagValue) (k : string) (default : Q) : Q :=
  match flags !! k with
  | Some (FlagFloat x) => x
  | Some (FlagBool b) => if b then 1 else 0
  | None => default
  end.

Definition _adjust_quantity (intent : TradeIntent.t) (daily_state : DailyState.t)
    (approval : RiskApproval.t) : result RiskApproval.t :=
  let max_risk :=
    flag_number (RiskApproval.guardrail_flags approval) "max_risk_per_trade"
      (DailyState.loss_budget_remaining daily_state) in
  match TradeIntent.stop_loss_price intent with
  | None => Raise TypeError
  | Some stop =>
      let risk_per_share :=
        match truthy (TradeIntent.entry_price intent) with
        | Some entry_price => Qabs (entry_price - stop)
        | None => Qabs (stop * 0.01)
        end in
      if Qltb 0 risk_per_share then
        let max_quantity := py_int (max_risk / risk_per_share) in
        if (max_quantity <? TradeIntent.quantity intent)%Z then
          Ok (RiskApproval.set_flag "quantity_adjusted" (FlagBool true)
                (RiskApproval.set_adjusted_quantity (Some (Z.max 1 max_quantity)) approval))
        else Ok approval
      else Ok approval
  end.

Definition _update_unrealized_pnl (daily_state : DailyState.t) (st : Storage.t)
  : DailyState.t * Storage.t :=
  let positions := Storage.get_all_positions st in
  let unrealized_pnl := fold_left Qplus (map Position.unrealized_pnl positions) 0 in
  let daily_state := DailyState_update_pnl None (Some unrealized_pnl) daily_state in
  (daily_state, Storage.save_daily_state daily_state st).

(** [all(checks)] *)
Definition all_true (checks : list bool) : bool := forallb (fun b => b) checks.

(** [approve(intent, intent_id)]; [today] is the date string and [now] the
    clock reading of this call. *)
Definition approve (today : string) (now : Z) (intent : TradeIntent.t) (intent_id : option Z)
    (st : Storage.t) : result RiskApproval.t * Storage.t :=
  let '(daily_state, st) := Storage.get_or_create_daily_state settings today st in
  let '(daily_state, st) := _update_unrealized_pnl daily_state st in
  let approval :=
    RiskApproval.mk intent_id true None None ∅ (DailyState.safe_mode daily_state) false None
      (DailyState.loss_budget_remaining daily_state) (DailyState.trades_count daily_state)
      (DailyState.active_strategy daily_state) in
  let '(c1, approval) := _check_safe_mode daily_state approval in
  match _check_stop_loss intent approval with
  | Raise e => (Raise e, st)
  | Ok (c2, approval) =>
      let '(c3, approval, daily_state, st) :=
        _check_daily_loss_budget intent daily_state approval st in
      let '(c4, approval) := _check_per_trade_risk intent daily_state approval in
      let '(c5, approval) := _check_max_trades daily_state approval in
      let '(c6, approval) := _check_strategy_switch now intent daily_state approval in
      let '(c7, approval) := _check_symbol_validity intent approval in
      let '(c8, approval) := _check_liquidity intent approval in
      let checks := [c1; c2; c3; c4; c5; c6; c7; c8] in
      if negb (all_true checks) then (Ok (RiskApproval.set_approved false approval), st)
      else
        let approval := _check_hitl_requirements intent daily_state approval in
        (_adjust_quantity intent daily_state approval, st)
  end.

Definition trigger_safe_mode (today : string) (st : Storage.t) : Storage.t :=
  let '(daily_state, st) := Storage.get_or_create_daily_state settings today st in
  let daily_state := DailyState.set_safe_mode true daily_state in
  Storage.save_daily_state daily_state st.

Definition reset_daily_state (today : string) (st : Storage.t) : Storage.t :=
  let new_state :=
    DailyState.fresh today (Settings.MAX_DAILY_LOSS settings) (Settings.MAX_DAILY_LOSS settings)
      (Settings.MAX_TRADES_PER_DAY settings) in
  Storage.save_daily_state new_state st.
End Agent.
End RiskPolicyAgent.

(** ** Paper execution simulator ([app/agents/execution_paper.py]) *)

(** What [market_data.get_ltp(symbols)] answers: an exception, or a
    dictionary of last traded prices. *)
Inductive LtpAnswer :=
| LtpFails
| LtpData (prices : gmap string Q).

(** The process state the simulator works on: the store, the
    [recent_order_hashes] dictionary of the agent instance, and the number
    of [uuid.uuid4()] values drawn so far. *)
Module World.
Record t := mk {
  storage : Storage.t;
  recent_order_hashes : gmap string Z;
  uuid_draws : nat
}.

Definition set_storage (v : Storage.t) (w : t) : t :=
  mk v (recent_order_hashes w) (uuid_draws w).

Definition set_recent_order_hashes (v : gmap string Z) (w : t) : t :=
  mk (storage w) v (uuid_draws w).
End World.

(** The three clock readings of one [_is_duplicate] call, in program order:
    for the five-minute test, for the recorded time, and for the pruning
    cut-off. *)
Module DupClock.
Record t := mk {
  t_seen : Z;
  t_record : Z;
  t_cutoff : Z
}.
End DupClock.

(** The dictionary returned by [_exit_position]. *)
Module ExitAction.
Record t := mk {
  symbol : string;
  reason : string;
  exit_price : Q;
  realized_pnl : Q;
  order_id : string
}.
End ExitAction.

Module ExecutionPaperAgent.
Section Agent.
Context {SM : SchemaMethods} {RT : PyRuntime}.
Variable settings : Settings.t.
(** The stream of [str(uuid.uuid4())] values. *)
Variable uuid4 : nat -> string.

Definition slippage_percent : Q := Settings.PAPER_SLIPPAGE_PERCENT settings.
Definition brokerage_per_order : Q := Settings.PAPER_BROKERAGE_PER_ORDER settings.

Definition draw_uuid (w : World.t) : string * World.t :=
  (uuid4 (World.uuid_draws w),
   World.mk (World.storage w) (World.recent_order_hashes w) (S (World.uuid_draws w))).

Definition intent_hash (intent : TradeIntent.t) : string :=
  (TradeIntent.symbol intent ++ "_" ++ TradeSide_value (TradeIntent.side intent) ++ "_"
   ++ StrategyType_value (TradeIntent.strategy_id intent) ++ "_"
   ++ match TradeIntent.entry_price intent with
      | None => "None"
      | Some p => float_repr p
      end)%string.

Definition _is_duplicate (clock : DupClock.t) (intent : TradeIntent.t) (w : World.t)
  : bool * World.t :=
  let h := intent_hash intent in
  let hashes := World.recent_order_hashes w in
  let seen_recently :=
    match hashes !! h with
    | Some last_time => (td_seconds (DupClock.t_seen clock - last_time) <? 300)%Z
    | None => false
    end in
  if seen_recently then (true, w)
  else
    let hashes := <[h := DupClock.t_record clock]> hashes in
    let cutoff := DupClock.t_cutoff clock in
    let hashes := filter (fun ht => (td_seconds (cutoff - snd ht) <? 600)%Z) hashes in
    (false, World.set_recent_order_hashes hashes w).

(** [now] is the clock reading used for the time stamps of this call. *)
Definition _simulate_fill (now : Z) (order_id : string) (intent : TradeIntent.t)
    (quantity : Z) (ltp : Q) : result PaperOrder.t :=
  let at_market :=
    let fill_price :=
      Utils.calculate_slippage settings ltp (TradeSide_value (TradeIntent.side intent))
        (Some slippage_percent) in
    Ok (Some fill_price, Some (Qabs (fill_price - ltp)), FILLED, Some now) in
  let pending := Ok (None, None, PENDING, None) in
  let fill :=
    match TradeIntent.entry_type intent with
    | MARKET => at_market
    | LIMIT =>
        let limit_price := TradeIntent.entry_price intent in
        match TradeIntent.side intent with
        | BUY =>
            match py_le (Some ltp) limit_price, limit_price with
            | Ok true, Some lim => Ok (Some (py_min ltp lim), Some 0, FILLED, Some now)
            | Ok _, _ => pending
            | Raise e, _ => Raise e
            end
        | SELL =>
            match py_le limit_price (Some ltp), limit_price with
            | Ok true, Some lim => Ok (Some (py_max ltp lim), Some 0, FILLED, Some now)
            | Ok _, _ => pending
            | Raise e, _ => Raise e
            end
        end
    | _ => at_market
    end in
  match fill with
  | Raise e => Raise e
  | Ok (fill_price, slippage, status, fill_timestamp) =>
      let order :=
        PaperOrder.mk order_id (TradeIntent.market_snapshot_id intent)
          (TradeIntent.symbol intent) (TradeIntent.side intent) quantity
          (TradeIntent.entry_type intent) (TradeIntent.entry_price intent) status
          fill_price fill_timestamp slippage
          (if decide (status = FILLED) then Some brokerage_per_order else None) ltp in
      (* the log line formats [fill_price] and [slippage] with [.2f] *)
      match fill_price, slippage with
      | Some _, Some _ => Ok order
      | _, _ => Raise TypeError
      end
  end.

Definition _update_position (now : Z) (order : PaperOrder.t) (intent : TradeIntent.t)
    (st : Storage.t) : result Storage.t :=
  match PaperOrder.fill_price order with
  | None => Raise TypeError
  | Some fill_price =>
      let oq := PaperOrder.quantity order in
      let position :=
        match Storage.get_position (PaperOrder.symbol order) st with
        | None =>
            Position.mk (PaperOrder.symbol order)
              (if decide (PaperOrder.side order = BUY) then oq else (- oq)%Z)
              fill_price fill_price 0 (Some (PaperOrder.order_id order))
              (TradeIntent.stop_loss_price intent) (TradeIntent.target_price intent)
              (Some (TradeIntent.strategy_id intent)) now now
        | Some position =>
            let q := Position.quantity position in
            let position :=
              match PaperOrder.side order with
              | BUY =>
                  let new_quantity := (q + oq)%Z in
                  let position :=
                    if (0 <=? q)%Z then
                      let total_cost :=
                        Position.avg_price position * inject_Z q + fill_price * inject_Z oq in
                      Position.set_avg_price
                        (if negb (new_quantity =? 0)%Z then total_cost / inject_Z new_quantity
                         else fill_price)
                        position
                    else position in
                  Position.set_quantity new_quantity position
              | SELL =>
                  let new_quantity := (q - oq)%Z in
                  let position :=
                    if (q <=? 0)%Z then
                      let total_cost :=
                        Position.avg_price position * inject_Z (Z.abs q)
                        + fill_price * inject_Z oq in
                      Position.set_avg_price
                        (if negb (new_quantity =? 0)%Z
                         then total_cost / inject_Z (Z.abs new_quantity)
                         else fill_price)
                        position
                    else position in
                  Position.set_quantity new_quantity position
              end in
            Position.set_last_updated now position
        end in
      if (Position.quantity position =? 0)%Z then
        Ok (Storage.delete_position (Position.symbol position) st)
      else Ok (Storage.save_position position st)
  end.

Definition _update_daily_state (today : string) (now : Z) (intent : TradeIntent.t)
    (st : Storage.t) : Storage.t :=
  let '(daily_state, st) := Storage.get_or_create_daily_state settings today st in
  let daily_state :=
    DailyState.set_trades_count (DailyState.trades_count daily_state + 1)%Z daily_state in
  let daily_state :=
    DailyState.set_active_strategy (Some (TradeIntent.strategy_id intent)) daily_state in
  let daily_state :=
    if negb (bool_decide (DailyState.active_strategy daily_state
                          = Some (TradeIntent.strategy_id intent))) then
      DailyState.set_strategy_switched_at (Some now) daily_state
    else daily_state in
  Storage.save_daily_state daily_state st.

(** [execute(intent, approval)]; [ltp_answer] is what the market-data
    collaborator answers to the one price request of this call. *)
Definition execute (today : string) (now : Z) (clock : DupClock.t) (ltp_answer : LtpAnswer)
    (intent : TradeIntent.t) (approval : RiskApproval.t) (w : World.t)
  : result (option PaperOrder.t) * World.t :=
  if negb (RiskApproval.approved approval) then (Ok None, w)
  else
    let '(dup, w) := _is_duplicate clock intent w in
    if dup then (Ok None, w)
    else
      let quantity :=
        match truthy_int (RiskApproval.adjusted_quantity approval) with
        | Some q => q
        | None => TradeIntent.quantity intent
        end in
      let current_ltp :=
        match ltp_answer with
        | LtpFails => None
        | LtpData prices => prices !! TradeIntent.symbol intent
        end in
      match current_ltp with
      | None => (Ok None, w)
      | Some current_ltp =>
          let '(order_id, w) := draw_uuid w in
          match _simulate_fill now order_id intent quantity current_ltp with
          | Raise e => (Raise e, w)
          | Ok order =>
              let filled :=
                if decide (PaperOrder.status order = FILLED) then
                  match _update_position now order intent (World.storage w) with
                  | Raise e => Raise e
                  | Ok st => Ok (_update_daily_state today now intent st)
                  end
                else Ok (World.storage w) in
              match filled with
              | Raise e => (Raise e, w)
              | Ok st =>
                  (Ok (Some order),
                   World.set_storage (Storage.save_paper_order order st) w)
              end
          end
      end.

Definition _exit_position (today : string) (now : Z) (position : Position.t) (exit_price : Q)
    (reason : string) (w : World.t) : ExitAction.t * World.t :=
  let exit_side := if (0 <? Position.quantity position)%Z then SELL else BUY in
  let exit_quantity := Z.abs (Position.quantity position) in
  let fill_price :=
    Utils.calculate_slippage settings exit_price (TradeSide_value exit_side)
      (Some slippage_percent) in
  let '(order_id, w) := draw_uuid w in
  let exit_order :=
    PaperOrder.mk order_id None (Position.symbol position) exit_side exit_quantity MARKET None
      FILLED (Some fill_price) (Some now) (Some (Qabs (fill_price - exit_price)))
      (Some brokerage_per_order) exit_price in
  let st := Storage.save_paper_order exit_order (World.storage w) in
  let realized_pnl :=
    if (0 <? Position.quantity position)%Z then
      (fill_price - Position.avg_price position) * inject_Z exit_quantity
      - brokerage_per_order * 2
    else
      (Position.avg_price position - fill_price) * inject_Z exit_quantity
      - brokerage_per_order * 2 in
  let '(daily_state, st) := Storage.get_or_create_daily_state settings today st in
  let daily_state := DailyState_update_pnl (Some realized_pnl) None daily_state in
  let st := Storage.save_daily_state daily_state st in
  let st := Storage.delete_position (Position.symbol position) st in
  (ExitAction.mk (Position.symbol position) reason fill_price realized_pnl order_id,
   World.set_storage st w).

(** The body of the monitoring loop for one position. *)
Definition monitor_position (today : string) (now : Z) (prices : gmap string Q)
    (position : Position.t) (acc : list ExitAction.t * World.t)
  : list ExitAction.t * World.t :=
  let '(exit_actions, w) := acc in
  match prices !! Position.symbol position with
  | None => (exit_actions, w)
  | Some current_price =>
      let position := Position_update_pnl current_price position in
      let w := World.set_storage (Storage.save_position position (World.storage w)) w in
      let q := Position.quantity position in
      let '(exit_actions, w) :=
        match truthy (Position.stop_loss_price position) with
        | Some stop =>
            if (0 <? q)%Z && Qleb current_price stop then
              let '(a, w) := _exit_position today now position current_price "stop_loss" w in
              (exit_actions ++ [a], w)
            else if (q <? 0)%Z && Qleb stop current_price then
              let '(a, w) := _exit_position today now position current_price "stop_loss" w in
              (exit_actions ++ [a], w)
            else (exit_actions, w)
        | None => (exit_actions, w)
        end in
      match truthy (Position.target_price position) with
      | Some target =>
          if (0 <? q)%Z && Qleb target current_price then
            let '(a, w) := _exit_position today now position current_price "target" w in
            (exit_actions ++ [a], w)
          else if (q <? 0)%Z && Qleb current_price target then
            let '(a, w) := _exit_position today now position current_price "target" w in
            (exit_actions ++ [a], w)
          else (exit_actions, w)
      | None => (exit_actions, w)
      end
  end.

(** [monitor_positions()]; [ltp_answer] is what the market-data collaborator
    answers if it is asked (it is asked only when a position is open). *)
Definition monitor_positions (today : string) (now : Z) (ltp_answer : LtpAnswer) (w : World.t)
  : list ExitAction.t * World.t :=
  let positions := Storage.get_all_positions (World.storage w) in
  match positions with
  | [] => ([], w)
  | _ =>
      match ltp_answer with
      | LtpFails => ([], w)
      | LtpData prices =>
          fold_left (fun acc position => monitor_position today now prices position acc)
            positions ([], w)
      end
  end.

Definition flatten_all_positions (today : string) (now : Z) (ltp_answer : LtpAnswer)
    (reason : string) (w : World.t) : World.t :=
  let positions := Storage.get_all_positions (World.storage w) in
  match positions with
  | [] => w
  | _ =>
      match ltp_answer with
      | LtpFails => w
      | LtpData prices =>
          fold_left
            (fun w position =>
               match truthy (prices !! Position.symbol position) with
               | Some current_price =>
                   snd (_exit_position today now position current_price reason w)
               | None => w
               end)
            positions w
      end
  end.
End Agent.
End ExecutionPaperAgent.

(** ** Strategy evaluator ([app/agents/strategy_brain.py]) *)

Module StrategyBrainAgent.

(** [x / y] on floats: [ZeroDivisionError] when [y] is zero. *)
Definition py_div (x y : Q) : result Q :=
  if Qeq_bool y 0 then Raise ZeroDivisionError else Ok (x / y).

(** [o1 and o2] as a condition on two optional floats. *)
Definition both_truthy (o1 o2 : option Q) : option (Q * Q) :=
  match truthy o1, truthy o2 with
  | Some a, Some b => Some (a, b)
  | _, _ => None
  end.

Definition finish (strategy : StrategyType) (confidence : Q) : StrategyScore.t :=
  let confidence := py_min confidence 1 in
  StrategyScore.mk strategy (py_max 0 confidence).

Definition _evaluate_momentum_breakout (snapshot : MarketSnapshot.t) : result StrategyScore.t :=
  let confidence := 0 in
  let ltp := MarketSnapshot.ltp snapshot in
  let vwap := MarketSnapshot.vwap snapshot in
  let confidence :=
    match both_truthy (MarketSnapshot.opening_range_high snapshot)
                      (MarketSnapshot.opening_range_low snapshot) with
    | Some (or_high, or_low) =>
        if Qltb or_high ltp then confidence + 0.25
        else if Qltb ltp or_low then confidence + 0.25
        else confidence
    | None => confidence
    end in
  match py_div (ltp - vwap) vwap with
  | Raise e => Raise e
  | Ok d =>
      let vwap_deviation := d * 100 in
      let confidence :=
        if Qltb 0.5 (Qabs vwap_deviation) then confidence + 0.2 else confidence in
      let confidence :=
        match truthy (MarketSnapshot.avg_volume_20d snapshot) with
        | Some avg =>
            if Qltb (avg * 1.2) (MarketSnapshot.volume snapshot) then confidence + 0.2
            else confidence
        | None => confidence
        end in
      let confidence :=
        match MarketSnapshot.regime snapshot with
        | TRENDING_UP | TRENDING_DOWN => confidence + 0.2
        | _ => confidence - 0.1
        end in
      let confidence :=
        if Qltb 0.7 (MarketSnapshot.liquidity_score snapshot) then confidence + 0.15
        else confidence in
      Ok (finish MOMENTUM_BREAKOUT confidence)
  end.

Definition _evaluate_mean_reversion (snapshot : MarketSnapshot.t) : result StrategyScore.t :=
  let confidence := 0 in
  let ltp := MarketSnapshot.ltp snapshot in
  let vwap := MarketSnapshot.vwap snapshot in
  match py_div (Qabs (ltp - vwap)) vwap with
  | Raise e => Raise e
  | Ok d =>
      let vwap_deviation := d * 100 in
      let confidence := if Qltb 1.5 vwap_deviation then confidence + 0.3 else confidence in
      let banded :=
        match both_truthy (MarketSnapshot.bb_upper snapshot) (MarketSnapshot.bb_lower snapshot) with
        | Some (bb_upper, bb_lower) =>
            match py_div (Qabs (ltp - bb_upper)) ltp with
            | Raise e => Raise e
            | Ok du =>
                match py_div (Qabs (ltp - bb_lower)) ltp with
                | Raise e => Raise e
                | Ok dl =>
                    let upper_distance := du * 100 in
                    let lower_distance := dl * 100 in
                    if Qltb upper_distance 0.5 then Ok (confidence + 0.3)
                    else if Qltb lower_distance 0.5 then Ok (confidence + 0.3)
                    else Ok confidence
                end
            end
        | None => Ok confidence
        end in
      match banded with
      | Raise e => Raise e
      | Ok confidence =>
          let confidence :=
            match MarketSnapshot.regime snapshot with
            | RANGING | WHIPSAW => confidence + 0.25
            | _ => confidence - 0.15
            end in
          let vp := MarketSnapshot.volatility_percentile snapshot in
          let confidence :=
            if Qltb 30 vp && Qltb vp 70 then confidence + 0.15 else confidence in
          Ok (finish MEAN_REVERSION confidence)
      end
  end.

Definition _evaluate_volatility_expansion (snapshot : MarketSnapshot.t)
  : result StrategyScore.t :=
  let confidence := 0 in
  let ltp := MarketSnapshot.ltp snapshot in
  let compressed :=
    match both_truthy (MarketSnapshot.bb_width snapshot) (MarketSnapshot.atr snapshot) with
    | Some (bb_width, _) =>
        match py_div bb_width ltp with
        | Raise e => Raise e
        | Ok d =>
            let bb_width_pct := d * 100 in
            if Qltb bb_width_pct 2 then Ok (confidence + 0.3) else Ok confidence
        end
    | None => Ok confidence
    end in
  match compressed with
  | Raise e => Raise e
  | Ok confidence =>
      let vp := MarketSnapshot.volatility_percentile snapshot in
      let confidence :=
        if Qltb vp 30 then confidence + 0.25
        else if Qltb 70 vp then confidence + 0.15
        else confidence in
      let confidence :=
        match both_truthy (MarketSnapshot.bb_upper snapshot) (MarketSnapshot.bb_lower snapshot) with
        | Some (bb_upper, bb_lower) =>
            if Qltb bb_upper ltp || Qltb ltp bb_lower then confidence + 0.25 else confidence
        | None => confidence
        end in
      let confidence :=
        match truthy (MarketSnapshot.avg_volume_20d snapshot) with
        | Some avg =>
            if Qltb (avg * 1.5) (MarketSnapshot.volume snapshot) then confidence + 0.2
            else confidence
        | None => confidence
        end in
      Ok (finish VOLATILITY_EXPANSION confidence)
  end.

(** The agent instance: the threshold and the registry, a dictionary
    iterated in insertion order. *)
Record t := mk {
  min_confidence_threshold : Q;
  strategy_evaluators : list (StrategyType * (MarketSnapshot.t -> result StrategyScore.t))
}.

(** [__init__] *)
Definition init : t :=
  mk 0.6
     [(MOMENTUM_BREAKOUT, _evaluate_momentum_breakout);
      (MEAN_REVERSION, _evaluate_mean_reversion);
      (VOLATILITY_EXPANSION, _evaluate_volatility_expansion)].

Definition _generate_trade_intent (snapshot : MarketSnapshot.t) (score : StrategyScore.t)
  : TradeIntent.t :=
  let ltp := MarketSnapshot.ltp snapshot in
  let vwap := MarketSnapshot.vwap snapshot in
  let strategy := StrategyScore.strategy score in
  let '(side, entry_price, stop_loss_price, target_price) :=
    match strategy with
    | MOMENTUM_BREAKOUT =>
        if Qltb vwap ltp then (BUY, None, vwap * 0.995, ltp * 1.015)
        else (SELL, None, vwap * 1.005, ltp * 0.985)
    | MEAN_REVERSION =>
        if Qltb vwap ltp then (SELL, Some ltp, ltp * 1.01, vwap)
        else (BUY, Some ltp, ltp * 0.99, vwap)
    | VOLATILITY_EXPANSION =>
        let above :=
          match truthy (MarketSnapshot.bb_upper snapshot) with
          | Some u => Qltb u ltp
          | None => false
          end in
        let below :=
          match truthy (MarketSnapshot.bb_lower snapshot) with
          | Some l => Qltb ltp l
          | None => false
          end in
        let middle_or (fallback : Q) :=
          match truthy (MarketSnapshot.bb_middle snapshot) with
          | Some m => m
          | None => fallback
          end in
        if above then (BUY, None, middle_or (ltp * 0.99), ltp * 1.02)
        else if below then (SELL, None, middle_or (ltp * 1.01), ltp * 0.98)
        else (BUY, None, ltp * 0.99, ltp * 1.02)
    end in
  let quantity := 1%Z in
  let expected_risk := Qabs (ltp - stop_loss_price) * inject_Z quantity in
  TradeIntent.mk strategy (MarketSnapshot.symbol snapshot) side
    (match entry_price with None => MARKET | Some _ => LIMIT end)
    entry_price quantity (Some stop_loss_price) (Some target_price)
    (StrategyScore.confidence score) expected_risk None.

(** The loop of [evaluate] that fills [scores]: every registered evaluator
    is called on the snapshot, in registry order; the first exception
    escapes. *)
Fixpoint collect_scores
    (evaluators : list (StrategyType * (MarketSnapshot.t -> result StrategyScore.t)))
    (snapshot : MarketSnapshot.t) : result (list StrategyScore.t) :=
  match evaluators with
  | [] => Ok []
  | (_, evaluator) :: rest =>
      match evaluator snapshot with
      | Raise e => Raise e
      | Ok score =>
          match collect_scores rest snapshot with
          | Raise e => Raise e
          | Ok scores => Ok (score :: scores)
          end
      end
  end.

Definition evaluate (self : t) (snapshot : MarketSnapshot.t) : result (option TradeIntent.t) :=
  match collect_scores (strategy_evaluators self) snapshot with
  | Raise e => Raise e
  | Ok scores =>
      match py_max_by StrategyScore.confidence scores with
      | None => Raise ValueError
      | Some best_score =>
          if Qltb (StrategyScore.confidence best_score) (min_confidence_threshold self)
          then Ok None
          else Ok (Some (_generate_trade_intent snapshot best_score))
      end
  end.
End StrategyBrainAgent.

(** ** Cycle scheduler ([app/core/scheduler.py]) *)

(** What the outside world answers while one symbol is processed. *)
Module SymbolInput.
Record t := mk {
  (** [market_data.build_market_snapshot(symbol)]; [None] when it raises *)
  snapshot : option MarketSnapshot.t;
  (** the row ids the store assigns to the snapshot and to the intent *)
  snapshot_id : Z;
  intent_id : Z;
  (** the clock reading of the guardrail engine *)
  approve_now : Z;
  (** the clock readings and the price answer of the simulator *)
  execute_now : Z;
  execute_clock : DupClock.t;
  execute_ltp : LtpAnswer
}.
End SymbolInput.

(** What the outside world answers during one tick. *)
Module CycleInput.
Record t := mk {
  (** [datetime.now().time()] as read by [is_trading_hours] and by
      [is_exit_only_time] *)
  time_trading_hours : Z;
  time_exit_only : Z;
  monitor_now : Z;
  monitor_ltp : LtpAnswer;
  flatten_now : Z;
  flatten_ltp : LtpAnswer;
  symbol_input : string -> SymbolInput.t
}.
End CycleInput.

(** The return point a tick leaves through, with the exits that position
    monitoring reported when it ran. *)
Inductive CycleOutcome :=
| OutsideTradingHours (reason : option string)
| SafeModeFlattened (exit_actions : list ExitAction.t)
| ExitOnly (exit_actions : list ExitAction.t)
| CycleCompleted (exit_actions : list ExitAction.t).

(** The exits that position monitoring reported during a tick, if it
    ran. *)
Definition monitored_exits (outcome : CycleOutcome) : option (list ExitAction.t) :=
  match outcome with
  | OutsideTradingHours _ => None
  | SafeModeFlattened exit_actions
  | ExitOnly exit_actions
  | CycleCompleted exit_actions => Some exit_actions
  end.

Module TradingScheduler.
Section Scheduler.
Context {SM : SchemaMethods} {RT : PyRuntime}.
Variable settings : Settings.t.
Variable uuid4 : nat -> string.
Variable strategy_brain : StrategyBrainAgent.t.

(** [self.symbols], fixed by [__init__]. *)
Definition symbols : list string := Settings.get_trading_symbols settings.

(** The body of the per-symbol loop.  [daily_state] is the ledger object
    the tick read before monitoring; the loop mutates and saves that same
    object.  Every exception is caught by the loop, after which the next
    symbol is processed; writes made before the exception stay. *)
Definition process_symbol (today : string) (input : SymbolInput.t)
    (acc : DailyState.t * World.t) : DailyState.t * World.t :=
  let '(daily_state, w) := acc in
  match SymbolInput.snapshot input with
  | None => (daily_state, w)
  | Some snapshot =>
      match StrategyBrainAgent.evaluate strategy_brain snapshot with
      | Raise _ => (daily_state, w)
      | Ok None => (daily_state, w)
      | Ok (Some intent) =>
          let intent :=
            TradeIntent.mk (TradeIntent.strategy_id intent) (TradeIntent.symbol intent)
              (TradeIntent.side intent) (TradeIntent.entry_type intent)
              (TradeIntent.entry_price intent) (TradeIntent.quantity intent)
              (TradeIntent.stop_loss_price intent) (TradeIntent.target_price intent)
              (TradeIntent.confidence_score intent) (TradeIntent.expected_risk_rupees intent)
              (Some (SymbolInput.snapshot_id input)) in
          let '(approval, st) :=
            RiskPolicyAgent.approve settings today (SymbolInput.approve_now input) intent
              (Some (SymbolInput.intent_id input)) (World.storage w) in
          let w := World.set_storage st w in
          match approval with
          | Raise _ => (daily_state, w)
          | Ok approval =>
              if negb (RiskApproval.approved approval) then (daily_state, w)
              else if RiskApproval.hitl_required approval then
                let daily_state :=
                  DailyState.set_hitl_approvals_pending
                    (DailyState.hitl_approvals_pending daily_state + 1)%Z daily_state in
                (daily_state,
                 World.set_storage (Storage.save_daily_state daily_state (World.storage w)) w)
              else
                let '(_, w) :=
                  ExecutionPaperAgent.execute settings uuid4 today
                    (SymbolInput.execute_now input) (SymbolInput.execute_clock input)
                    (SymbolInput.execute_ltp input) intent approval w in
                (daily_state, w)
          end
      end
  end.

(** One tick; [today] is the date string of the day the tick runs on. *)
Definition _run_trading_cycle (today : string) (input : CycleInput.t) (w : World.t)
  : CycleOutcome * World.t :=
  let '(in_trading_hours, reason) :=
    Utils.is_trading_hours settings (CycleInput.time_trading_hours input) in
  if negb in_trading_hours then (OutsideTradingHours reason, w)
  else
    let exit_only := Utils.is_exit_only_time settings (CycleInput.time_exit_only input) in
    let '(daily_state, st) :=
      Storage.get_or_create_daily_state settings today (World.storage w) in
    let w := World.set_storage st w in
    let '(exit_actions, w) :=
      ExecutionPaperAgent.monitor_positions settings uuid4 today
        (CycleInput.monitor_now input) (CycleInput.monitor_ltp input) w in
    if DailyState.safe_mode daily_state then
      (SafeModeFlattened exit_actions,
       ExecutionPaperAgent.flatten_all_positions settings uuid4 today
         (CycleInput.flatten_now input) (CycleInput.flatten_ltp input) "safe_mode" w)
    else if exit_only then (ExitOnly exit_actions, w)
    else
      let '(_, w) :=
        fold_left
          (fun acc symbol => process_symbol today (CycleInput.symbol_input input symbol) acc)
          symbols (daily_state, w) in
      (CycleCompleted exit_actions, w).

(** [_cleanup()]; [current_time] is read by [is_exit_only_time]. *)
Definition _cleanup (today : string) (now : Z) (current_time : Z) (ltp_answer : LtpAnswer)
    (w : World.t) : World.t :=
  if Utils.is_exit_only_time settings current_time then
    ExecutionPaperAgent.flatten_all_positions settings uuid4 today now ltp_answer
      "end_of_day" w
  else w.
End Scheduler.
End TradingScheduler.

(** ** A reference implementation of the two schema methods *)

(** Modelled from the spec: [DailyState.update_pnl] of
    [app/core/schemas.py].  Section 3: total PnL is realized plus
    unrealized, and the remaining loss budget moves only with realized
    results (down with a realized loss, up with a realized gain); sections
    4.3 and 4.4: the recomputed unrealized PnL replaces the stored one and
    a realized PnL is added to the realized total.  The safe-mode flag is
    not touched. *)
Definition spec_DailyState_update_pnl (realized unrealized : option Q) (s : DailyState.t)
  : DailyState.t :=
  let r := match realized with Some r => r | None => 0 end in
  let realized_pnl := DailyState.realized_pnl s + r in
  let unrealized_pnl :=
    match unrealized with Some u => u | None => DailyState.unrealized_pnl s end in
  DailyState.mk (DailyState.date s) realized_pnl unrealized_pnl (realized_pnl + unrealized_pnl)
    (DailyState.loss_budget_remaining s + r) (DailyState.max_daily_loss s)
    (DailyState.safe_mode s) (DailyState.active_strategy s)
    (DailyState.strategy_switched_at s) (DailyState.trades_count s) (DailyState.max_trades s)
    (DailyState.hitl_approvals_pending s) (DailyState.hitl_approvals_given s).

(** Modelled from the spec: [Position.update_pnl] of
    [app/core/schemas.py].  Section 4.4: refresh the mark price and
    recompute the unrealized PnL of the signed quantity. *)
Definition spec_Position_update_pnl (current_price : Q) (p : Position.t) : Position.t :=
  Position.mk (Position.symbol p) (Position.quantity p) (Position.avg_price p) current_price
    ((current_price - Position.avg_price p) * inject_Z (Position.quantity p))
    (Position.entry_order_id p) (Position.stop_loss_price p) (Position.target_price p)
    (Position.strategy p) (Position.opened_at p) (Position.last_updated p).

Definition spec_schema : SchemaMethods :=
  {| DailyState_update_pnl := spec_DailyState_update_pnl;
     Position_update_pnl := spec_Position_update_pnl |}.

(** A rendering of floats for the concrete runs below: two decimals. *)
Definition sample_runtime : PyRuntime := {| float_repr := fmt_2f |}.

(** Order ids for the concrete runs below. *)
Definition sample_uuid4 (n : nat) : string := ("order-" ++ pretty n)%string.


(** ** Vocabulary of the properties *)

(** The decision [approve] starts from, for the ledger it has just
    refreshed. *)
Definition initial_approval (intent_id : option Z) (daily_state : DailyState.t)
  : RiskApproval.t :=
  RiskApproval.mk intent_id true None None ∅ (DailyState.safe_mode daily_state) false None
    (DailyState.loss_budget_remaining daily_state) (DailyState.trades_count daily_state)
    (DailyState.active_strategy daily_state).

(** A flag is triggered in a decision when the flag map holds [True] for
    it. *)
Definition flagged (flag : string) (a : RiskApproval.t) : Prop :=
  RiskApproval.guardrail_flags a !! flag = Some (FlagBool true).

(** Each of the eight checks run on its own against a given decision, in
    the order [approve] lists them: the verdict and the decision as that
    check alone leaves it. *)
Definition standalone_checks `{SchemaMethods} `{PyRuntime} (settings : Settings.t) (now : Z)
    (intent : TradeIntent.t) (daily_state : DailyState.t) (st : Storage.t)
    (a0 : RiskApproval.t) : list (bool * RiskApproval.t) :=
  [ RiskPolicyAgent._check_safe_mode daily_state a0;
    match RiskPolicyAgent._check_stop_loss intent a0 with
    | Ok r => r
    | Raise _ => (true, a0)
    end;
    (let '(c, a, _, _) := RiskPolicyAgent._check_daily_loss_budget intent daily_state a0 st in
     (c, a));
    RiskPolicyAgent._check_per_trade_risk settings intent daily_state a0;
    RiskPolicyAgent._check_max_trades daily_state a0;
    RiskPolicyAgent._check_strategy_switch settings now intent daily_state a0;
    RiskPolicyAgent._check_symbol_validity settings intent a0;
    RiskPolicyAgent._check_liquidity intent a0 ].

(** The reason written by the last failing check of a list of results. *)
Definition last_rejection (results : list (bool * RiskApproval.t)) : option string :=
  fold_left
    (fun (acc : option string) (r : bool * RiskApproval.t) =>
       if fst r then acc else RiskApproval.rejection_reason (snd r))
    results None.

(** What one guardrail check writes into the decision. *)
Inductive CheckWrite :=
| WKeep
| WReject (reason flag : string)
| WNote (key : string) (value : Q)
| WSwitch (hitl_reason : string).

Definition write_passes (w : CheckWrite) : bool :=
  match w with
  | WReject _ _ => false
  | _ => true
  end.

Definition apply_write (w : CheckWrite) (a : RiskApproval.t) : RiskApproval.t :=
  match w with
  | WKeep => a
  | WReject reason flag => RiskApproval.reject reason flag a
  | WNote key value => RiskApproval.set_flag key (FlagFloat value) a
  | WSwitch hitl_reason =>
      RiskApproval.set_flag "strategy_switch" (FlagBool true)
        (RiskApproval.set_hitl_reason (Some hitl_reason)
           (RiskApproval.set_hitl_required true a))
  end.

Definition apply_writes (ws : list CheckWrite) (a : RiskApproval.t) : RiskApproval.t :=
  fold_left (fun a w => apply_write w a) ws a.

(** The reason carried after a sequence of writes: the reason of the last
    rejection, or the one carried before. *)
Definition reason_of_writes (ws : list CheckWrite) (before : option string) : option string :=
  fold_left
    (fun (acc : option string) (w : CheckWrite) =>
       match w with
       | WReject reason _ => Some reason
       | _ => acc
       end)
    ws before.

(** No rejection uses the key under which the per-trade cap is noted, and
    nothing else is noted. *)
Definition write_ok (w : CheckWrite) : Prop :=
  match w with
  | WReject _ flag => flag <> "max_risk_per_trade"%string
  | WNote key _ => key = "max_risk_per_trade"%string
  | _ => True
  end.

(** The stop-loss check returns a verdict (it does not raise) exactly when
    no stop is set or an entry price is set. *)
Definition stop_loss_comparable (intent : TradeIntent.t) : Prop :=
  TradeIntent.stop_loss_price intent = None \/ TradeIntent.entry_price intent <> None.

(** The ledger of a given day is latched when the stored row has the
    safe-mode flag set. *)
Definition latched (today : string) (st : Storage.t) : Prop :=
  exists daily_state,
    Storage.daily_state st !! today = Some daily_state
    /\ DailyState.safe_mode daily_state = true.

(** The signed size an order adds to a position: positive for a BUY. *)
Definition signed_quantity (order : PaperOrder.t) : Z :=
  match PaperOrder.side order with
  | BUY => PaperOrder.quantity order
  | SELL => (- PaperOrder.quantity order)%Z
  end.

(** The net quantity of an instrument once a fill is applied to the
    position found in the book, if any. *)
Definition net_quantity (existing : option Position.t) (order : PaperOrder.t) : Z :=
  match existing with
  | None => signed_quantity order
  | Some position => (Position.quantity position + signed_quantity order)%Z
  end.

(** [order] is a filled BUY of [quantity] units of [symbol] at [price]. *)
Definition buy_fill_of (order : PaperOrder.t) (symbol : string) (quantity : Z) (price : Q)
  : Prop :=
  PaperOrder.symbol order = symbol
  /\ PaperOrder.side order = BUY
  /\ PaperOrder.quantity order = quantity
  /\ PaperOrder.fill_price order = Some price.

(** The price request of [execute] yields no price for the instrument: the
    collaborator raises, or its answer has no entry for the symbol. *)
Definition no_price_for (symbol : string) (answer : LtpAnswer) : Prop :=
  match answer with
  | LtpFails => True
  | LtpData prices => prices !! symbol = None
  end.

Definition seconds (n : Z) : Z := (n * usec_per_sec)%Z.

(** The operations of the guardrail engine, of the simulator and of the
    scheduler that can write to the store, each with what the outside world
    answers during the call.  The explicit reset
    ([RiskPolicyAgent.reset_daily_state]) is not one of them. *)
Inductive Operation :=
| OpApprove (now : Z) (intent : TradeIntent.t) (intent_id : option Z)
| OpTriggerSafeMode
| OpExecute (now : Z) (clock : DupClock.t) (ltp_answer : LtpAnswer) (intent : TradeIntent.t)
    (approval : RiskApproval.t)
| OpMonitorPositions (now : Z) (ltp_answer : LtpAnswer)
| OpFlattenAllPositions (now : Z) (ltp_answer : LtpAnswer) (reason : string)
| OpRunTradingCycle (input : CycleInput.t)
| OpCleanup (now : Z) (current_time : Z) (ltp_answer : LtpAnswer).

Section Operations.
Context {SM : SchemaMethods} {RT : PyRuntime}.
Variable settings : Settings.t.
Variable uuid4 : nat -> string.
Variable strategy_brain : StrategyBrainAgent.t.

(** The world after one operation run on the day [today]. *)
Definition run_operation (today : string) (op : Operation) (w : World.t) : World.t :=
  match op with
  | OpApprove now intent intent_id =>
      World.set_storage
        (snd (RiskPolicyAgent.approve settings today now intent intent_id (World.storage w))) w
  | OpTriggerSafeMode =>
      World.set_storage (RiskPolicyAgent.trigger_safe_mode settings today (World.storage w)) w
  | OpExecute now clock ltp_answer intent approval =>
      snd (ExecutionPaperAgent.execute settings uuid4 today now clock ltp_answer intent
             approval w)
  | OpMonitorPositions now ltp_answer =>
      snd (ExecutionPaperAgent.monitor_positions settings uuid4 today now ltp_answer w)
  | OpFlattenAllPositions now ltp_answer reason =>
      ExecutionPaperAgent.flatten_all_positions settings uuid4 today now ltp_answer reason w
  | OpRunTradingCycle input =>
      snd (TradingScheduler._run_trading_cycle settings uuid4 strategy_brain today input w)
  | OpCleanup now current_time ltp_answer =>
      TradingScheduler._cleanup settings uuid4 today now current_time ltp_answer w
  end.

Definition run_operations (today : string) (ops : list Operation) (w : World.t) : World.t :=
  fold_left (fun w op => run_operation today op w) ops w.
End Operations.

(** [best] is the first entry of [items] with the highest key: everything
    before it has a strictly smaller key, nothing after it has a larger
    one. *)
Definition first_maximum {A} (key : A -> Q) (items : list A) (best : A) : Prop :=
  exists before after,
    items = before ++ best :: after
    /\ (forall y, In y before -> key y < key best)
    /\ (forall y, In y after -> key y <= key best).

(** ** Vocabulary of the further properties *)

(** The ledger the checks of [approve] run against: the row of the day, read
    or created, after the refresh of its unrealized PnL. *)
Definition refreshed_ledger {SM : SchemaMethods} (settings : Settings.t) (today : string)
    (st : Storage.t) : DailyState.t :=
  let '(daily_state, st) := Storage.get_or_create_daily_state settings today st in
  fst (RiskPolicyAgent._update_unrealized_pnl daily_state st).

(** The cap the per-trade check compares the expected risk with: the
    configured percentage of the remaining budget, at most 100. *)
Definition per_trade_cap (settings : Settings.t) (daily_state : DailyState.t) : Q :=
  py_min
    (DailyState.loss_budget_remaining daily_state
     * Settings.PER_TRADE_MAX_LOSS_PERCENT settings / 100)
    100.

(** The stop is set, the entry price is set, and the stop is strictly on the
    losing side of the entry. *)
Definition stop_on_losing_side (intent : TradeIntent.t) : Prop :=
  exists stop entry,
    TradeIntent.stop_loss_price intent = Some stop
    /\ TradeIntent.entry_price intent = Some entry
    /\ match TradeIntent.side intent with
       | BUY => stop < entry
       | SELL => entry < stop
       end.

(** The proposal names another strategy than the one active in the
    ledger. *)
Definition switches_strategy (intent : TradeIntent.t) (daily_state : DailyState.t) : Prop :=
  exists current,
    DailyState.active_strategy daily_state = Some current
    /\ current <> TradeIntent.strategy_id intent.

(** A change of strategy is let through at [now]: the cooldown since the
    recorded switch time, if any, has elapsed and the confidence reaches 0.6
    plus the configured improvement. *)
Definition switch_permitted (settings : Settings.t) (now : Z) (intent : TradeIntent.t)
    (daily_state : DailyState.t) : Prop :=
  switches_strategy intent daily_state ->
  (forall switched_at,
      DailyState.strategy_switched_at daily_state = Some switched_at ->
      (RiskPolicyAgent.strategy_switch_cooldown settings <= now - switched_at)%Z)
  /\ 0.6 + Settings.STRATEGY_SWITCH_MIN_IMPROVEMENT settings
     <= TradeIntent.confidence_score intent.

(** The conditions of the eight guardrail checks, on a given ledger. *)
Definition guardrails_hold (settings : Settings.t) (now : Z) (intent : TradeIntent.t)
    (daily_state : DailyState.t) : Prop :=
  DailyState.safe_mode daily_state = false
  /\ stop_on_losing_side intent
  /\ 0 < DailyState.loss_budget_remaining daily_state
  /\ TradeIntent.expected_risk_rupees intent <= DailyState.loss_budget_remaining daily_state
  /\ TradeIntent.expected_risk_rupees intent <= per_trade_cap settings daily_state
  /\ (DailyState.trades_count daily_state < DailyState.max_trades daily_state)%Z
  /\ TradeIntent.symbol intent ∈ Settings.get_trading_symbols settings
  /\ switch_permitted settings now intent daily_state.

(** The quantity [execute] trades for a decision:
    [approval.adjusted_quantity or intent.quantity]. *)
Definition traded_quantity (intent : TradeIntent.t) (approval : RiskApproval.t) : Z :=
  match truthy_int (RiskApproval.adjusted_quantity approval) with
  | Some q => q
  | None => TradeIntent.quantity intent
  end.

(** The write of a permitted change of strategy. *)
Definition switch_write (current : StrategyType) (intent : TradeIntent.t) : CheckWrite :=
  WSwitch ("Strategy switch: " ++ StrategyType_value current ++ " -> "
           ++ StrategyType_value (TradeIntent.strategy_id intent))%string.

(** The price of [ltp] has reached the limit of the intent, on the side of
    the intent. *)
Definition limit_reached (side : TradeSide) (ltp limit : Q) : Prop :=
  match side with
  | BUY => ltp <= limit
  | SELL => limit <= ltp
  end.

(** The fill is on the side the position is on: a BUY into a long, a SELL
    into a short. *)
Definition same_direction (order : PaperOrder.t) (position : Position.t) : Prop :=
  (PaperOrder.side order = BUY /\ (0 < Position.quantity position)%Z)
  \/ (PaperOrder.side order = SELL /\ (Position.quantity position < 0)%Z).

(** The fill is against the side the position is on. *)
Definition opposite_direction (order : PaperOrder.t) (position : Position.t) : Prop :=
  (PaperOrder.side order = SELL /\ (0 < Position.quantity position)%Z)
  \/ (PaperOrder.side order = BUY /\ (Position.quantity position < 0)%Z).

(** [intent.market_snapshot_id = snapshot_id] *)
Definition with_snapshot_id (snapshot_id : Z) (intent : TradeIntent.t) : TradeIntent.t :=
  TradeIntent.mk (TradeIntent.strategy_id intent) (TradeIntent.symbol intent)
    (TradeIntent.side intent) (TradeIntent.entry_type intent)
    (TradeIntent.entry_price intent) (TradeIntent.quantity intent)
    (TradeIntent.stop_loss_price intent) (TradeIntent.target_price intent)
    (TradeIntent.confidence_score intent) (TradeIntent.expected_risk_rupees intent)
    (Some snapshot_id).

(** The parts of the process state that only an execution changes: the
    position book, the order log, the de-duplication cache and the number
    of order ids drawn. *)
Definition same_trading_state (w w' : World.t) : Prop :=
  Storage.positions (World.storage w') = Storage.positions (World.storage w)
  /\ Storage.paper_orders (World.storage w') = Storage.paper_orders (World.storage w)
  /\ World.recent_order_hashes w' = World.recent_order_hashes w
  /\ World.uuid_draws w' = World.uuid_draws w.

(** Two rows of the position book hold the same thing: the same quantity at
    the same average price, with the same exit levels. *)
Definition same_holding (p p' : Position.t) : Prop :=
  Position.quantity p' = Position.quantity p
  /\ Position.avg_price p' = Position.avg_price p
  /\ Position.stop_loss_price p' = Position.stop_loss_price p
  /\ Position.target_price p' = Position.target_price p.

(** Every row of [book'] is a row of [book] with the same holding. *)
Definition holdings_within (book book' : gmap string Position.t) : Prop :=
  forall symbol row',
    book' !! symbol = Some row' ->
    exists row, book !! symbol = Some row /\ same_holding row row'.

(** ** Concrete scenarios *)

Module Scenario.
Definition today : string := "2026-01-05".

(** The intent of the guardrail tests ([tests/test_risk_policy.py],
    [setup_method]), for a given symbol. *)
Definition test_intent (symbol : string) : TradeIntent.t :=
  TradeIntent.mk MOMENTUM_BREAKOUT symbol BUY MARKET (Some 2450) 10 (Some 2400) (Some 2500)
    0.75 50 None.

(** A ledger as the guardrail tests build it: the given remaining budget and
    trade count, a maximum daily loss of 200 and at most 5 trades. *)
Definition ledger (budget : Q) (trades : Z) : DailyState.t :=
  DailyState.mk today 0 0 0 budget 200 false None None trades 5 0 0.

Definition store_with (daily_state : DailyState.t) : Storage.t :=
  Storage.save_daily_state daily_state Storage.empty.

(** A market order as the strategy evaluator emits it for a breakout: no
    entry price, a stop-loss and a target. *)
Definition market_intent : TradeIntent.t :=
  TradeIntent.mk MOMENTUM_BREAKOUT "HINDCOPPER" BUY MARKET None 1 (Some 2400) (Some 2500)
    0.75 50 None.

(** A ledger whose active strategy is the momentum breakout, never switched
    so far. *)
Definition momentum_ledger : DailyState.t :=
  DailyState.mk today 0 0 0 200 200 false (Some MOMENTUM_BREAKOUT) None 3 5 0 0.

(** A mean-reversion limit order at 100 with its stop at 99. *)
Definition reversion_intent : TradeIntent.t :=
  TradeIntent.mk MEAN_REVERSION "HINDCOPPER" BUY LIMIT (Some 100) 1 (Some 99) (Some 101)
    0.8 1 None.

(** An approval of one unit with no sign-off pending. *)
Definition plain_approval : RiskApproval.t :=
  RiskApproval.mk None true None None ∅ false false None 200 3 (Some MOMENTUM_BREAKOUT).

Definition world_with (st : Storage.t) : World.t := World.mk st ∅ 0.

(** The long position of the monitoring scenario: 10 units bought at 100
    with the stop at 98 and no target. *)
Definition long_position : Position.t :=
  Position.mk "MCX" 10 100 100 0 (Some "entry"%string) (Some 98) None
    (Some MOMENTUM_BREAKOUT) 0 0.

(** A store holding that position and a fresh ledger of the day. *)
Definition store_with_long_position : Storage.t :=
  Storage.save_position long_position (store_with (ledger 200 1)).

(** A snapshot on which the breakout and the expansion strategies tie at
    0.65 and mean reversion scores 0: the price is above the opening range
    and within 0.5 percent of the VWAP, volume is twice the average, the
    regime is trending, the bands are compressed around the price and
    volatility is at the 80th percentile. *)
Definition tied_snapshot : MarketSnapshot.t :=
  MarketSnapshot.mk "MCX" 100.2 2000 100 TRENDING_UP 80 0.5 (Some 105) (Some 100) (Some 95)
    (Some 1) (Some 1) (Some 100) (Some 99) (Some 1000).

(** A ledger whose safe-mode flag is set, with the long position still
    open. *)
Definition latched_ledger : DailyState.t :=
  DailyState.mk today 0 0 0 0 200 true None None 1 5 0 0.

Definition latched_world : World.t :=
  world_with (Storage.save_position long_position (store_with latched_ledger)).

(** The answers of the outside world to a tick that reads [current_time]
    as the time of day, while the market quotes 97 for the position's
    instrument and no snapshot can be built. *)
Definition quiet_symbol : SymbolInput.t :=
  SymbolInput.mk None 0 0 0 0 (DupClock.mk 0 0 0) LtpFails.

Definition tick_at (current_time : Z) : CycleInput.t :=
  CycleInput.mk current_time current_time 0 (LtpData {[ "MCX"%string := 97 ]}) 0
    (LtpData {[ "MCX"%string := 97 ]}) (fun _ => quiet_symbol).

(** A day's worth of operations on a latched ledger: an approval request, a
    manual trigger, an execution attempt, a tick at 10:00 and the cleanup
    at 15:10. *)
Definition busy_day : list Operation :=
  [ OpApprove 0 (test_intent "HINDCOPPER") None;
    OpTriggerSafeMode;
    OpExecute 0 (DupClock.mk 0 0 0) (LtpData {[ "HINDCOPPER"%string := 100 ]})
      reversion_intent plain_approval;
    OpRunTradingCycle (tick_at (time_of_day 10 0));
    OpCleanup 0 (time_of_day 15 10) LtpFails ].

(** A filled BUY of [quantity] units of [symbol] at [price]. *)
Definition buy_fill (order_id symbol : string) (quantity : Z) (price : Q) : PaperOrder.t :=
  PaperOrder.mk order_id None symbol BUY quantity MARKET None FILLED (Some price) (Some 0%Z)
    (Some 0) (Some 20) price.

(** A ledger whose active strategy is mean reversion, switched to at time
    0. *)
Definition cooling_ledger : DailyState.t :=
  DailyState.mk today 0 0 0 200 200 false (Some MEAN_REVERSION) (Some 0%Z) 3 5 0 0.

(** A cache that recorded the mean-reversion limit order at time 0. *)
Definition day_old_cache : World.t :=
  World.mk Storage.empty
    {[ ExecutionPaperAgent.intent_hash (RT := sample_runtime) reversion_intent
       := 0%Z ]} 0.

(** A filled SELL of [quantity] units of [symbol] at [price]. *)
Definition sell_fill (order_id symbol : string) (quantity : Z) (price : Q) : PaperOrder.t :=
  PaperOrder.mk order_id None symbol SELL quantity MARKET None FILLED (Some price) (Some 0%Z)
    (Some 0) (Some 20) price.

(** A long position whose stop (98) lies above its target (95). *)
Definition crossed_position : Position.t :=
  Position.mk "MCX" 10 100 100 0 (Some "entry"%string) (Some 98) (Some 95)
    (Some MOMENTUM_BREAKOUT) 0 0.

(** A long position opened by a manual order: stop and target are 0.0. *)
Definition manual_position : Position.t :=
  Position.mk "MCX" 10 100 100 0 (Some "entry"%string) (Some 0) (Some 0)
    (Some MOMENTUM_BREAKOUT) 0 0.

(** A world whose book holds the given position, with a fresh ledger of
    the day. *)
Definition world_holding (position : Position.t) : World.t :=
  world_with
    (Storage.save_position position (store_with (ledger 200 1))).

(** A snapshot on which mean reversion scores highest: the price is two
    percent below the VWAP, at the lower band, in a ranging market of
    medium volatility. *)
Definition stretched_snapshot : MarketSnapshot.t :=
  MarketSnapshot.mk "MCX" 98 1000 100 RANGING 50 0.5 (Some 102) (Some 100) (Some 98)
    (Some 4) (Some 1) (Some 101) (Some 99) (Some 1000).

(** The ledger of the day after a realized loss of 70: the budget is down
    to 130. *)
Definition ledger_after_loss : DailyState.t :=
  DailyState.mk today (-70) 0 (-70) 130 200 false None None 0 5 0 0.

(** The answers of the outside world while the symbol of the stretched
    snapshot is processed. *)
Definition stretched_input : SymbolInput.t :=
  SymbolInput.mk (Some stretched_snapshot) 1 1 0 0 (DupClock.mk 0 0 0)
    (LtpData {[ "MCX"%string := 98 ]}).

(** The answers of the outside world while the symbol of the tied snapshot
    is processed. *)
Definition tied_input : SymbolInput.t :=
  SymbolInput.mk (Some tied_snapshot) 1 1 0 0 (DupClock.mk 0 0 0)
    (LtpData {[ "MCX"%string := 100.2 ]}).

(** Settings whose symbol list is written with blanks and empty fields. *)
Definition untidy_settings : Settings.t :=
  Settings.mk 2000 300 5 50 9 15 15 15 15 0 2 0.7 20 0.15 0.05 20 " MCX , ,TCS ,".
End Scenario.
(** * Verification *)

(** ** Comparisons on rationals *)

Lemma Qltb_lt (x y : Q) : Qltb x y = true <-> x < y.
Proof.
  unfold Qltb. rewrite negb_true_iff. split.
  - intros H. destruct (Qlt_le_dec x y) as [Hlt | Hle]; [exact Hlt |].
    apply Qle_bool_iff in Hle. congruence.
  - intros Hlt. destruct (Qle_bool y x) eqn:E; [| reflexivity].
    apply Qle_bool_iff in E. lra.
Qed.

Lemma Qltb_ge (x y : Q) : Qltb x y = false <-> y <= x.
Proof.
  unfold Qltb. rewrite negb_false_iff. apply Qle_bool_iff.
Qed.

Lemma Qleb_le (x y : Q) : Qleb x y = true <-> x <= y.
Proof. apply Qle_bool_iff. Qed.

Lemma Qleb_gt (x y : Q) : Qleb x y = false <-> y < x.
Proof.
  unfold Qleb. split.
  - intros H. destruct (Qlt_le_dec y x) as [Hlt | Hle]; [exact Hlt |].
    apply Qle_bool_iff in Hle. congruence.
  - intros Hlt. destruct (Qle_bool x y) eqn:E; [| reflexivity].
    apply Qle_bool_iff in E. lra.
Qed.

(** ** The guardrail checks, one at a time *)

Section GuardrailFacts.
Context {SM : SchemaMethods} {RT : PyRuntime}.
Variable settings : Settings.t.

(** A passing stop-loss check means: a stop is set, an entry price is set,
    and the stop is on the losing side of the entry. *)
Lemma _check_stop_loss_pass intent approval approval' :
  RiskPolicyAgent._check_stop_loss intent approval = Ok (true, approval') ->
  exists stop entry,
    TradeIntent.stop_loss_price intent = Some stop
    /\ TradeIntent.entry_price intent = Some entry
    /\ match TradeIntent.side intent with
       | BUY => stop < entry
       | SELL => entry < stop
       end.
Proof.
  unfold RiskPolicyAgent._check_stop_loss.
  destruct (TradeIntent.stop_loss_price intent) as [stop |]; [| discriminate].
  destruct (TradeIntent.entry_price intent) as [entry |];
    [| destruct (TradeIntent.side intent); discriminate].
  intros H. exists stop, entry. split; [reflexivity | split; [reflexivity |]].
  destruct (TradeIntent.side intent); simpl in H.
  - destruct (Qleb entry stop) eqn:E; [discriminate |]. now apply Qleb_gt in E.
  - destruct (Qleb stop entry) eqn:E; [discriminate |]. now apply Qleb_gt in E.
Qed.

Lemma all_true_cons b checks : RiskPolicyAgent.all_true (b :: checks) = true ->
  b = true /\ RiskPolicyAgent.all_true checks = true.
Proof. unfold RiskPolicyAgent.all_true. simpl. intros H. now apply andb_true_iff in H. Qed.

Lemma _check_hitl_requirements_approved intent daily_state approval :
  RiskApproval.approved
    (RiskPolicyAgent._check_hitl_requirements settings intent daily_state approval)
  = RiskApproval.approved approval.
Proof.
  unfold RiskPolicyAgent._check_hitl_requirements.
  repeat match goal with
         | |- context [if ?c then _ else _] => destruct c
         | |- context [match ?x with Some _ => _ | None => _ end] => destruct x
         | |- context [match ?x with EmptyString => _ | String _ _ => _ end] => destruct x
         end; reflexivity.
Qed.

Lemma _adjust_quantity_approved intent daily_state approval approval' :
  RiskPolicyAgent._adjust_quantity intent daily_state approval = Ok approval' ->
  RiskApproval.approved approval' = RiskApproval.approved approval.
Proof.
  unfold RiskPolicyAgent._adjust_quantity.
  destruct (TradeIntent.stop_loss_price intent); [| discriminate].
  repeat match goal with
         | |- context [if ?c then _ else _] => destruct c
         end; intros H; injection H as <-; reflexivity.
Qed.

(** C1. For every trade intent, ledger and store: when [approve] returns a
    decision with [approved = true], the intent carries a stop-loss price
    and an entry price, the stop of a BUY is strictly below the entry and
    the stop of a SELL strictly above it.  So no decision is approved with
    a missing stop-loss or with a stop on the wrong side of the entry. *)
Theorem approve_never_approves_bad_stop_loss today now intent intent_id st approval st' :
  RiskPolicyAgent.approve settings today now intent intent_id st = (Ok approval, st') ->
  RiskApproval.approved approval = true ->
  exists stop entry,
    TradeIntent.stop_loss_price intent = Some stop
    /\ TradeIntent.entry_price intent = Some entry
    /\ match TradeIntent.side intent with
       | BUY => stop < entry
       | SELL => entry < stop
       end.
Proof.
  unfold RiskPolicyAgent.approve.
  destruct (Storage.get_or_create_daily_state settings today st) as [ds0 st0].
  destruct (RiskPolicyAgent._update_unrealized_pnl ds0 st0) as [ds1 st1].
  destruct (RiskPolicyAgent._check_safe_mode ds1 _) as [c1 a1].
  destruct (RiskPolicyAgent._check_stop_loss intent a1) as [[c2 a2] | e] eqn:E2;
    [| discriminate].
  destruct (RiskPolicyAgent._check_daily_loss_budget intent ds1 a2 st1)
    as [[[c3 a3] ds3] st3].
  destruct (RiskPolicyAgent._check_per_trade_risk settings intent ds3 a3) as [c4 a4].
  destruct (RiskPolicyAgent._check_max_trades ds3 a4) as [c5 a5].
  destruct (RiskPolicyAgent._check_strategy_switch settings now intent ds3 a5) as [c6 a6].
  destruct (RiskPolicyAgent._check_symbol_validity settings intent a6) as [c7 a7].
  destruct (RiskPolicyAgent._check_liquidity intent a7) as [c8 a8].
  destruct (RiskPolicyAgent.all_true [c1; c2; c3; c4; c5; c6; c7; c8]) eqn:Eall; simpl.
  - intros _ _. apply all_true_cons in Eall as [_ Eall].
    apply all_true_cons in Eall as [-> _].
    eapply _check_stop_loss_pass. exact E2.
  - intros H Happ. injection H as <- _. simpl in Happ. discriminate.
Qed.
End GuardrailFacts.

Lemma approve_never_approves_bad_stop_loss_witness :
  exists stop entry,
    TradeIntent.stop_loss_price (Scenario.test_intent "HINDCOPPER") = Some stop
    /\ TradeIntent.entry_price (Scenario.test_intent "HINDCOPPER") = Some entry
    /\ stop < entry.
Proof.
  eapply (approve_never_approves_bad_stop_loss (SM := spec_schema) (RT := sample_runtime)
            Settings.default Scenario.today 0%Z (Scenario.test_intent "HINDCOPPER") None
            (Scenario.store_with (Scenario.ledger 200 3))).
  - vm_compute. reflexivity.
  - reflexivity.
Defined.

(** ** The approval flow as a sequence of writes *)

Lemma apply_writes_reason ws a :
  RiskApproval.rejection_reason (apply_writes ws a)
  = reason_of_writes ws (RiskApproval.rejection_reason a).
Proof.
  unfold apply_writes, reason_of_writes. revert a.
  induction ws as [| w ws IH]; intros a; [reflexivity |].
  simpl. rewrite IH. destruct w; reflexivity.
Qed.

Lemma last_rejection_of_writes ws a0 :
  last_rejection (map (fun w => (write_passes w, apply_write w a0)) ws)
  = reason_of_writes ws None.
Proof.
  unfold last_rejection, reason_of_writes. generalize (@None string) as acc.
  induction ws as [| w ws IH]; intros acc; [reflexivity |].
  simpl. rewrite IH. destruct w; reflexivity.
Qed.

Lemma apply_writes_approved_true ws a :
  forallb write_passes ws = true ->
  RiskApproval.approved (apply_writes ws a) = RiskApproval.approved a.
Proof.
  unfold apply_writes. revert a.
  induction ws as [| w ws IH]; intros a; [reflexivity |].
  simpl. intros H. apply andb_true_iff in H as [Hw Hws].
  rewrite IH by exact Hws. destruct w; try reflexivity. discriminate.
Qed.

Lemma flagged_apply_write f w a :
  write_ok w -> f <> "max_risk_per_trade"%string -> flagged f a -> flagged f (apply_write w a).
Proof.
  unfold flagged. intros Hok Hf Ha. destruct w as [| r g | k v | r]; simpl in *.
  - exact Ha.
  - destruct (decide (g = f)) as [-> | Hne].
    + apply lookup_insert_eq.
    + rewrite lookup_insert_ne by exact Hne. exact Ha.
  - subst k. rewrite lookup_insert_ne by congruence. exact Ha.
  - destruct (decide ("strategy_switch"%string = f)) as [<- | Hne].
    + apply lookup_insert_eq.
    + rewrite lookup_insert_ne by exact Hne. exact Ha.
Qed.

Lemma flagged_apply_writes f ws a :
  Forall write_ok ws -> f <> "max_risk_per_trade"%string ->
  flagged f a -> flagged f (apply_writes ws a).
Proof.
  unfold apply_writes. intros Hok Hf. revert a.
  induction Hok as [| w ws Hw Hws IH]; intros a Ha; [exact Ha |].
  simpl. apply IH. now apply flagged_apply_write.
Qed.

(** Every rejection among the writes leaves its flag in the final map. *)
Lemma rejection_flag_recorded r f ws a :
  Forall write_ok ws -> In (WReject r f) ws -> flagged f (apply_writes ws a).
Proof.
  intros Hok. revert a.
  induction Hok as [| w ws Hw Hws IH]; intros a Hin; [destruct Hin |].
  destruct Hin as [-> | Hin].
  - change (flagged f (apply_writes ws (apply_write (WReject r f) a))).
    apply flagged_apply_writes; [exact Hws | exact Hw |].
    unfold flagged. simpl. apply lookup_insert_eq.
  - apply (IH _ Hin).
Qed.

(** On a decision with an empty flag map, a rejection flags its own key
    only. *)
Lemma flagged_after_single_reject f r g a :
  RiskApproval.guardrail_flags a = ∅ ->
  flagged f (RiskApproval.reject r g a) -> f = g.
Proof.
  unfold flagged. simpl. intros ->.
  destruct (decide (g = f)) as [-> | Hne]; [reflexivity |].
  rewrite lookup_insert_ne by exact Hne. rewrite lookup_empty. discriminate.
Qed.

Section ApprovalFlow.
Context {SM : SchemaMethods} {RT : PyRuntime}.
Variable settings : Settings.t.

Lemma _check_safe_mode_shape daily_state :
  exists w, write_ok w /\ forall a,
    RiskPolicyAgent._check_safe_mode daily_state a = (write_passes w, apply_write w a).
Proof.
  unfold RiskPolicyAgent._check_safe_mode.
  destruct (DailyState.safe_mode daily_state).
  - eexists (WReject _ _). split; [| reflexivity]. discriminate.
  - exists WKeep. split; [exact I | reflexivity].
Qed.

Lemma _check_stop_loss_shape intent :
  stop_loss_comparable intent ->
  exists w, write_ok w /\ forall a,
    RiskPolicyAgent._check_stop_loss intent a = Ok (write_passes w, apply_write w a).
Proof.
  unfold stop_loss_comparable, RiskPolicyAgent._check_stop_loss.
  destruct (TradeIntent.stop_loss_price intent) as [stop |].
  - intros [H | H]; [discriminate |].
    destruct (TradeIntent.entry_price intent) as [entry |]; [| congruence].
    destruct (TradeIntent.side intent); simpl.
    + destruct (Qleb entry stop).
      * eexists (WReject _ _). split; [| reflexivity]. discriminate.
      * exists WKeep. split; [exact I | reflexivity].
    + destruct (Qleb stop entry).
      * eexists (WReject _ _). split; [| reflexivity]. discriminate.
      * exists WKeep. split; [exact I | reflexivity].
  - intros _. eexists (WReject _ _). split; [| reflexivity]. discriminate.
Qed.

Lemma _check_stop_loss_raises intent a :
  ~ stop_loss_comparable intent ->
  RiskPolicyAgent._check_stop_loss intent a = Raise TypeError.
Proof.
  unfold stop_loss_comparable, RiskPolicyAgent._check_stop_loss.
  destruct (TradeIntent.stop_loss_price intent) as [stop |]; [| tauto].
  destruct (TradeIntent.entry_price intent) as [entry |].
  - intros H. exfalso. apply H. right. discriminate.
  - intros _. destruct (TradeIntent.side intent); reflexivity.
Qed.

Lemma _check_daily_loss_budget_shape intent daily_state st :
  exists w daily_state' st',
    write_ok w
    /\ (daily_state' = daily_state \/ daily_state' = DailyState.set_safe_mode true daily_state)
    /\ forall a,
        RiskPolicyAgent._check_daily_loss_budget intent daily_state a st
        = (write_passes w, apply_write w a, daily_state', st').
Proof.
  unfold RiskPolicyAgent._check_daily_loss_budget.
  destruct (Qleb (DailyState.loss_budget_remaining daily_state) 0).
  - destruct (negb (DailyState.safe_mode daily_state));
      eexists (WReject _ _), _, _; (split; [| split; [| reflexivity]]);
      [discriminate | auto | discriminate | auto].
  - destruct (Qltb _ _).
    + eexists (WReject _ _), _, _. split; [| split; [| reflexivity]]; [discriminate | auto].
    + exists WKeep. eexists _, _. split; [| split; [| reflexivity]]; [exact I | auto].
Qed.

Lemma _check_per_trade_risk_shape intent daily_state :
  exists w, write_ok w /\ forall a,
    RiskPolicyAgent._check_per_trade_risk settings intent daily_state a
    = (write_passes w, apply_write w a).
Proof.
  unfold RiskPolicyAgent._check_per_trade_risk.
  destruct (Qltb _ _).
  - eexists (WReject _ _). split; [| reflexivity]. discriminate.
  - eexists (WNote _ _). split; [| reflexivity]. reflexivity.
Qed.

Lemma _check_max_trades_shape daily_state :
  exists w, write_ok w /\ forall a,
    RiskPolicyAgent._check_max_trades daily_state a = (write_passes w, apply_write w a).
Proof.
  unfold RiskPolicyAgent._check_max_trades.
  destruct (_ <=? _)%Z.
  - eexists (WReject _ _). split; [| reflexivity]. discriminate.
  - exists WKeep. split; [exact I | reflexivity].
Qed.

Lemma _check_strategy_switch_shape now intent daily_state :
  exists w, write_ok w /\ forall a,
    RiskPolicyAgent._check_strategy_switch settings now intent daily_state a
    = (write_passes w, apply_write w a).
Proof.
  unfold RiskPolicyAgent._check_strategy_switch.
  destruct (DailyState.active_strategy daily_state) as [current |];
    [| exists WKeep; split; [exact I | reflexivity]].
  destruct (decide (current = TradeIntent.strategy_id intent));
    [exists WKeep; split; [exact I | reflexivity] |].
  match goal with
  | |- context [match ?c with Some _ => _ | None => _ end] => destruct c
  end.
  - eexists (WReject _ _). split; [| reflexivity]. discriminate.
  - destruct (Qltb _ _).
    + eexists (WReject _ _). split; [| reflexivity]. discriminate.
    + eexists (WSwitch _). split; [| reflexivity]. exact I.
Qed.

Lemma _check_symbol_validity_shape intent :
  exists w, write_ok w /\ forall a,
    RiskPolicyAgent._check_symbol_validity settings intent a
    = (write_passes w, apply_write w a).
Proof.
  unfold RiskPolicyAgent._check_symbol_validity.
  destruct (negb _).
  - eexists (WReject _ _). split; [| reflexivity]. discriminate.
  - exists WKeep. split; [exact I | reflexivity].
Qed.

(** The checks after the budget check do not read the safe-mode flag. *)
Lemma later_checks_ignore_latch now intent daily_state b a :
  RiskPolicyAgent._check_per_trade_risk settings intent
    (DailyState.set_safe_mode b daily_state) a
  = RiskPolicyAgent._check_per_trade_risk settings intent daily_state a
  /\ RiskPolicyAgent._check_max_trades (DailyState.set_safe_mode b daily_state) a
     = RiskPolicyAgent._check_max_trades daily_state a
  /\ RiskPolicyAgent._check_strategy_switch settings now intent
       (DailyState.set_safe_mode b daily_state) a
     = RiskPolicyAgent._check_strategy_switch settings now intent daily_state a.
Proof. repeat split; reflexivity. Qed.
End ApprovalFlow.

Section ApprovalOutcome.
Context {SM : SchemaMethods} {RT : PyRuntime}.
Variable settings : Settings.t.

(** The order and the overwriting rule of [approve], for every call on which
    the stop-loss check returns a verdict.  With the ledger [ds1] as
    refreshed at the start of the call, run each of the eight checks on its
    own against the initial decision.  Then [approve] returns a decision
    that is approved exactly when all eight pass, that records the flag of
    every failing check, and whose rejection reason is the one written by
    the last failing check in the fixed order. *)
Lemma approve_runs_every_check today now intent intent_id st ds0 st0 ds1 st1 :
  Storage.get_or_create_daily_state settings today st = (ds0, st0) ->
  RiskPolicyAgent._update_unrealized_pnl ds0 st0 = (ds1, st1) ->
  stop_loss_comparable intent ->
  let results :=
    standalone_checks settings now intent ds1 st1 (initial_approval intent_id ds1) in
  exists decision st',
    RiskPolicyAgent.approve settings today now intent intent_id st = (Ok decision, st')
    /\ RiskApproval.approved decision = forallb fst results
    /\ (forall r f, In r results -> fst r = false -> flagged f (snd r) -> flagged f decision)
    /\ (forallb fst results = false ->
        RiskApproval.rejection_reason decision = last_rejection results).
Proof.
  intros Hgc Hup Hcmp.
  destruct (_check_safe_mode_shape ds1) as (w1 & Hok1 & H1).
  destruct (_check_stop_loss_shape intent Hcmp) as (w2 & Hok2 & H2).
  destruct (_check_daily_loss_budget_shape intent ds1 st1) as (w3 & ds3 & st3 & Hok3 & Hds3 & H3).
  destruct (_check_per_trade_risk_shape settings intent ds1) as (w4 & Hok4 & H4).
  destruct (_check_max_trades_shape ds1) as (w5 & Hok5 & H5).
  destruct (_check_strategy_switch_shape settings now intent ds1) as (w6 & Hok6 & H6).
  destruct (_check_symbol_validity_shape settings intent) as (w7 & Hok7 & H7).
  set (a0 := initial_approval intent_id ds1).
  set (ws := [w1; w2; w3; w4; w5; w6; w7; WKeep]).
  assert (Hoks : Forall write_ok ws) by (repeat constructor; assumption).
  assert (Hres : standalone_checks settings now intent ds1 st1 a0
                 = map (fun w => (write_passes w, apply_write w a0)) ws).
  { unfold standalone_checks. rewrite H1, H2, H3, H4, H5, H6, H7. reflexivity. }
  intros results. subst results. rewrite Hres.
  assert (Hfst : forallb fst (map (fun w => (write_passes w, apply_write w a0)) ws)
                 = forallb write_passes ws).
  { clear. induction ws as [| w l IH]; [reflexivity |]. simpl. now rewrite IH. }
  rewrite Hfst.
  assert (Hrun : exists st',
             RiskPolicyAgent.approve settings today now intent intent_id st
             = (if negb (forallb write_passes ws)
                then Ok (RiskApproval.set_approved false (apply_writes ws a0))
                else RiskPolicyAgent._adjust_quantity intent ds3
                       (RiskPolicyAgent._check_hitl_requirements settings intent ds3
                          (apply_writes ws a0)),
                st')).
  { unfold RiskPolicyAgent.approve. rewrite Hgc, Hup.
    fold (initial_approval intent_id ds1). fold a0.
    rewrite H1, H2, H3.
    assert (H4' : forall a, RiskPolicyAgent._check_per_trade_risk settings intent ds3 a
                           = (write_passes w4, apply_write w4 a)).
    { intros a. rewrite <- H4. destruct Hds3 as [-> | ->]; reflexivity. }
    assert (H5' : forall a, RiskPolicyAgent._check_max_trades ds3 a
                           = (write_passes w5, apply_write w5 a)).
    { intros a. rewrite <- H5. destruct Hds3 as [-> | ->]; reflexivity. }
    assert (H6' : forall a, RiskPolicyAgent._check_strategy_switch settings now intent ds3 a
                           = (write_passes w6, apply_write w6 a)).
    { intros a. rewrite <- H6. destruct Hds3 as [-> | ->]; reflexivity. }
    rewrite H4', H5', H6', H7. unfold RiskPolicyAgent._check_liquidity.
    exists st3. unfold RiskPolicyAgent.all_true.
    match goal with
    | |- context [forallb (fun b : bool => b) ?l] =>
        change (forallb (fun b : bool => b) l) with (forallb write_passes ws)
    end.
    destruct (forallb write_passes ws); reflexivity. }
  destruct Hrun as (st' & Hrun). rewrite Hrun.
  destruct (forallb write_passes ws) eqn:Eall; cbn [negb].
  - (* every check passed *)
    assert (Hc2 : write_passes w2 = true).
    { unfold ws in Eall. simpl in Eall.
      repeat (apply andb_true_iff in Eall as [? Eall]). assumption. }
    destruct (_check_stop_loss_pass intent a0 (apply_write w2 a0)) as (stop & entry & Hs & _).
    { rewrite H2, Hc2. reflexivity. }
    destruct (RiskPolicyAgent._adjust_quantity intent ds3 _) as [d | e] eqn:Eadj.
    + exists d, st'. split; [reflexivity |]. split.
      * rewrite (_adjust_quantity_approved _ _ _ _ Eadj).
        rewrite _check_hitl_requirements_approved.
        rewrite apply_writes_approved_true by exact Eall. reflexivity.
      * split; [| discriminate].
        intros r f Hin Hfail. exfalso.
        apply in_map_iff in Hin as (w & <- & Hw). simpl in Hfail.
        rewrite forallb_forall in Eall. rewrite (Eall _ Hw) in Hfail. discriminate.
    + exfalso. unfold RiskPolicyAgent._adjust_quantity in Eadj. rewrite Hs in Eadj.
      repeat match type of Eadj with
             | context [if ?c then _ else _] => destruct c
             end; discriminate.
  - (* some check failed *)
    eexists _, st'. split; [reflexivity |]. split; [reflexivity |]. split.
    + intros r f Hin Hfail Hflag.
      apply in_map_iff in Hin as (w & <- & Hw). simpl in Hfail, Hflag.
      destruct w as [| reason flag | |]; try discriminate. simpl in Hflag.
      apply flagged_after_single_reject in Hflag; [| reflexivity]. subst f.
      change (flagged flag (apply_writes ws a0)).
      eapply rejection_flag_recorded; [exact Hoks | exact Hw].
    + intros _. rewrite last_rejection_of_writes.
      change (RiskApproval.rejection_reason (apply_writes ws a0) = reason_of_writes ws None).
      apply apply_writes_reason.
Qed.
End ApprovalOutcome.

(** ** What [approve] writes to the store *)

Section ApprovalStore.
Context {SM : SchemaMethods} {RT : PyRuntime}.
Variable settings : Settings.t.

(** When the stop-loss check cannot compare the stop with a missing entry
    price, [approve] raises [TypeError] right there: the store is as the
    PnL refresh left it and the six later checks have not run. *)
Lemma approve_raises_on_missing_entry today now intent intent_id st ds0 st0 ds1 st1 :
  Storage.get_or_create_daily_state settings today st = (ds0, st0) ->
  RiskPolicyAgent._update_unrealized_pnl ds0 st0 = (ds1, st1) ->
  ~ stop_loss_comparable intent ->
  RiskPolicyAgent.approve settings today now intent intent_id st = (Raise TypeError, st1).
Proof.
  intros Hgc Hup Hcmp. unfold RiskPolicyAgent.approve. rewrite Hgc, Hup.
  destruct (RiskPolicyAgent._check_safe_mode ds1 _) as [c1 a1].
  rewrite (_check_stop_loss_raises intent a1 Hcmp). reflexivity.
Qed.

(** Otherwise the only write after the PnL refresh is the one of the budget
    check: it sets and saves the safe-mode flag when the remaining budget
    is zero or less and the flag is not yet set. *)
Lemma approve_store today now intent intent_id st ds0 st0 ds1 st1 :
  Storage.get_or_create_daily_state settings today st = (ds0, st0) ->
  RiskPolicyAgent._update_unrealized_pnl ds0 st0 = (ds1, st1) ->
  stop_loss_comparable intent ->
  snd (RiskPolicyAgent.approve settings today now intent intent_id st)
  = if Qleb (DailyState.loss_budget_remaining ds1) 0 && negb (DailyState.safe_mode ds1)
    then Storage.save_daily_state (DailyState.set_safe_mode true ds1) st1
    else st1.
Proof.
  intros Hgc Hup Hcmp. unfold RiskPolicyAgent.approve. rewrite Hgc, Hup.
  destruct (RiskPolicyAgent._check_safe_mode ds1 _) as [c1 a1].
  destruct (_check_stop_loss_shape intent Hcmp) as (w2 & _ & H2). rewrite H2.
  unfold RiskPolicyAgent._check_daily_loss_budget.
  destruct (Qleb (DailyState.loss_budget_remaining ds1) 0);
    [destruct (negb (DailyState.safe_mode ds1)) | destruct (Qltb _ _)]; cbn [andb];
    repeat match goal with
           | |- context [let '(_, _) := ?p in _] => destruct p
           end;
    match goal with
    | |- context [if ?c then _ else _] => destruct c
    end; reflexivity.
Qed.

(** A latched ledger makes the safe-mode check fail. *)
Lemma approve_rejects_when_latched today now intent intent_id st ds0 st0 ds1 st1 decision st' :
  Storage.get_or_create_daily_state settings today st = (ds0, st0) ->
  RiskPolicyAgent._update_unrealized_pnl ds0 st0 = (ds1, st1) ->
  DailyState.safe_mode ds1 = true ->
  RiskPolicyAgent.approve settings today now intent intent_id st = (Ok decision, st') ->
  RiskApproval.approved decision = false.
Proof.
  intros Hgc Hup Hsafe. unfold RiskPolicyAgent.approve. rewrite Hgc, Hup.
  unfold RiskPolicyAgent._check_safe_mode. rewrite Hsafe.
  destruct (RiskPolicyAgent._check_stop_loss intent _) as [[c2 a2] | e]; [| discriminate].
  repeat match goal with
         | |- context [let '(_, _) := ?p in _] => destruct p
         end.
  unfold RiskPolicyAgent.all_true. simpl. intros H. injection H as <- _. reflexivity.
Qed.
End ApprovalStore.

(** ** The ledger row of the day *)

Section LedgerRow.
Variable settings : Settings.t.

Lemma get_or_create_date today st ds st' :
  Storage.get_or_create_daily_state settings today st = (ds, st') ->
  DailyState.date ds = today.
Proof.
  unfold Storage.get_or_create_daily_state.
  destruct (Storage.daily_state st !! today); intros H; injection H as <- _; reflexivity.
Qed.

Lemma get_or_create_latched today st ds st' :
  Storage.get_or_create_daily_state settings today st = (ds, st') ->
  latched today st ->
  st' = st /\ DailyState.safe_mode ds = true.
Proof.
  unfold Storage.get_or_create_daily_state, latched.
  intros H (row & Hrow & Hsafe). rewrite Hrow in H. injection H as <- <-.
  split; [reflexivity | exact Hsafe].
Qed.

Lemma save_daily_state_latched today ds st :
  DailyState.date ds = today -> DailyState.safe_mode ds = true ->
  latched today (Storage.save_daily_state ds st).
Proof.
  intros Hd Hs. exists ds. split; [| exact Hs].
  unfold Storage.save_daily_state. simpl. rewrite Hd. apply lookup_insert_eq.
Qed.

Lemma save_paper_order_latched today order st :
  latched today st -> latched today (Storage.save_paper_order order st).
Proof. intros H. exact H. Qed.

Lemma save_position_latched today position st :
  latched today st -> latched today (Storage.save_position position st).
Proof. intros H. exact H. Qed.

Lemma delete_position_latched today symbol st :
  latched today st -> latched today (Storage.delete_position symbol st).
Proof. intros H. exact H. Qed.
End LedgerRow.

Section ExhaustedBudget.
Context {SM : SchemaMethods} {RT : PyRuntime} {SL : SchemaLaws SM}.
Variable settings : Settings.t.

Lemma _update_unrealized_pnl_date ds0 st0 ds1 st1 :
  RiskPolicyAgent._update_unrealized_pnl ds0 st0 = (ds1, st1) ->
  DailyState.date ds1 = DailyState.date ds0
  /\ st1 = Storage.save_daily_state ds1 st0
  /\ (DailyState.safe_mode ds0 = true -> DailyState.safe_mode ds1 = true).
Proof.
  unfold RiskPolicyAgent._update_unrealized_pnl. intros H. injection H as <- <-.
  split; [apply update_pnl_date | split; [reflexivity | apply update_pnl_latch]].
Qed.

(** The part of the exhausted-budget scenario that holds on every call:
    with a remaining budget of zero or less when the checks run, and a
    stop-loss check that returns, the decision is a rejection, the flag
    [loss_budget_exhausted] is recorded, and the stored ledger of the day
    has the safe-mode flag set. *)
Lemma approve_exhausted_budget_trips_safe_mode today now intent intent_id st ds0 st0 ds1 st1 :
  Storage.get_or_create_daily_state settings today st = (ds0, st0) ->
  RiskPolicyAgent._update_unrealized_pnl ds0 st0 = (ds1, st1) ->
  DailyState.loss_budget_remaining ds1 <= 0 ->
  stop_loss_comparable intent ->
  exists decision st',
    RiskPolicyAgent.approve settings today now intent intent_id st = (Ok decision, st')
    /\ RiskApproval.approved decision = false
    /\ flagged "loss_budget_exhausted" decision
    /\ latched today st'.
Proof.
  intros Hgc Hup Hbudget Hcmp.
  destruct (approve_runs_every_check settings today now intent intent_id st ds0 st0 ds1 st1
              Hgc Hup Hcmp) as (d & st' & Hrun & Happ & Hflags & _).
  pose proof (approve_store settings today now intent intent_id st ds0 st0 ds1 st1
                Hgc Hup Hcmp) as Hst.
  rewrite Hrun in Hst. simpl in Hst.
  apply Qleb_le in Hbudget.
  assert (Hthird :
            (let '(c, a, _, _) :=
               RiskPolicyAgent._check_daily_loss_budget intent ds1
                 (initial_approval intent_id ds1) st1 in (c, a))
            = (false,
               RiskApproval.reject
                 ("Daily loss budget exhausted (₹"
                  ++ fmt_2f (DailyState.loss_budget_remaining ds1) ++ " remaining)")
                 "loss_budget_exhausted" (initial_approval intent_id ds1))).
  { unfold RiskPolicyAgent._check_daily_loss_budget. rewrite Hbudget.
    destruct (negb (DailyState.safe_mode ds1)); reflexivity. }
  exists d, st'. split; [exact Hrun |]. split; [| split].
  - rewrite Happ. unfold standalone_checks. cbn [forallb]. rewrite Hthird.
    cbn [fst andb]. now rewrite !andb_false_r.
  - eapply (Hflags _ "loss_budget_exhausted"%string).
    + unfold standalone_checks. right. right. left. exact Hthird.
    + reflexivity.
    + unfold flagged. simpl. apply lookup_insert_eq.
  - apply get_or_create_date in Hgc.
    apply _update_unrealized_pnl_date in Hup as (Hd & -> & _).
    rewrite Hst, Hbudget. cbn [andb].
    destruct (DailyState.safe_mode ds1) eqn:Hsafe; cbn [negb].
    + apply save_daily_state_latched; [congruence | exact Hsafe].
    + apply save_daily_state_latched; [simpl; congruence | reflexivity].
Qed.
End ExhaustedBudget.

Section OverwrittenReason.
Context {SM : SchemaMethods} {RT : PyRuntime}.
Variable settings : Settings.t.

Lemma last_rejection_app l1 l2 :
  (exists r, In r l2 /\ fst r = false) ->
  last_rejection (l1 ++ l2) = last_rejection l2.
Proof.
  unfold last_rejection. rewrite fold_left_app.
  generalize (fold_left
                (fun (acc : option string) (r : bool * RiskApproval.t) =>
                   if fst r then acc else RiskApproval.rejection_reason (snd r)) l1 None).
  generalize (@None string).
  induction l2 as [| x l2 IH]; intros acc acc' (r & Hin & Hr); [destruct Hin |].
  simpl. destruct Hin as [-> | Hin].
  - rewrite Hr. reflexivity.
  - destruct (fst x).
    + apply IH. eauto.
    + reflexivity.
Qed.

(** With a remaining budget of zero or less, a non-negative per-trade
    percentage and a positive expected risk, the per-trade risk check fails
    as well, after the budget check: the reason that [approve] returns is
    the one left by the checks from the fourth on, not the budget
    check's. *)
Lemma approve_exhausted_budget_reason today now intent intent_id st ds0 st0 ds1 st1 :
  Storage.get_or_create_daily_state settings today st = (ds0, st0) ->
  RiskPolicyAgent._update_unrealized_pnl ds0 st0 = (ds1, st1) ->
  DailyState.loss_budget_remaining ds1 <= 0 ->
  0 <= Settings.PER_TRADE_MAX_LOSS_PERCENT settings ->
  0 < TradeIntent.expected_risk_rupees intent ->
  stop_loss_comparable intent ->
  exists decision st',
    RiskPolicyAgent.approve settings today now intent intent_id st = (Ok decision, st')
    /\ RiskApproval.rejection_reason decision
       = last_rejection
           (skipn 3 (standalone_checks settings now intent ds1 st1
                       (initial_approval intent_id ds1))).
Proof.
  intros Hgc Hup Hbudget Hpct Hrisk Hcmp.
  destruct (approve_runs_every_check settings today now intent intent_id st ds0 st0 ds1 st1
              Hgc Hup Hcmp) as (d & st' & Hrun & _ & _ & Hreason).
  set (a0 := initial_approval intent_id ds1) in *.
  assert (H4 : fst (RiskPolicyAgent._check_per_trade_risk settings intent ds1 a0) = false).
  { unfold RiskPolicyAgent._check_per_trade_risk.
    match goal with
    | |- context [Qltb ?x ?y] => assert (Hlt : Qltb x y = true)
    end.
    { apply Qltb_lt. unfold py_min.
      assert (Hle : DailyState.loss_budget_remaining ds1
                    * Settings.PER_TRADE_MAX_LOSS_PERCENT settings / 100 <= 0).
      { assert (Hprod : DailyState.loss_budget_remaining ds1
                          * Settings.PER_TRADE_MAX_LOSS_PERCENT settings <= 0) by nra.
        apply Qle_shift_div_r; [reflexivity | lra]. }
      destruct (Qltb 100 _) eqn:E.
      - apply Qltb_lt in E. lra.
      - lra. }
    rewrite Hlt. reflexivity. }
  exists d, st'. split; [exact Hrun |].
  unfold standalone_checks in *. fold a0 in Hreason |- *.
  rewrite Hreason.
  - match goal with
    | |- last_rejection (?x1 :: ?x2 :: ?x3 :: ?rest) = _ =>
        change (last_rejection ([x1; x2; x3] ++ rest) = last_rejection rest)
    end.
    apply last_rejection_app. eexists. split; [left; reflexivity | exact H4].
  - cbn [forallb]. rewrite H4. cbn [andb]. now rewrite !andb_false_r.
Qed.
End OverwrittenReason.

(** ** The approval engine on concrete inputs *)

(** C2 (where the code departs from the claim).  A market order as the
    strategy evaluator emits it carries a stop-loss and no entry price.
    On such an intent the second check compares the stop with [None] and
    raises [TypeError]: [approve] returns no decision, and the six checks
    after it never run.  Here the remaining budget is 0, so the budget
    check would have set the safe-mode flag; the stored ledger still has it
    unset, while the same call on an intent with an entry price sets it. *)
Theorem approve_market_intent_skips_checks :
  let st := Scenario.store_with (Scenario.ledger 0 0) in
  let run :=
    RiskPolicyAgent.approve (SM := spec_schema) (RT := sample_runtime) Settings.default
      Scenario.today 0%Z Scenario.market_intent None st in
  let run_with_entry :=
    RiskPolicyAgent.approve (SM := spec_schema) (RT := sample_runtime) Settings.default
      Scenario.today 0%Z (Scenario.test_intent "HINDCOPPER") None st in
  fst run = Raise TypeError
  /\ DailyState.safe_mode <$> Storage.daily_state (snd run) !! Scenario.today = Some false
  /\ DailyState.safe_mode <$> Storage.daily_state (snd run_with_entry) !! Scenario.today
     = Some true.
Proof. vm_compute. repeat split; reflexivity. Qed.

(** C3 (where the code departs from the claim).  The scenario of the
    guardrail test [test_daily_loss_budget]: a ledger with remaining budget
    0, the test intent (entry 2450, stop 2400, expected risk 50) on an
    allowed symbol.  The decision is a rejection and the stored ledger has
    the safe-mode flag set, but the reason the decision carries is the one
    of the per-trade risk check, which ran after the budget check and
    overwrote its reason; it does not mention the budget. *)
Theorem approve_exhausted_budget_reason_overwritten :
  let run :=
    RiskPolicyAgent.approve (SM := spec_schema) (RT := sample_runtime) Settings.default
      Scenario.today 0%Z (Scenario.test_intent "HINDCOPPER") None
      (Scenario.store_with (Scenario.ledger 0 0)) in
  exists decision,
    fst run = Ok decision
    /\ RiskApproval.approved decision = false
    /\ RiskApproval.guardrail_flags decision !! "loss_budget_exhausted"%string
       = Some (FlagBool true)
    /\ DailyState.safe_mode <$> Storage.daily_state (snd run) !! Scenario.today = Some true
    /\ RiskApproval.rejection_reason decision
       = Some "Per-trade risk (₹50.00) exceeds limit (₹0.00)"%string
    /\ str_contains "budget"
         (str_lower (default ""%string (RiskApproval.rejection_reason decision))) = false.
Proof. vm_compute. eexists. repeat split; reflexivity. Qed.

(** ** The simulator's ledger update *)

Section LedgerUpdate.
Variable settings : Settings.t.

(** For every fill: the trade count grows by one and the active strategy
    becomes the intent's; the comparison that guards the switch stamp is
    made after the active strategy has been overwritten, so it never
    differs and the stamp is left as it was. *)
Lemma _update_daily_state_effect today now intent st ds st0 :
  Storage.get_or_create_daily_state settings today st = (ds, st0) ->
  ExecutionPaperAgent._update_daily_state settings today now intent st
  = Storage.save_daily_state
      (DailyState.set_active_strategy (Some (TradeIntent.strategy_id intent))
         (DailyState.set_trades_count (DailyState.trades_count ds + 1)%Z ds))
      st0.
Proof.
  intros Hgc. unfold ExecutionPaperAgent._update_daily_state. rewrite Hgc.
  cbn [DailyState.active_strategy DailyState.set_active_strategy].
  rewrite bool_decide_eq_true_2 by reflexivity. reflexivity.
Qed.

Lemma _update_daily_state_never_stamps today now intent st ds st0 :
  Storage.get_or_create_daily_state settings today st = (ds, st0) ->
  exists ds',
    Storage.daily_state (ExecutionPaperAgent._update_daily_state settings today now intent st)
      !! today = Some ds'
    /\ DailyState.trades_count ds' = (DailyState.trades_count ds + 1)%Z
    /\ DailyState.active_strategy ds' = Some (TradeIntent.strategy_id intent)
    /\ DailyState.strategy_switched_at ds' = DailyState.strategy_switched_at ds.
Proof.
  intros Hgc. rewrite (_update_daily_state_effect _ _ _ _ _ _ Hgc).
  apply get_or_create_date in Hgc. eexists. split.
  - unfold Storage.save_daily_state. simpl. rewrite Hgc. apply lookup_insert_eq.
  - repeat split.
Qed.
End LedgerUpdate.

(** C4 (where the code departs from the claim).  The ledger's active
    strategy is the momentum breakout and no switch has been stamped; a
    mean-reversion limit order is approved and fills at time 1000.  After
    the fill the trade count has gone from 3 to 4 and the active strategy
    is mean reversion, but the switch timestamp is still unset although the
    strategy differs from the previously active one. *)
Theorem execute_fill_never_stamps_switch :
  let w := Scenario.world_with (Scenario.store_with Scenario.momentum_ledger) in
  let run :=
    ExecutionPaperAgent.execute (RT := sample_runtime) Settings.default
      sample_uuid4 Scenario.today 1000%Z (DupClock.mk 1000 1000 1000)
      (LtpData {[ "HINDCOPPER"%string := 100 ]}) Scenario.reversion_intent
      Scenario.plain_approval w in
  exists order ledger,
    fst run = Ok (Some order)
    /\ PaperOrder.status order = FILLED
    /\ Storage.daily_state (World.storage (snd run)) !! Scenario.today = Some ledger
    /\ DailyState.trades_count ledger = 4%Z
    /\ DailyState.active_strategy ledger = Some MEAN_REVERSION
    /\ DailyState.strategy_switched_at ledger = None.
Proof. vm_compute. eexists _, _. repeat split; reflexivity. Qed.

(** ** The position book *)

Lemma get_position_symbol symbol st position :
  Storage.get_position symbol st = Some position -> Position.symbol position = symbol.
Proof.
  unfold Storage.get_position. destruct (Storage.positions st !! symbol); simpl; [| discriminate].
  intros H. injection H as <-. reflexivity.
Qed.

Lemma get_position_save symbol position st :
  Position.symbol position = symbol ->
  Storage.get_position symbol (Storage.save_position position st) = Some position.
Proof.
  intros <-. unfold Storage.get_position, Storage.save_position. simpl.
  rewrite lookup_insert_eq. simpl. destruct position; reflexivity.
Qed.

Lemma get_position_save_ne symbol position st :
  Position.symbol position <> symbol ->
  Storage.get_position symbol (Storage.save_position position st)
  = Storage.get_position symbol st.
Proof.
  intros Hne. unfold Storage.get_position, Storage.save_position. simpl.
  now rewrite lookup_insert_ne.
Qed.

Lemma get_position_delete symbol st :
  Storage.get_position symbol (Storage.delete_position symbol st) = None.
Proof.
  unfold Storage.get_position, Storage.delete_position. simpl.
  now rewrite lookup_delete_eq.
Qed.

Lemma get_position_delete_ne symbol other st :
  other <> symbol ->
  Storage.get_position symbol (Storage.delete_position other st)
  = Storage.get_position symbol st.
Proof.
  intros Hne. unfold Storage.get_position, Storage.delete_position. simpl.
  now rewrite lookup_delete_ne.
Qed.

(** A fill either deletes the position of its instrument (when the net
    quantity is zero) or stores it with the net quantity; the positions of
    other instruments are left alone. *)
Lemma _update_position_net now order intent st fill_price :
  PaperOrder.fill_price order = Some fill_price ->
  exists st',
    ExecutionPaperAgent._update_position now order intent st = Ok st'
    /\ (net_quantity (Storage.get_position (PaperOrder.symbol order) st) order = 0%Z ->
        Storage.get_position (PaperOrder.symbol order) st' = None)
    /\ (net_quantity (Storage.get_position (PaperOrder.symbol order) st) order <> 0%Z ->
        exists position,
          Storage.get_position (PaperOrder.symbol order) st' = Some position
          /\ Position.quantity position
             = net_quantity (Storage.get_position (PaperOrder.symbol order) st) order)
    /\ (forall other, other <> PaperOrder.symbol order ->
        Storage.get_position other st' = Storage.get_position other st).
Proof.
  intros Hfill. unfold ExecutionPaperAgent._update_position. rewrite Hfill.
  unfold net_quantity, signed_quantity.
  destruct (Storage.get_position (PaperOrder.symbol order) st) as [position |] eqn:Hpos.
  - apply get_position_symbol in Hpos.
    match goal with
    | |- context [Position.set_last_updated now ?p] => set (updated := p)
    end.
    assert (Hsym : Position.symbol (Position.set_last_updated now updated)
                   = PaperOrder.symbol order).
    { subst updated. destruct (PaperOrder.side order);
        repeat match goal with
               | |- context [if ?c then _ else _] => destruct c
               end; exact Hpos. }
    assert (Hq : Position.quantity (Position.set_last_updated now updated)
                 = (Position.quantity position
                    + match PaperOrder.side order with
                      | BUY => PaperOrder.quantity order
                      | SELL => - PaperOrder.quantity order
                      end)%Z).
    { subst updated. destruct (PaperOrder.side order);
        repeat match goal with
               | |- context [if ?c then _ else _] => destruct c
               end; simpl; lia. }
    destruct (Z.eqb_spec (Position.quantity (Position.set_last_updated now updated)) 0)
      as [Hz | Hnz].
    + eexists. split; [reflexivity |]. rewrite Hsym. split; [| split].
      * intros _. apply get_position_delete.
      * intros Hne. exfalso. apply Hne. rewrite <- Hq. exact Hz.
      * intros other Hother. now apply get_position_delete_ne.
    + eexists. split; [reflexivity |]. split; [| split].
      * intros Hnet. exfalso. apply Hnz. rewrite Hq. exact Hnet.
      * intros _. eexists. split; [now apply get_position_save | exact Hq].
      * intros other Hother. apply get_position_save_ne. rewrite Hsym. congruence.
  - match goal with
    | |- context [Position.mk ?s ?q ?a ?c ?u ?e ?sl ?t ?stg ?o ?l] =>
        set (opened := Position.mk s q a c u e sl t stg o l)
    end.
    assert (Hq : Position.quantity opened
                 = match PaperOrder.side order with
                   | BUY => PaperOrder.quantity order
                   | SELL => (- PaperOrder.quantity order)%Z
                   end).
    { subst opened. simpl. destruct (PaperOrder.side order); reflexivity. }
    destruct (Z.eqb_spec (Position.quantity opened) 0) as [Hz | Hnz].
    + eexists. split; [reflexivity |]. split; [| split].
      * intros _. apply get_position_delete.
      * intros Hne. exfalso. apply Hne. rewrite <- Hq. exact Hz.
      * intros other Hother. now apply get_position_delete_ne.
    + eexists. split; [reflexivity |]. split; [| split].
      * intros Hnet. exfalso. apply Hnz. rewrite Hq. exact Hnet.
      * intros _. eexists. split; [now apply get_position_save | exact Hq].
      * intros other Hother. apply get_position_save_ne. simpl. congruence.
Qed.

(** C5. Buying [q1] units at [p1] and then [q1] units at [p2] of an
    instrument the book holds no position in leaves a position of [2 q1]
    units whose average price is [(q1 p1 + q1 p2) / (2 q1)]; and whenever a
    fill brings the net quantity of its instrument to zero, the book holds
    no position for that instrument afterwards. *)
Theorem position_averaging_and_closure now1 now2 o1 o2 i1 i2 st symbol q1 p1 p2 :
  (0 < q1)%Z ->
  Storage.get_position symbol st = None ->
  buy_fill_of o1 symbol q1 p1 ->
  buy_fill_of o2 symbol q1 p2 ->
  (exists st1 st2 position,
      ExecutionPaperAgent._update_position now1 o1 i1 st = Ok st1
      /\ ExecutionPaperAgent._update_position now2 o2 i2 st1 = Ok st2
      /\ Storage.get_position symbol st2 = Some position
      /\ Position.quantity position = (2 * q1)%Z
      /\ Position.avg_price position
         == (inject_Z q1 * p1 + inject_Z q1 * p2) / (2 * inject_Z q1))
  /\ (forall now order intent book fill_price,
        PaperOrder.fill_price order = Some fill_price ->
        net_quantity (Storage.get_position (PaperOrder.symbol order) book) order = 0%Z ->
        exists book',
          ExecutionPaperAgent._update_position now order intent book = Ok book'
          /\ Storage.positions book' !! PaperOrder.symbol order = None).
Proof.
  intros Hq Hflat (Hs1 & Hb1 & Hq1 & Hf1) (Hs2 & Hb2 & Hq2 & Hf2). split.
  - assert (Hne : (q1 =? 0)%Z = false) by (apply Z.eqb_neq; lia).
    assert (Hne2 : (q1 + q1 =? 0)%Z = false) by (apply Z.eqb_neq; lia).
    assert (Hpos : (0 <=? q1)%Z = true) by (apply Z.leb_le; lia).
    eexists _, _, _. split; [| split; [| split; [| split]]].
    + unfold ExecutionPaperAgent._update_position.
      rewrite Hf1, Hs1, Hflat, Hb1, Hq1. simpl. rewrite Hne. reflexivity.
    + unfold ExecutionPaperAgent._update_position.
      rewrite Hf2, Hs2, get_position_save by reflexivity.
      rewrite Hb2, Hq2. simpl. rewrite Hpos, Hne2. reflexivity.
    + apply get_position_save. reflexivity.
    + simpl. lia.
    + simpl. rewrite inject_Z_plus.
      assert (Hlt : 0 < inject_Z q1) by (unfold Qlt; simpl; lia).
      field. split; intros H; lra.
  - intros now order intent book fill_price Hfill Hnet.
    destruct (_update_position_net now order intent book fill_price Hfill)
      as (book' & Hrun & Hzero & _).
    exists book'. split; [exact Hrun |].
    specialize (Hzero Hnet). unfold Storage.get_position in Hzero.
    destruct (Storage.positions book' !! PaperOrder.symbol order); [discriminate | reflexivity].
Qed.

Lemma position_averaging_and_closure_witness :
  (exists st1 st2 position,
      ExecutionPaperAgent._update_position 0%Z (Scenario.buy_fill "a" "MCX" 10 100)
        Scenario.reversion_intent Storage.empty = Ok st1
      /\ ExecutionPaperAgent._update_position 1%Z (Scenario.buy_fill "b" "MCX" 10 104)
           Scenario.reversion_intent st1 = Ok st2
      /\ Storage.get_position "MCX" st2 = Some position
      /\ Position.quantity position = (2 * 10)%Z
      /\ Position.avg_price position
         == (inject_Z 10 * 100 + inject_Z 10 * 104) / (2 * inject_Z 10))
  /\ (forall now order intent book fill_price,
        PaperOrder.fill_price order = Some fill_price ->
        net_quantity (Storage.get_position (PaperOrder.symbol order) book) order = 0%Z ->
        exists book',
          ExecutionPaperAgent._update_position now order intent book = Ok book'
          /\ Storage.positions book' !! PaperOrder.symbol order = None).
Proof.
  apply (position_averaging_and_closure 0%Z 1%Z (Scenario.buy_fill "a" "MCX" 10 100)
           (Scenario.buy_fill "b" "MCX" 10 104) Scenario.reversion_intent
           Scenario.reversion_intent Storage.empty "MCX"%string 10%Z 100 104).
  - reflexivity.
  - reflexivity.
  - repeat split.
  - repeat split.
Defined.

(** ** De-duplication *)

Lemma td_seconds_small (d n : Z) :
  (0 <= d < seconds n)%Z -> (n <= 86400)%Z -> (td_seconds d <? n)%Z = true.
Proof.
  unfold td_seconds, seconds, usec_per_sec. intros [H0 Hn] Hday.
  apply Z.ltb_lt.
  assert (Hdiv : (0 <= d `div` 1000000 < n)%Z).
  { split; [apply Z.div_pos; lia | apply Z.div_lt_upper_bound; lia]. }
  rewrite Z.mod_small by lia. lia.
Qed.

Section Dedup.
Context {RT : PyRuntime}.
Variable settings : Settings.t.
Variable uuid4 : nat -> string.

(** An intent that passes the duplicate test leaves its hash in the
    dictionary, at the recorded time, provided the pruning cut-off is read
    less than ten minutes after it. *)
Lemma _is_duplicate_records clock intent w :
  fst (ExecutionPaperAgent._is_duplicate clock intent w) = false ->
  (0 <= DupClock.t_cutoff clock - DupClock.t_record clock < seconds 600)%Z ->
  World.storage (snd (ExecutionPaperAgent._is_duplicate clock intent w)) = World.storage w
  /\ World.uuid_draws (snd (ExecutionPaperAgent._is_duplicate clock intent w))
     = World.uuid_draws w
  /\ World.recent_order_hashes (snd (ExecutionPaperAgent._is_duplicate clock intent w))
       !! ExecutionPaperAgent.intent_hash intent
     = Some (DupClock.t_record clock).
Proof.
  unfold ExecutionPaperAgent._is_duplicate.
  match goal with
  | |- context [if ?c then (true, w) else _] => destruct c
  end; [discriminate |].
  intros _ Hclock. simpl. repeat split.
  apply map_lookup_filter_Some. split; [apply lookup_insert_eq |].
  simpl. apply Is_true_true. apply td_seconds_small; [exact Hclock | lia].
Qed.

(** A hash recorded less than five minutes ago makes the intent a
    duplicate, and the test leaves the world as it is. *)
Lemma _is_duplicate_within_window clock intent w last_time :
  World.recent_order_hashes w !! ExecutionPaperAgent.intent_hash intent = Some last_time ->
  (0 <= DupClock.t_seen clock - last_time < seconds 300)%Z ->
  ExecutionPaperAgent._is_duplicate clock intent w = (true, w).
Proof.
  intros Hseen Hclock. unfold ExecutionPaperAgent._is_duplicate.
  rewrite Hseen. rewrite td_seconds_small by (exact Hclock || lia). reflexivity.
Qed.

(** C10. The hash of an intent is recorded before the fill is attempted.
    When [execute] is called with an approved decision, the intent passes
    the duplicate test and the price request yields no price, the call
    returns [None] without creating an order (the store is unchanged), and
    the intent's hash is in the de-duplication dictionary; the same intent
    submitted again within five minutes of the recorded time is then
    rejected as a duplicate: [execute] returns [None] again and changes
    nothing. *)
Theorem execute_records_hash_before_fill
    today now clock ltp_answer intent approval w today' now' clock' ltp_answer' approval' :
  RiskApproval.approved approval = true ->
  fst (ExecutionPaperAgent._is_duplicate clock intent w) = false ->
  no_price_for (TradeIntent.symbol intent) ltp_answer ->
  (0 <= DupClock.t_cutoff clock - DupClock.t_record clock < seconds 600)%Z ->
  (0 <= DupClock.t_seen clock' - DupClock.t_record clock < seconds 300)%Z ->
  exists w1,
    ExecutionPaperAgent.execute settings uuid4 today now clock ltp_answer intent approval w
    = (Ok None, w1)
    /\ World.storage w1 = World.storage w
    /\ World.recent_order_hashes w1 !! ExecutionPaperAgent.intent_hash intent
       = Some (DupClock.t_record clock)
    /\ fst (ExecutionPaperAgent._is_duplicate clock' intent w1) = true
    /\ ExecutionPaperAgent.execute settings uuid4 today' now' clock' ltp_answer' intent
         approval' w1
       = (Ok None, w1).
Proof.
  intros Happ Hdup Hprice Hclock Hclock'.
  destruct (_is_duplicate_records clock intent w Hdup Hclock) as (Hst & _ & Hhash).
  destruct (ExecutionPaperAgent._is_duplicate clock intent w) as [dup w1] eqn:Edup.
  simpl in Hdup, Hst, Hhash. subst dup.
  pose proof (_is_duplicate_within_window clock' intent w1 _ Hhash Hclock') as Hdup'.
  exists w1. split; [| split; [exact Hst | split; [exact Hhash | split]]].
  - unfold ExecutionPaperAgent.execute. rewrite Happ, Edup. cbn [negb].
    destruct ltp_answer as [| prices]; [reflexivity |].
    simpl in Hprice. rewrite Hprice. reflexivity.
  - rewrite Hdup'. reflexivity.
  - unfold ExecutionPaperAgent.execute. rewrite Hdup'.
    destruct (negb (RiskApproval.approved approval')); reflexivity.
Qed.
End Dedup.

Lemma execute_records_hash_before_fill_witness :
  exists w1,
    ExecutionPaperAgent.execute (RT := sample_runtime) Settings.default sample_uuid4
      Scenario.today 0%Z (DupClock.mk 0 1 2) LtpFails Scenario.reversion_intent
      Scenario.plain_approval (Scenario.world_with Storage.empty)
    = (Ok None, w1)
    /\ World.storage w1 = World.storage (Scenario.world_with Storage.empty)
    /\ World.recent_order_hashes w1
         !! ExecutionPaperAgent.intent_hash (RT := sample_runtime) Scenario.reversion_intent
       = Some 1%Z
    /\ fst (ExecutionPaperAgent._is_duplicate (RT := sample_runtime)
              (DupClock.mk (seconds 120) (seconds 120) (seconds 120))
              Scenario.reversion_intent w1) = true
    /\ ExecutionPaperAgent.execute (RT := sample_runtime) Settings.default sample_uuid4
         Scenario.today (seconds 120)
         (DupClock.mk (seconds 120) (seconds 120) (seconds 120))
         (LtpData {[ "HINDCOPPER"%string := 100 ]}) Scenario.reversion_intent
         Scenario.plain_approval w1
       = (Ok None, w1).
Proof.
  apply (execute_records_hash_before_fill (RT := sample_runtime) Settings.default sample_uuid4
           Scenario.today 0%Z (DupClock.mk 0 1 2) LtpFails Scenario.reversion_intent
           Scenario.plain_approval (Scenario.world_with Storage.empty)
           Scenario.today (seconds 120)
           (DupClock.mk (seconds 120) (seconds 120) (seconds 120))
           (LtpData {[ "HINDCOPPER"%string := 100 ]}) Scenario.plain_approval).
  - reflexivity.
  - vm_compute. reflexivity.
  - exact I.
  - vm_compute. split; [discriminate | reflexivity].
  - vm_compute. split; [discriminate | reflexivity].
Defined.

(** ** The reference schema methods satisfy the laws *)

Lemma spec_schema_laws : SchemaLaws spec_schema.
Proof. split; intros; [reflexivity | assumption]. Qed.

Lemma spec_position_laws : PositionLaws spec_schema.
Proof. split; reflexivity. Qed.

(** ** Position monitoring *)

Section Monitoring.
Context {SM : SchemaMethods} {PL : PositionLaws SM}.
Variable settings : Settings.t.
Variable uuid4 : nat -> string.

Lemma get_all_positions_singleton st symbol row :
  Storage.positions st = {[ symbol := row ]} ->
  Position.quantity row <> 0%Z ->
  Storage.get_all_positions st = [Position.set_symbol symbol row].
Proof.
  intros Hbook Hq. unfold Storage.get_all_positions.
  rewrite Hbook, map_to_list_singleton. simpl.
  destruct (Z.eqb_spec (Position.quantity row) 0); [contradiction | reflexivity].
Qed.

Lemma calculate_slippage_sell price pct :
  Utils.calculate_slippage settings price (TradeSide_value SELL) (Some pct)
  = price * (1 - pct / 100).
Proof. reflexivity. Qed.

Lemma calculate_slippage_buy price pct :
  Utils.calculate_slippage settings price (TradeSide_value BUY) (Some pct)
  = price * (1 + pct / 100).
Proof. reflexivity. Qed.

(** The exit of a long position, written out. *)
Lemma _exit_position_long today now position price reason w ledger :
  (0 < Position.quantity position)%Z ->
  Storage.daily_state (World.storage w) !! today = Some ledger ->
  let fill_price := price * (1 - ExecutionPaperAgent.slippage_percent settings / 100) in
  let realized_pnl :=
    (fill_price - Position.avg_price position) * inject_Z (Position.quantity position)
    - ExecutionPaperAgent.brokerage_per_order settings * 2 in
  let ledger' :=
    DailyState_update_pnl (Some realized_pnl) None (DailyState.set_date today ledger) in
  let order :=
    PaperOrder.mk (uuid4 (World.uuid_draws w)) None (Position.symbol position) SELL
      (Position.quantity position) MARKET None FILLED (Some fill_price) (Some now)
      (Some (Qabs (fill_price - price)))
      (Some (ExecutionPaperAgent.brokerage_per_order settings)) price in
  ExecutionPaperAgent._exit_position settings uuid4 today now position price reason w
  = (ExitAction.mk (Position.symbol position) reason fill_price realized_pnl
       (uuid4 (World.uuid_draws w)),
     World.mk
       (Storage.delete_position (Position.symbol position)
          (Storage.save_daily_state ledger'
             (Storage.save_paper_order order (World.storage w))))
       (World.recent_order_hashes w) (S (World.uuid_draws w))).
Proof.
  intros Hq Hledger fill_price realized_pnl ledger' order.
  unfold ExecutionPaperAgent._exit_position.
  assert (Hpos : (0 <? Position.quantity position)%Z = true) by (apply Z.ltb_lt; lia).
  rewrite Hpos, calculate_slippage_sell, Z.abs_eq by lia.
  unfold ExecutionPaperAgent.draw_uuid, Storage.get_or_create_daily_state.
  cbn [World.storage World.set_storage World.uuid_draws Storage.daily_state
         Storage.save_paper_order].
  rewrite Hledger. reflexivity.
Qed.

(** A long position whose stop is reached is exited in full at the slipped
    price; the realized PnL handed to the ledger is the slipped exit minus
    the average entry, times the size, minus two fees; the position is
    deleted.  The target is absent or above the observed price, so the
    target test does not fire as well. *)
Lemma monitor_exits_long_at_stop today now prices w symbol row price stop ledger :
  Storage.positions (World.storage w) = {[ symbol := row ]} ->
  (0 < Position.quantity row)%Z ->
  Position.stop_loss_price row = Some stop ->
  ~ stop == 0 ->
  (Position.target_price row = None
   \/ exists target, Position.target_price row = Some target /\ price < target) ->
  prices !! symbol = Some price ->
  price <= stop ->
  Storage.daily_state (World.storage w) !! today = Some ledger ->
  let fill_price := price * (1 - ExecutionPaperAgent.slippage_percent settings / 100) in
  let realized_pnl :=
    (fill_price - Position.avg_price row) * inject_Z (Position.quantity row)
    - ExecutionPaperAgent.brokerage_per_order settings * 2 in
  let ledger' :=
    DailyState_update_pnl (Some realized_pnl) None (DailyState.set_date today ledger) in
  exists order w',
    ExecutionPaperAgent.monitor_positions settings uuid4 today now (LtpData prices) w
    = ([ExitAction.mk symbol "stop_loss" fill_price realized_pnl
          (uuid4 (World.uuid_draws w))], w')
    /\ Storage.positions (World.storage w') !! symbol = None
    /\ Storage.paper_orders (World.storage w') !! uuid4 (World.uuid_draws w) = Some order
    /\ PaperOrder.side order = SELL
    /\ PaperOrder.quantity order = Position.quantity row
    /\ PaperOrder.fill_price order = Some fill_price
    /\ Storage.daily_state (World.storage w') !! DailyState.date ledger' = Some ledger'.
Proof.
  intros Hbook Hq Hstop Hnz Htarget Hprice Hle Hledger fill_price realized_pnl ledger'.
  unfold ExecutionPaperAgent.monitor_positions.
  rewrite (get_all_positions_singleton _ _ _ Hbook) by lia.
  cbn [fold_left]. unfold ExecutionPaperAgent.monitor_position.
  cbn [Position.symbol Position.set_symbol]. rewrite Hprice.
  set (position := Position_update_pnl price (Position.set_symbol symbol row)).
  assert (Hsym : Position.symbol position = symbol)
    by (subst position; now rewrite position_update_pnl_symbol).
  assert (Hqty : Position.quantity position = Position.quantity row)
    by (subst position; now rewrite position_update_pnl_quantity).
  assert (Havg : Position.avg_price position = Position.avg_price row)
    by (subst position; now rewrite position_update_pnl_avg_price).
  assert (Hsl : Position.stop_loss_price position = Some stop)
    by (subst position; now rewrite position_update_pnl_stop_loss).
  assert (Htg : Position.target_price position = Position.target_price row)
    by (subst position; now rewrite position_update_pnl_target).
  rewrite Hsl, Htg, Hqty. unfold truthy at 1.
  assert (Hnzb : Qeq_bool stop 0 = false).
  { destruct (Qeq_bool stop 0) eqn:E; [| reflexivity]. apply Qeq_bool_iff in E. contradiction. }
  rewrite Hnzb.
  assert (Hpos : (0 <? Position.quantity row)%Z = true) by (apply Z.ltb_lt; lia).
  assert (Hneg : (Position.quantity row <? 0)%Z = false) by (apply Z.ltb_ge; lia).
  rewrite Hpos, Hneg. rewrite (proj2 (Qleb_le price stop) Hle). cbn [andb].
  set (w1 := World.set_storage (Storage.save_position position (World.storage w)) w).
  assert (Hledger1 : Storage.daily_state (World.storage w1) !! today = Some ledger)
    by exact Hledger.
  rewrite (_exit_position_long today now position price "stop_loss" w1 ledger)
    by (rewrite ?Hqty; assumption).
  rewrite Hsym, Havg, Hqty. fold fill_price. fold realized_pnl. fold ledger'.
  cbn [app].
  assert (Htruthy :
            truthy (Position.target_price row) = None
            \/ exists target,
                truthy (Position.target_price row) = Some target /\ price < target).
  { destruct Htarget as [-> | (target & -> & Hlt)]; [left; reflexivity |].
    unfold truthy. destruct (Qeq_bool target 0); [left; reflexivity |].
    right. exists target. split; [reflexivity | exact Hlt]. }
  eexists _, _. split.
  - destruct Htruthy as [-> | (target & -> & Hlt)]; [reflexivity |].
    rewrite (proj2 (Qleb_gt target price) Hlt). reflexivity.
  - cbn [World.storage World.set_storage Storage.positions Storage.delete_position
           Storage.paper_orders Storage.daily_state Storage.save_daily_state
           Storage.save_paper_order PaperOrder.order_id PaperOrder.side PaperOrder.quantity
           PaperOrder.fill_price].
    split; [apply lookup_delete_eq |]. split; [apply lookup_insert_eq |].
    repeat split. apply lookup_insert_eq.
Qed.
End Monitoring.

(** C6 (as amended).  A long position of 10 units with average price 100
    and stop-loss 98, alone in the book, with no target or a target above
    97; monitoring observes the reference price 97.  It exits the full 10
    units with one SELL order filled at the slipped price
    [97 * (1 - slippage% / 100)], hands the ledger the realized PnL
    [(97 * (1 - slippage% / 100) - 100) * 10 - 2 * fee], and removes the
    position from the book.  That PnL is [(97 - 100) * 10 - 2 * fee] when
    the configured slippage is zero. *)
Theorem monitor_stop_loss_scenario {SM : SchemaMethods} {PL : PositionLaws SM}
    settings uuid4 today now prices w symbol row ledger :
  Storage.positions (World.storage w) = {[ symbol := row ]} ->
  Position.quantity row = 10%Z ->
  Position.avg_price row = 100 ->
  Position.stop_loss_price row = Some 98 ->
  (Position.target_price row = None
   \/ exists target, Position.target_price row = Some target /\ 97 < target) ->
  prices !! symbol = Some 97 ->
  Storage.daily_state (World.storage w) !! today = Some ledger ->
  let slippage := Settings.PAPER_SLIPPAGE_PERCENT settings in
  let fee := Settings.PAPER_BROKERAGE_PER_ORDER settings in
  exists action order w',
    ExecutionPaperAgent.monitor_positions settings uuid4 today now (LtpData prices) w
    = ([action], w')
    /\ ExitAction.symbol action = symbol
    /\ Storage.paper_orders (World.storage w') !! ExitAction.order_id action = Some order
    /\ PaperOrder.side order = SELL
    /\ PaperOrder.quantity order = 10%Z
    /\ PaperOrder.fill_price order = Some (97 * (1 - slippage / 100))
    /\ ExitAction.realized_pnl action == (97 * (1 - slippage / 100) - 100) * 10 - 2 * fee
    /\ (let ledger' :=
          DailyState_update_pnl (Some (ExitAction.realized_pnl action)) None
            (DailyState.set_date today ledger) in
        Storage.daily_state (World.storage w') !! DailyState.date ledger' = Some ledger')
    /\ Storage.positions (World.storage w') !! symbol = None
    /\ (slippage == 0 -> ExitAction.realized_pnl action == (97 - 100) * 10 - 2 * fee).
Proof.
  intros Hbook Hq Havg Hstop Htarget Hprice Hledger slippage fee.
  destruct (monitor_exits_long_at_stop settings uuid4 today now prices w symbol row 97 98 ledger)
    as (order & w' & Hrun & Hgone & Horder & Hside & Hqty & Hfill & Hled);
    try assumption.
  - rewrite Hq. reflexivity.
  - intros H. discriminate H.
  - discriminate.
  - rewrite Hq, Havg in *.
    eexists _, order, w'. split; [exact Hrun |].
    cbn [ExitAction.symbol ExitAction.order_id ExitAction.realized_pnl].
    split; [reflexivity |]. split; [exact Horder |]. split; [exact Hside |].
    split; [exact Hqty |]. split; [exact Hfill |].
    unfold ExecutionPaperAgent.slippage_percent, ExecutionPaperAgent.brokerage_per_order.
    fold slippage. fold fee.
    split; [| split; [exact Hled | split; [exact Hgone |]]].
    + change (inject_Z 10) with 10. ring.
    + intros Hzero. change (inject_Z 10) with 10. rewrite Hzero. field.
Qed.

Lemma monitor_stop_loss_scenario_witness :
  exists action order w',
    ExecutionPaperAgent.monitor_positions (SM := spec_schema) Settings.default sample_uuid4
      Scenario.today 0%Z (LtpData {[ "MCX"%string := 97 ]})
      (Scenario.world_with Scenario.store_with_long_position)
    = ([action], w')
    /\ ExitAction.symbol action = "MCX"%string
    /\ Storage.paper_orders (World.storage w') !! ExitAction.order_id action = Some order
    /\ PaperOrder.side order = SELL
    /\ PaperOrder.quantity order = 10%Z
    /\ PaperOrder.fill_price order = Some (97 * (1 - 0.05 / 100))
    /\ ExitAction.realized_pnl action == (97 * (1 - 0.05 / 100) - 100) * 10 - 2 * 20
    /\ (let ledger' :=
          spec_DailyState_update_pnl (Some (ExitAction.realized_pnl action)) None
            (DailyState.set_date Scenario.today (Scenario.ledger 200 1)) in
        Storage.daily_state (World.storage w') !! DailyState.date ledger' = Some ledger')
    /\ Storage.positions (World.storage w') !! "MCX"%string = None
    /\ (0.05 == 0 -> ExitAction.realized_pnl action == (97 - 100) * 10 - 2 * 20).
Proof.
  apply (monitor_stop_loss_scenario (SM := spec_schema) (PL := spec_position_laws)
           Settings.default sample_uuid4 Scenario.today 0%Z {[ "MCX"%string := 97 ]}
           (Scenario.world_with Scenario.store_with_long_position) "MCX"%string
           Scenario.long_position (Scenario.ledger 200 1)).
  - vm_compute. reflexivity.
  - reflexivity.
  - reflexivity.
  - reflexivity.
  - left. reflexivity.
  - vm_compute. reflexivity.
  - vm_compute. reflexivity.
Defined.

(** C6 as stated fails: with the default slippage of 0.05 percent the exit
    fills at 96.9515, and the realized PnL handed to the ledger is -70.485,
    not (97 - 100) * 10 - 2 * 20 = -70. *)
Lemma monitor_stop_loss_pnl_includes_slippage :
  exists action w' ledger,
    ExecutionPaperAgent.monitor_positions (SM := spec_schema) Settings.default sample_uuid4
      Scenario.today 0%Z (LtpData {[ "MCX"%string := 97 ]})
      (Scenario.world_with Scenario.store_with_long_position)
    = ([action], w')
    /\ Qeq_bool (ExitAction.realized_pnl action) (- (70485 # 1000)) = true
    /\ Qeq_bool (ExitAction.realized_pnl action) ((97 - 100) * 10 - 2 * 20) = false
    /\ Storage.daily_state (World.storage w') !! Scenario.today = Some ledger
    /\ Qeq_bool (DailyState.realized_pnl ledger) ((97 - 100) * 10 - 2 * 20) = false.
Proof. vm_compute. eexists _, _, _. repeat split; reflexivity. Qed.

(** ** The tick of the scheduler *)

Section Tick.
Context {SM : SchemaMethods} {RT : PyRuntime}.
Variable settings : Settings.t.
Variable uuid4 : nat -> string.
Variable strategy_brain : StrategyBrainAgent.t.

(** The tick written as one conditional. *)
Lemma _run_trading_cycle_cases today input w :
  TradingScheduler._run_trading_cycle settings uuid4 strategy_brain today input w
  = if fst (Utils.is_trading_hours settings (CycleInput.time_trading_hours input)) then
      let ledger := Storage.get_or_create_daily_state settings today (World.storage w) in
      let monitored :=
        ExecutionPaperAgent.monitor_positions settings uuid4 today
          (CycleInput.monitor_now input) (CycleInput.monitor_ltp input)
          (World.set_storage (snd ledger) w) in
      if DailyState.safe_mode (fst ledger) then
        (SafeModeFlattened (fst monitored),
         ExecutionPaperAgent.flatten_all_positions settings uuid4 today
           (CycleInput.flatten_now input) (CycleInput.flatten_ltp input) "safe_mode"
           (snd monitored))
      else if Utils.is_exit_only_time settings (CycleInput.time_exit_only input) then
        (ExitOnly (fst monitored), snd monitored)
      else
        (CycleCompleted (fst monitored),
         snd (fold_left
                (fun acc symbol =>
                   TradingScheduler.process_symbol settings uuid4 strategy_brain today
                     (CycleInput.symbol_input input symbol) acc)
                (TradingScheduler.symbols settings) (fst ledger, snd monitored)))
    else
      (OutsideTradingHours
         (snd (Utils.is_trading_hours settings (CycleInput.time_trading_hours input))),
       w).
Proof.
  unfold TradingScheduler._run_trading_cycle.
  destruct (Utils.is_trading_hours settings (CycleInput.time_trading_hours input))
    as [in_hours reason].
  destruct in_hours; [| reflexivity]. cbn [negb fst snd].
  destruct (Storage.get_or_create_daily_state settings today (World.storage w)) as [ds st0].
  cbn [fst snd].
  destruct (ExecutionPaperAgent.monitor_positions settings uuid4 today _ _ _)
    as [exit_actions w1].
  cbn [fst snd].
  destruct (DailyState.safe_mode ds); [reflexivity |].
  destruct (Utils.is_exit_only_time settings _); [reflexivity |].
  destruct (fold_left _ _ _). reflexivity.
Qed.

(** C9 (as amended).  A tick first tests the trading hours.  Outside
    trading hours it returns at once: position monitoring does not run, no
    exit is reported and the world is left as it was.  Inside trading hours
    position monitoring runs first, on the world as the tick found it (with
    the ledger of the day read or created): the exits it reports are the
    ones the tick reports, and what follows works on the world that
    monitoring left, which is safe-mode flattening when the ledger read
    before monitoring has the flag set, nothing more in the exit-only
    window, and the per-symbol proposals otherwise. *)
Theorem tick_monitors_first_inside_trading_hours today input w :
  let tick :=
    TradingScheduler._run_trading_cycle settings uuid4 strategy_brain today input w in
  let ledger := Storage.get_or_create_daily_state settings today (World.storage w) in
  let monitored :=
    ExecutionPaperAgent.monitor_positions settings uuid4 today
      (CycleInput.monitor_now input) (CycleInput.monitor_ltp input)
      (World.set_storage (snd ledger) w) in
  if fst (Utils.is_trading_hours settings (CycleInput.time_trading_hours input)) then
    monitored_exits (fst tick) = Some (fst monitored)
    /\ snd tick
       = if DailyState.safe_mode (fst ledger) then
           ExecutionPaperAgent.flatten_all_positions settings uuid4 today
             (CycleInput.flatten_now input) (CycleInput.flatten_ltp input) "safe_mode"
             (snd monitored)
         else if Utils.is_exit_only_time settings (CycleInput.time_exit_only input) then
           snd monitored
         else
           snd (fold_left
                  (fun acc symbol =>
                     TradingScheduler.process_symbol settings uuid4 strategy_brain today
                       (CycleInput.symbol_input input symbol) acc)
                  (TradingScheduler.symbols settings) (fst ledger, snd monitored))
  else
    monitored_exits (fst tick) = None /\ snd tick = w.
Proof.
  intros tick ledger monitored. subst tick. rewrite _run_trading_cycle_cases.
  fold ledger. fold monitored.
  destruct (fst (Utils.is_trading_hours settings _)); [| split; reflexivity].
  cbv zeta. destruct (DailyState.safe_mode (fst ledger)); [split; reflexivity |].
  destruct (Utils.is_exit_only_time settings _); split; reflexivity.
Qed.
End Tick.

Section TickExits.
Context {SM : SchemaMethods} {RT : PyRuntime} {PL : PositionLaws SM}.
Variable settings : Settings.t.
Variable uuid4 : nat -> string.
Variable strategy_brain : StrategyBrainAgent.t.

Lemma set_storage_same w : World.set_storage (World.storage w) w = w.
Proof. destruct w; reflexivity. Qed.

(** Inside trading hours a tick reports the stop-loss exit of a breached
    long position whichever branch it takes after monitoring. *)
Lemma tick_reports_stop_loss_exit today input w prices symbol row price stop ledger :
  fst (Utils.is_trading_hours settings (CycleInput.time_trading_hours input)) = true ->
  CycleInput.monitor_ltp input = LtpData prices ->
  Storage.positions (World.storage w) = {[ symbol := row ]} ->
  (0 < Position.quantity row)%Z ->
  Position.stop_loss_price row = Some stop ->
  ~ stop == 0 ->
  (Position.target_price row = None
   \/ exists target, Position.target_price row = Some target /\ price < target) ->
  prices !! symbol = Some price ->
  price <= stop ->
  Storage.daily_state (World.storage w) !! today = Some ledger ->
  exists action,
    monitored_exits
      (fst (TradingScheduler._run_trading_cycle settings uuid4 strategy_brain today input w))
    = Some [action]
    /\ ExitAction.symbol action = symbol
    /\ ExitAction.reason action = "stop_loss"%string.
Proof.
  intros Hhours Hltp Hbook Hq Hstop Hnz Htarget Hprice Hle Hledger.
  destruct (monitor_exits_long_at_stop settings uuid4 today (CycleInput.monitor_now input)
              prices w symbol row price stop ledger Hbook Hq Hstop Hnz Htarget Hprice Hle
              Hledger) as (order & w' & Hrun & _).
  rewrite _run_trading_cycle_cases, Hhours.
  unfold Storage.get_or_create_daily_state. rewrite Hledger. cbn [fst snd].
  rewrite set_storage_same, Hltp, Hrun. cbn [fst snd].
  eexists. split.
  - destruct (DailyState.safe_mode _); [reflexivity |].
    destruct (Utils.is_exit_only_time settings _); reflexivity.
  - split; reflexivity.
Qed.
End TickExits.

(** C9 as stated fails: at 16:00, after the close of trading at 15:15, a
    tick leaves the breached long position in the book and reports no exit,
    while the same tick at 10:00 exits it through position monitoring. *)
Lemma tick_outside_trading_hours_skips_monitoring :
  let w := Scenario.world_with Scenario.store_with_long_position in
  let tick (current_time : Z) :=
    TradingScheduler._run_trading_cycle (SM := spec_schema) (RT := sample_runtime)
      Settings.default sample_uuid4 StrategyBrainAgent.init Scenario.today
      (Scenario.tick_at current_time) w in
  tick (time_of_day 16 0)
  = (OutsideTradingHours (Some "Market closed (closed at 15:15:00)"%string), w)
  /\ Storage.positions (World.storage (snd (tick (time_of_day 16 0)))) !! "MCX"%string
     = Some Scenario.long_position
  /\ (exists action, fst (tick (time_of_day 10 0)) = CycleCompleted [action])
  /\ Storage.positions (World.storage (snd (tick (time_of_day 10 0)))) !! "MCX"%string = None.
Proof. vm_compute. repeat split; try reflexivity. eexists. reflexivity. Qed.

(** ** The safe-mode latch *)

Lemma classic_comparable intent :
  stop_loss_comparable intent \/ ~ stop_loss_comparable intent.
Proof.
  unfold stop_loss_comparable.
  destruct (TradeIntent.stop_loss_price intent), (TradeIntent.entry_price intent);
    try (left; (left; reflexivity) || (right; discriminate)).
  right. intros [H | H]; [discriminate | congruence].
Qed.

Section Latch.
Context {SM : SchemaMethods} {RT : PyRuntime} {SL : SchemaLaws SM}.
Variable settings : Settings.t.
Variable uuid4 : nat -> string.
Variable strategy_brain : StrategyBrainAgent.t.

(** On a latched ledger [approve] keeps the latch, and any decision it
    returns is a rejection. *)
Lemma approve_latched today now intent intent_id st :
  latched today st ->
  latched today (snd (RiskPolicyAgent.approve settings today now intent intent_id st))
  /\ forall decision,
      fst (RiskPolicyAgent.approve settings today now intent intent_id st) = Ok decision ->
      RiskApproval.approved decision = false.
Proof.
  intros Hl.
  destruct (Storage.get_or_create_daily_state settings today st) as [ds0 st0] eqn:Hgc.
  destruct (RiskPolicyAgent._update_unrealized_pnl ds0 st0) as [ds1 st1] eqn:Hup.
  destruct (get_or_create_latched settings today st ds0 st0 Hgc Hl) as [-> Hsafe0].
  pose proof (get_or_create_date settings today st ds0 st Hgc) as Hdate0.
  destruct (_update_unrealized_pnl_date ds0 st ds1 st1 Hup) as (Hdate1 & Hst1 & Hsafe1).
  specialize (Hsafe1 Hsafe0).
  assert (Hl1 : latched today st1).
  { rewrite Hst1. apply save_daily_state_latched; [congruence | exact Hsafe1]. }
  split.
  - destruct (classic_comparable intent) as [Hcmp | Hcmp].
    + rewrite (approve_store settings today now intent intent_id st ds0 st ds1 st1 Hgc Hup Hcmp).
      rewrite Hsafe1, andb_false_r. exact Hl1.
    + rewrite (approve_raises_on_missing_entry settings today now intent intent_id st
                 ds0 st ds1 st1 Hgc Hup Hcmp).
      exact Hl1.
  - intros decision Hrun.
    destruct (RiskPolicyAgent.approve settings today now intent intent_id st)
      as [r st'] eqn:Happ.
    simpl in Hrun. subst r.
    eapply approve_rejects_when_latched; eauto.
Qed.

Lemma trigger_safe_mode_latched today st :
  latched today (RiskPolicyAgent.trigger_safe_mode settings today st).
Proof.
  unfold RiskPolicyAgent.trigger_safe_mode.
  destruct (Storage.get_or_create_daily_state settings today st) as [ds st0] eqn:Hgc.
  apply save_daily_state_latched; [| reflexivity].
  simpl. exact (get_or_create_date settings today st ds st0 Hgc).
Qed.

Lemma _update_position_ledger now order intent st st' :
  ExecutionPaperAgent._update_position now order intent st = Ok st' ->
  Storage.daily_state st' = Storage.daily_state st.
Proof.
  unfold ExecutionPaperAgent._update_position.
  destruct (PaperOrder.fill_price order); [| discriminate].
  match goal with
  | |- (if ?c then _ else _) = _ -> _ => destruct c
  end; intros H; injection H as <-; reflexivity.
Qed.

Lemma latched_same_ledger today st st' :
  Storage.daily_state st' = Storage.daily_state st -> latched today st -> latched today st'.
Proof. unfold latched. intros ->. exact (fun H => H). Qed.

Lemma _update_daily_state_latched today now intent st :
  latched today st ->
  latched today (ExecutionPaperAgent._update_daily_state settings today now intent st).
Proof.
  intros Hl.
  destruct (Storage.get_or_create_daily_state settings today st) as [ds st0] eqn:Hgc.
  rewrite (_update_daily_state_effect settings today now intent st ds st0 Hgc).
  destruct (get_or_create_latched settings today st ds st0 Hgc Hl) as [_ Hsafe].
  apply save_daily_state_latched; [| exact Hsafe].
  simpl. exact (get_or_create_date settings today st ds st0 Hgc).
Qed.

Lemma _is_duplicate_storage clock intent w :
  World.storage (snd (ExecutionPaperAgent._is_duplicate clock intent w)) = World.storage w.
Proof.
  unfold ExecutionPaperAgent._is_duplicate.
  match goal with
  | |- context [if ?c then (true, w) else _] => destruct c
  end; reflexivity.
Qed.

Lemma execute_latched today now clock ltp_answer intent approval w :
  latched today (World.storage w) ->
  latched today
    (World.storage
       (snd (ExecutionPaperAgent.execute settings uuid4 today now clock ltp_answer intent
               approval w))).
Proof.
  intros Hl. unfold ExecutionPaperAgent.execute.
  destruct (negb (RiskApproval.approved approval)); [exact Hl |].
  pose proof (_is_duplicate_storage clock intent w) as Hdup.
  destruct (ExecutionPaperAgent._is_duplicate clock intent w) as [dup w1].
  simpl in Hdup. rewrite <- Hdup in Hl.
  destruct dup; [exact Hl |].
  match goal with
  | |- context [match ?p with Some _ => _ | None => (Ok None, w1) end] => destruct p
  end; [| exact Hl].
  unfold ExecutionPaperAgent.draw_uuid.
  match goal with
  | |- context [ExecutionPaperAgent._simulate_fill ?a ?b ?c ?d ?q ?f] =>
      destruct (ExecutionPaperAgent._simulate_fill a b c d q f) as [order | err]
  end; [| exact Hl].
  destruct (decide (PaperOrder.status order = FILLED)); [| exact Hl].
  cbn [World.storage].
  destruct (ExecutionPaperAgent._update_position now order intent (World.storage w1))
    as [st | err'] eqn:Hpos; [| exact Hl].
  cbn [snd World.storage World.set_storage].
  apply save_paper_order_latched, _update_daily_state_latched.
  eapply latched_same_ledger; [exact (_update_position_ledger _ _ _ _ _ Hpos) | exact Hl].
Qed.

Lemma _exit_position_latched today now position price reason w :
  latched today (World.storage w) ->
  latched today
    (World.storage
       (snd (ExecutionPaperAgent._exit_position settings uuid4 today now position price
               reason w))).
Proof.
  intros Hl. unfold ExecutionPaperAgent._exit_position, ExecutionPaperAgent.draw_uuid.
  cbn [World.storage].
  match goal with
  | |- context [Storage.get_or_create_daily_state settings today ?s] =>
      destruct (Storage.get_or_create_daily_state settings today s) as [ds st0] eqn:Hgc;
      assert (Hls : latched today s) by exact Hl
  end.
  destruct (get_or_create_latched settings today _ ds st0 Hgc Hls) as [_ Hsafe].
  pose proof (get_or_create_date settings today _ ds st0 Hgc) as Hdate.
  cbn [snd World.storage World.set_storage].
  apply delete_position_latched, save_daily_state_latched.
  - rewrite update_pnl_date. exact Hdate.
  - apply update_pnl_latch. exact Hsafe.
Qed.

Lemma exit_step_latched today now position price reason (acc : list ExitAction.t * World.t) :
  latched today (World.storage (snd acc)) ->
  latched today
    (World.storage
       (snd (let '(a, w0) :=
               ExecutionPaperAgent._exit_position settings uuid4 today now position price
                 reason (snd acc) in
             (fst acc ++ [a], w0)))).
Proof.
  intros Hl.
  pose proof (_exit_position_latched today now position price reason (snd acc) Hl) as H.
  destruct (ExecutionPaperAgent._exit_position settings uuid4 today now position price
              reason (snd acc)) as [a w0].
  exact H.
Qed.

Lemma monitor_position_latched today now prices position acc :
  latched today (World.storage (snd acc)) ->
  latched today
    (World.storage
       (snd (ExecutionPaperAgent.monitor_position settings uuid4 today now prices position
               acc))).
Proof.
  destruct acc as [exit_actions w]. cbn [snd]. intros Hl.
  unfold ExecutionPaperAgent.monitor_position.
  destruct (prices !! Position.symbol position) as [price |]; [| exact Hl].
  set (p := Position_update_pnl price position).
  set (w1 := World.set_storage (Storage.save_position p (World.storage w)) w).
  assert (Hl1 : latched today (World.storage w1)) by exact Hl.
  match goal with
  | |- latched today (World.storage (snd (match ?stop_part with (_, _) => _ end))) =>
      assert (Hs : latched today (World.storage (snd stop_part)));
      [| destruct stop_part as [ea ws] ]
  end.
  - destruct (truthy (Position.stop_loss_price p)) as [stop |]; [| exact Hl1].
    destruct ((0 <? Position.quantity p)%Z && Qleb price stop).
    + apply (exit_step_latched today now p price "stop_loss" (exit_actions, w1) Hl1).
    + destruct ((Position.quantity p <? 0)%Z && Qleb stop price).
      * apply (exit_step_latched today now p price "stop_loss" (exit_actions, w1) Hl1).
      * exact Hl1.
  - cbn [snd] in Hs.
    destruct (truthy (Position.target_price p)) as [target |]; [| exact Hs].
    destruct ((0 <? Position.quantity p)%Z && Qleb target price).
    + apply (exit_step_latched today now p price "target" (ea, ws) Hs).
    + destruct ((Position.quantity p <? 0)%Z && Qleb price target).
      * apply (exit_step_latched today now p price "target" (ea, ws) Hs).
      * exact Hs.
Qed.

Lemma monitor_positions_latched today now ltp_answer w :
  latched today (World.storage w) ->
  latched today
    (World.storage
       (snd (ExecutionPaperAgent.monitor_positions settings uuid4 today now ltp_answer w))).
Proof.
  intros Hl. unfold ExecutionPaperAgent.monitor_positions.
  destruct (Storage.get_all_positions (World.storage w)) as [| position positions];
    [exact Hl |].
  destruct ltp_answer as [| prices]; [exact Hl |].
  generalize (position :: positions). intros l.
  assert (Hacc : latched today (World.storage (snd (@nil ExitAction.t, w)))) by exact Hl.
  revert Hacc. generalize (@nil ExitAction.t, w).
  induction l as [| p l IH]; intros acc Hacc; [exact Hacc |].
  cbn [fold_left]. apply IH. now apply monitor_position_latched.
Qed.

Lemma flatten_all_positions_latched today now ltp_answer reason w :
  latched today (World.storage w) ->
  latched today
    (World.storage
       (ExecutionPaperAgent.flatten_all_positions settings uuid4 today now ltp_answer
          reason w)).
Proof.
  intros Hl. unfold ExecutionPaperAgent.flatten_all_positions.
  destruct (Storage.get_all_positions (World.storage w)) as [| position positions];
    [exact Hl |].
  destruct ltp_answer as [| prices]; [exact Hl |].
  generalize (position :: positions). intros l. revert w Hl.
  induction l as [| p l IH]; intros w Hl; [exact Hl |].
  cbn [fold_left]. apply IH.
  destruct (truthy (prices !! Position.symbol p)); [| exact Hl].
  now apply _exit_position_latched.
Qed.

(** One symbol of the per-symbol loop keeps the latch, whatever ledger
    object the tick still holds from before monitoring: on a latched
    ledger no decision is approved, so neither the sign-off branch (which
    saves that object) nor the execution branch is reached. *)
Lemma process_symbol_latched today input acc :
  latched today (World.storage (snd acc)) ->
  latched today
    (World.storage
       (snd (TradingScheduler.process_symbol settings uuid4 strategy_brain today input acc))).
Proof.
  destruct acc as [stale w]. cbn [snd]. intros Hl.
  unfold TradingScheduler.process_symbol.
  destruct (SymbolInput.snapshot input) as [snapshot |]; [| exact Hl].
  destruct (StrategyBrainAgent.evaluate strategy_brain snapshot) as [[intent |] | e];
    [| exact Hl | exact Hl].
  match goal with
  | |- context [RiskPolicyAgent.approve settings today ?n ?i ?id ?s] =>
      destruct (approve_latched today n i id s Hl) as [Hl' Hrej];
      destruct (RiskPolicyAgent.approve settings today n i id s) as [r st']
  end.
  cbn [fst snd] in Hl', Hrej.
  destruct r as [approval | e]; [| exact Hl'].
  rewrite (Hrej approval eq_refl). exact Hl'.
Qed.

Lemma process_symbols_latched today (inputs : string -> SymbolInput.t) symbols acc :
  latched today (World.storage (snd acc)) ->
  latched today
    (World.storage
       (snd (fold_left
               (fun acc symbol =>
                  TradingScheduler.process_symbol settings uuid4 strategy_brain today
                    (inputs symbol) acc)
               symbols acc))).
Proof.
  revert acc. induction symbols as [| s l IH]; intros acc Hl; [exact Hl |].
  cbn [fold_left]. apply IH. now apply process_symbol_latched.
Qed.

Lemma _run_trading_cycle_latched today input w :
  latched today (World.storage w) ->
  latched today
    (World.storage
       (snd (TradingScheduler._run_trading_cycle settings uuid4 strategy_brain today input w))).
Proof.
  intros Hl. rewrite _run_trading_cycle_cases.
  destruct (fst (Utils.is_trading_hours settings _)); [| exact Hl].
  destruct (Storage.get_or_create_daily_state settings today (World.storage w))
    as [ds st0] eqn:Hgc.
  destruct (get_or_create_latched settings today _ ds st0 Hgc Hl) as [-> Hsafe].
  cbn [fst snd]. rewrite Hsafe. cbn [snd].
  apply flatten_all_positions_latched, monitor_positions_latched. exact Hl.
Qed.

Lemma _cleanup_latched today now current_time ltp_answer w :
  latched today (World.storage w) ->
  latched today
    (World.storage (TradingScheduler._cleanup settings uuid4 today now current_time
                      ltp_answer w)).
Proof.
  intros Hl. unfold TradingScheduler._cleanup.
  destruct (Utils.is_exit_only_time settings current_time); [| exact Hl].
  now apply flatten_all_positions_latched.
Qed.

Lemma run_operation_latched today op w :
  latched today (World.storage w) ->
  latched today (World.storage (run_operation settings uuid4 strategy_brain today op w)).
Proof.
  intros Hl. destruct op; cbn [run_operation].
  - apply approve_latched. exact Hl.
  - apply trigger_safe_mode_latched.
  - now apply execute_latched.
  - now apply monitor_positions_latched.
  - now apply flatten_all_positions_latched.
  - now apply _run_trading_cycle_latched.
  - now apply _cleanup_latched.
Qed.

(** C8. Within a day the safe-mode flag of the stored ledger is a one-way
    latch: once it is set, it is still set after any sequence of operations
    of the guardrail engine ([approve], [trigger_safe_mode]), of the
    simulator ([execute], [monitor_positions], [flatten_all_positions]) and
    of the scheduler (a tick, the cleanup).  Only the explicit reset
    replaces the ledger of the day by a fresh one, whose flag is unset. *)
Theorem safe_mode_is_a_one_way_latch today ops w :
  latched today (World.storage w) ->
  latched today (World.storage (run_operations settings uuid4 strategy_brain today ops w))
  /\ exists fresh,
      Storage.daily_state
        (RiskPolicyAgent.reset_daily_state settings today
           (World.storage (run_operations settings uuid4 strategy_brain today ops w)))
        !! today = Some fresh
      /\ DailyState.safe_mode fresh = false.
Proof.
  intros Hl. split.
  - unfold run_operations. revert w Hl.
    induction ops as [| op ops IH]; intros w Hl; [exact Hl |].
    cbn [fold_left]. apply IH. now apply run_operation_latched.
  - eexists. split.
    + unfold RiskPolicyAgent.reset_daily_state, Storage.save_daily_state. simpl.
      apply lookup_insert_eq.
    + reflexivity.
Qed.
End Latch.

(** ** The strategy evaluator *)

Lemma fold_max_first_maximum {A} (key : A -> Q) (rest before after : list A) (cur : A) :
  (forall y, In y before -> key y < key cur) ->
  (forall y, In y after -> key y <= key cur) ->
  exists before' after',
    before ++ cur :: after ++ rest
    = before' ++ fold_left (fun best y => if Qltb (key best) (key y) then y else best) rest cur
               :: after'
    /\ (forall y, In y before' ->
        key y < key (fold_left (fun best y => if Qltb (key best) (key y) then y else best)
                       rest cur))
    /\ (forall y, In y after' ->
        key y <= key (fold_left (fun best y => if Qltb (key best) (key y) then y else best)
                        rest cur)).
Proof.
  revert before after cur.
  induction rest as [| z rest IH]; intros before after cur Hbefore Hafter.
  - exists before, after. rewrite app_nil_r. auto.
  - cbn [fold_left]. destruct (Qltb (key cur) (key z)) eqn:E.
    + apply Qltb_lt in E.
      destruct (IH (before ++ cur :: after) [] z) as (b & a & Heq & Hb & Ha).
      * intros y Hy. apply in_app_or in Hy as [Hy | [<- | Hy]].
        -- specialize (Hbefore y Hy). lra.
        -- exact E.
        -- specialize (Hafter y Hy). lra.
      * intros y [].
      * exists b, a. split; [| auto].
        rewrite <- Heq. cbn [app]. rewrite <- !app_assoc. reflexivity.
    + apply Qltb_ge in E.
      destruct (IH before (after ++ [z]) cur) as (b & a & Heq & Hb & Ha).
      * exact Hbefore.
      * intros y Hy. apply in_app_or in Hy as [Hy | [<- | []]]; [auto | exact E].
      * exists b, a. split; [| auto].
        rewrite <- Heq. rewrite <- !app_assoc. reflexivity.
Qed.

(** [max(items, key)] returns the first item with the highest key. *)
Lemma py_max_by_first_maximum {A} (key : A -> Q) (items : list A) :
  items <> [] ->
  exists best, py_max_by key items = Some best /\ first_maximum key items best.
Proof.
  destruct items as [| x rest]; [congruence |]. intros _.
  eexists. split; [reflexivity |].
  destruct (fold_max_first_maximum key rest [] [] x) as (b & a & Heq & Hb & Ha);
    [intros y [] | intros y [] |].
  exists b, a. split; [exact Heq | auto].
Qed.

Section Evaluator.
Import StrategyBrainAgent.

Lemma collect_scores_each evaluators snapshot scores :
  collect_scores evaluators snapshot = Ok scores ->
  Forall2 (fun ev score => snd ev snapshot = Ok score) evaluators scores.
Proof.
  revert scores. induction evaluators as [| [strategy evaluator] rest IH]; intros scores.
  - intros H. injection H as <-. constructor.
  - cbn [collect_scores].
    destruct (evaluator snapshot) as [score | e] eqn:E; [| discriminate].
    destruct (collect_scores rest snapshot) as [scores' | e]; [| discriminate].
    intros H. injection H as <-. constructor; [exact E | now apply IH].
Qed.

(** The selection rule of [evaluate], for any registry: once every
    registered evaluator has scored the snapshot, the result is "no trade"
    when the first best score is below the threshold, and otherwise the
    intent generated from the first best score. *)
Lemma evaluate_selects self snapshot scores :
  collect_scores (strategy_evaluators self) snapshot = Ok scores ->
  scores <> [] ->
  exists best,
    first_maximum StrategyScore.confidence scores best
    /\ evaluate self snapshot
       = if Qltb (StrategyScore.confidence best) (min_confidence_threshold self)
         then Ok None
         else Ok (Some (_generate_trade_intent snapshot best)).
Proof.
  intros Hscores Hne.
  destruct (py_max_by_first_maximum StrategyScore.confidence scores Hne)
    as (best & Hmax & Hfirst).
  exists best. split; [exact Hfirst |].
  unfold evaluate. rewrite Hscores, Hmax. reflexivity.
Qed.

Lemma generated_intent_fields snapshot score :
  TradeIntent.strategy_id (_generate_trade_intent snapshot score)
  = StrategyScore.strategy score
  /\ TradeIntent.confidence_score (_generate_trade_intent snapshot score)
     = StrategyScore.confidence score
  /\ TradeIntent.symbol (_generate_trade_intent snapshot score)
     = MarketSnapshot.symbol snapshot.
Proof.
  unfold _generate_trade_intent.
  destruct (StrategyScore.strategy score);
    repeat match goal with
           | |- context [if ?c then _ else _] => destruct c
           end; repeat split.
Qed.

Lemma py_div_nonzero x y : ~ y == 0 -> py_div x y = Ok (x / y).
Proof.
  intros Hy. unfold py_div. destruct (Qeq_bool y 0) eqn:E; [| reflexivity].
  apply Qeq_bool_iff in E. contradiction.
Qed.

Ltac destruct_conditions :=
  repeat match goal with
         | |- context [if ?c then _ else _] => destruct c
         end.

Lemma _evaluate_momentum_breakout_scores snapshot :
  ~ MarketSnapshot.vwap snapshot == 0 ->
  exists confidence,
    _evaluate_momentum_breakout snapshot = Ok (finish MOMENTUM_BREAKOUT confidence).
Proof.
  intros Hvwap. unfold _evaluate_momentum_breakout.
  rewrite (py_div_nonzero _ _ Hvwap).
  destruct (both_truthy _ _) as [[or_high or_low] |];
    destruct (truthy (MarketSnapshot.avg_volume_20d snapshot));
    destruct_conditions; eexists; reflexivity.
Qed.

Lemma _evaluate_mean_reversion_scores snapshot :
  ~ MarketSnapshot.vwap snapshot == 0 ->
  ~ MarketSnapshot.ltp snapshot == 0 ->
  exists confidence,
    _evaluate_mean_reversion snapshot = Ok (finish MEAN_REVERSION confidence).
Proof.
  intros Hvwap Hltp. unfold _evaluate_mean_reversion.
  rewrite (py_div_nonzero _ _ Hvwap).
  destruct (both_truthy _ _) as [[bb_upper bb_lower] |];
    rewrite ?(py_div_nonzero _ _ Hltp);
    destruct_conditions; eexists; reflexivity.
Qed.

Lemma _evaluate_volatility_expansion_scores snapshot :
  ~ MarketSnapshot.ltp snapshot == 0 ->
  exists confidence,
    _evaluate_volatility_expansion snapshot = Ok (finish VOLATILITY_EXPANSION confidence).
Proof.
  intros Hltp. unfold _evaluate_volatility_expansion.
  destruct (both_truthy (MarketSnapshot.bb_width snapshot) (MarketSnapshot.atr snapshot))
    as [[bb_width atr] |];
    rewrite ?(py_div_nonzero _ _ Hltp);
    destruct (both_truthy (MarketSnapshot.bb_upper snapshot)
                (MarketSnapshot.bb_lower snapshot)) as [[bb_upper bb_lower] |];
    destruct (truthy (MarketSnapshot.avg_volume_20d snapshot));
    destruct_conditions; eexists; reflexivity.
Qed.

(** With a non-zero price and a non-zero VWAP every strategy of the
    registry returns a score, in registration order and each tagged with
    its own strategy. *)
Lemma registry_scores snapshot :
  ~ MarketSnapshot.vwap snapshot == 0 ->
  ~ MarketSnapshot.ltp snapshot == 0 ->
  exists s1 s2 s3,
    collect_scores (strategy_evaluators init) snapshot = Ok [s1; s2; s3]
    /\ _evaluate_momentum_breakout snapshot = Ok s1
    /\ _evaluate_mean_reversion snapshot = Ok s2
    /\ _evaluate_volatility_expansion snapshot = Ok s3
    /\ StrategyScore.strategy s1 = MOMENTUM_BREAKOUT
    /\ StrategyScore.strategy s2 = MEAN_REVERSION
    /\ StrategyScore.strategy s3 = VOLATILITY_EXPANSION.
Proof.
  intros Hvwap Hltp.
  destruct (_evaluate_momentum_breakout_scores snapshot Hvwap) as (c1 & H1).
  destruct (_evaluate_mean_reversion_scores snapshot Hvwap Hltp) as (c2 & H2).
  destruct (_evaluate_volatility_expansion_scores snapshot Hltp) as (c3 & H3).
  eexists _, _, _. split; [| split; [exact H1 | split; [exact H2 | split; [exact H3 |]]]].
  - cbn [strategy_evaluators init collect_scores]. rewrite H1, H2, H3. reflexivity.
  - repeat split.
Qed.

(** C7. On a snapshot with a non-zero price and VWAP, [evaluate] scores
    every registered strategy on that snapshot, in the registration order
    momentum breakout, mean reversion, volatility expansion.  It returns
    "no trade" when the highest confidence is below the threshold 0.6, and
    otherwise the intent generated from the score with the highest
    confidence, which carries that score's strategy and confidence.  Among
    scores with equal highest confidence the first registered is taken:
    every score before the selected one is strictly lower. *)
Theorem evaluate_selects_first_highest_confidence snapshot :
  ~ MarketSnapshot.vwap snapshot == 0 ->
  ~ MarketSnapshot.ltp snapshot == 0 ->
  exists s1 s2 s3 best,
    _evaluate_momentum_breakout snapshot = Ok s1
    /\ _evaluate_mean_reversion snapshot = Ok s2
    /\ _evaluate_volatility_expansion snapshot = Ok s3
    /\ StrategyScore.strategy s1 = MOMENTUM_BREAKOUT
    /\ StrategyScore.strategy s2 = MEAN_REVERSION
    /\ StrategyScore.strategy s3 = VOLATILITY_EXPANSION
    /\ first_maximum StrategyScore.confidence [s1; s2; s3] best
    /\ (StrategyScore.confidence best < 0.6 -> evaluate init snapshot = Ok None)
    /\ (0.6 <= StrategyScore.confidence best ->
        exists intent,
          evaluate init snapshot = Ok (Some intent)
          /\ intent = _generate_trade_intent snapshot best
          /\ TradeIntent.strategy_id intent = StrategyScore.strategy best
          /\ TradeIntent.confidence_score intent = StrategyScore.confidence best).
Proof.
  intros Hvwap Hltp.
  destruct (registry_scores snapshot Hvwap Hltp)
    as (s1 & s2 & s3 & Hscores & H1 & H2 & H3 & T1 & T2 & T3).
  destruct (evaluate_selects init snapshot [s1; s2; s3] Hscores) as (best & Hfirst & Hrun);
    [discriminate |].
  exists s1, s2, s3, best.
  repeat (split; [assumption |]).
  cbn [min_confidence_threshold init] in Hrun. split.
  - intros Hlow. rewrite Hrun. rewrite (proj2 (Qltb_lt _ _) Hlow). reflexivity.
  - intros Hhigh. rewrite Hrun. rewrite (proj2 (Qltb_ge _ _) Hhigh).
    eexists. split; [reflexivity |]. split; [reflexivity |].
    destruct (generated_intent_fields snapshot best) as (Hs & Hc & _). auto.
Qed.
End Evaluator.

Lemma evaluate_selects_first_highest_confidence_witness :
  exists s1 s2 s3 best,
    StrategyBrainAgent._evaluate_momentum_breakout Scenario.tied_snapshot = Ok s1
    /\ StrategyBrainAgent._evaluate_mean_reversion Scenario.tied_snapshot = Ok s2
    /\ StrategyBrainAgent._evaluate_volatility_expansion Scenario.tied_snapshot = Ok s3
    /\ StrategyScore.strategy s1 = MOMENTUM_BREAKOUT
    /\ StrategyScore.strategy s2 = MEAN_REVERSION
    /\ StrategyScore.strategy s3 = VOLATILITY_EXPANSION
    /\ first_maximum StrategyScore.confidence [s1; s2; s3] best
    /\ (StrategyScore.confidence best < 0.6 ->
        StrategyBrainAgent.evaluate StrategyBrainAgent.init Scenario.tied_snapshot = Ok None)
    /\ (0.6 <= StrategyScore.confidence best ->
        exists intent,
          StrategyBrainAgent.evaluate StrategyBrainAgent.init Scenario.tied_snapshot
          = Ok (Some intent)
          /\ intent = StrategyBrainAgent._generate_trade_intent Scenario.tied_snapshot best
          /\ TradeIntent.strategy_id intent = StrategyScore.strategy best
          /\ TradeIntent.confidence_score intent = StrategyScore.confidence best).
Proof.
  apply (evaluate_selects_first_highest_confidence Scenario.tied_snapshot).
  - intros H. discriminate H.
  - intros H. discriminate H.
Defined.

(** On the tied snapshot the breakout and the expansion strategies both
    score 0.65; the intent is the breakout's, the first registered. *)
Example evaluate_tie_goes_to_first_registered :
  exists s1 s2 s3 intent,
    StrategyBrainAgent._evaluate_momentum_breakout Scenario.tied_snapshot = Ok s1
    /\ StrategyBrainAgent._evaluate_mean_reversion Scenario.tied_snapshot = Ok s2
    /\ StrategyBrainAgent._evaluate_volatility_expansion Scenario.tied_snapshot = Ok s3
    /\ StrategyScore.confidence s1 == 0.65
    /\ StrategyScore.confidence s2 == 0
    /\ StrategyScore.confidence s3 == 0.65
    /\ StrategyBrainAgent.evaluate StrategyBrainAgent.init Scenario.tied_snapshot
       = Ok (Some intent)
    /\ TradeIntent.strategy_id intent = MOMENTUM_BREAKOUT
    /\ TradeIntent.entry_price intent = None.
Proof. vm_compute. eexists _, _, _, _. repeat split; reflexivity. Qed.

Lemma safe_mode_is_a_one_way_latch_witness :
  latched Scenario.today
    (World.storage
       (run_operations (SM := spec_schema) (RT := sample_runtime) Settings.default
          sample_uuid4 StrategyBrainAgent.init Scenario.today Scenario.busy_day
          Scenario.latched_world))
  /\ exists fresh,
      Storage.daily_state
        (RiskPolicyAgent.reset_daily_state Settings.default Scenario.today
           (World.storage
              (run_operations (SM := spec_schema) (RT := sample_runtime) Settings.default
                 sample_uuid4 StrategyBrainAgent.init Scenario.today Scenario.busy_day
                 Scenario.latched_world)))
        !! Scenario.today = Some fresh
      /\ DailyState.safe_mode fresh = false.
Proof.
  apply (safe_mode_is_a_one_way_latch (SM := spec_schema) (RT := sample_runtime)
           (SL := spec_schema_laws) Settings.default sample_uuid4 StrategyBrainAgent.init
           Scenario.today Scenario.busy_day Scenario.latched_world).
  exists Scenario.latched_ledger. split; [vm_compute; reflexivity | reflexivity].
Defined.

(** * Further properties of the code *)

(** ** The guardrail engine *)

Lemma py_min_le_l a b : py_min a b <= a.
Proof.
  unfold py_min. destruct (Qltb b a) eqn:E; [apply Qltb_lt in E; lra | lra].
Qed.

Lemma py_min_le_r a b : py_min a b <= b.
Proof.
  unfold py_min. destruct (Qltb b a) eqn:E; [lra | apply Qltb_ge in E; exact E].
Qed.

Lemma py_min_glb a b c : c <= a -> c <= b -> c <= py_min a b.
Proof. intros Ha Hb. unfold py_min. destruct (Qltb b a); assumption. Qed.

Section ApprovedDecisions.
Context {SM : SchemaMethods} {RT : PyRuntime}.
Variable settings : Settings.t.

Lemma refreshed_ledger_run today st :
  exists ds0 st0 st1,
    Storage.get_or_create_daily_state settings today st = (ds0, st0)
    /\ RiskPolicyAgent._update_unrealized_pnl ds0 st0
       = (refreshed_ledger settings today st, st1).
Proof.
  unfold refreshed_ledger.
  destruct (Storage.get_or_create_daily_state settings today st) as [ds0 st0].
  destruct (RiskPolicyAgent._update_unrealized_pnl ds0 st0) as [ds1 st1] eqn:E.
  exists ds0, st0, st1. split; [reflexivity | exact E].
Qed.

Lemma stop_on_losing_side_comparable intent :
  stop_on_losing_side intent -> stop_loss_comparable intent.
Proof. intros (stop & entry & _ & He & _). right. congruence. Qed.

(** *** What a passing check says and writes *)

Lemma _check_safe_mode_pass daily_state a a' :
  RiskPolicyAgent._check_safe_mode daily_state a = (true, a') ->
  DailyState.safe_mode daily_state = false /\ a' = a.
Proof.
  unfold RiskPolicyAgent._check_safe_mode.
  destruct (DailyState.safe_mode daily_state); [discriminate |].
  intros H. injection H as <-. auto.
Qed.

Lemma _check_stop_loss_pass_keeps intent a a' :
  RiskPolicyAgent._check_stop_loss intent a = Ok (true, a') -> a' = a.
Proof.
  unfold RiskPolicyAgent._check_stop_loss.
  destruct (TradeIntent.stop_loss_price intent) as [stop |]; [| discriminate].
  destruct (TradeIntent.side intent), (TradeIntent.entry_price intent) as [entry |];
    cbn [py_le]; try discriminate;
    destruct (Qleb _ _); try discriminate; intros H; injection H as <-; reflexivity.
Qed.

Lemma _check_stop_loss_holds intent a :
  stop_on_losing_side intent -> RiskPolicyAgent._check_stop_loss intent a = Ok (true, a).
Proof.
  intros (stop & entry & Hs & He & Hside).
  unfold RiskPolicyAgent._check_stop_loss. rewrite Hs, He. cbn [py_le].
  destruct (TradeIntent.side intent).
  - rewrite (proj2 (Qleb_gt entry stop) Hside). reflexivity.
  - rewrite (proj2 (Qleb_gt stop entry) Hside). reflexivity.
Qed.

Lemma _check_daily_loss_budget_pass intent daily_state a st a' daily_state' st' :
  RiskPolicyAgent._check_daily_loss_budget intent daily_state a st
  = (true, a', daily_state', st') ->
  0 < DailyState.loss_budget_remaining daily_state
  /\ TradeIntent.expected_risk_rupees intent <= DailyState.loss_budget_remaining daily_state
  /\ a' = a /\ daily_state' = daily_state /\ st' = st.
Proof.
  unfold RiskPolicyAgent._check_daily_loss_budget.
  destruct (Qleb (DailyState.loss_budget_remaining daily_state) 0) eqn:E1.
  - destruct (negb (DailyState.safe_mode daily_state)); discriminate.
  - destruct (Qltb _ _) eqn:E2; [discriminate |].
    intros H. injection H as <- <- <-.
    apply Qleb_gt in E1. apply Qltb_ge in E2. auto.
Qed.

Lemma _check_daily_loss_budget_holds intent daily_state a st :
  0 < DailyState.loss_budget_remaining daily_state ->
  TradeIntent.expected_risk_rupees intent <= DailyState.loss_budget_remaining daily_state ->
  RiskPolicyAgent._check_daily_loss_budget intent daily_state a st
  = (true, a, daily_state, st).
Proof.
  intros H1 H2. unfold RiskPolicyAgent._check_daily_loss_budget.
  rewrite (proj2 (Qleb_gt _ _) H1), (proj2 (Qltb_ge _ _) H2). reflexivity.
Qed.

Lemma _check_per_trade_risk_pass intent daily_state a a' :
  RiskPolicyAgent._check_per_trade_risk settings intent daily_state a = (true, a') ->
  TradeIntent.expected_risk_rupees intent <= per_trade_cap settings daily_state
  /\ a' = RiskApproval.set_flag "max_risk_per_trade"
            (FlagFloat (per_trade_cap settings daily_state)) a.
Proof.
  unfold RiskPolicyAgent._check_per_trade_risk. fold (per_trade_cap settings daily_state).
  destruct (Qltb _ _) eqn:E; [discriminate |].
  intros H. injection H as <-. apply Qltb_ge in E. auto.
Qed.

Lemma _check_per_trade_risk_holds intent daily_state a :
  TradeIntent.expected_risk_rupees intent <= per_trade_cap settings daily_state ->
  fst (RiskPolicyAgent._check_per_trade_risk settings intent daily_state a) = true.
Proof.
  intros H. unfold RiskPolicyAgent._check_per_trade_risk.
  fold (per_trade_cap settings daily_state).
  rewrite (proj2 (Qltb_ge _ _) H). reflexivity.
Qed.

Lemma _check_max_trades_pass daily_state a a' :
  RiskPolicyAgent._check_max_trades daily_state a = (true, a') ->
  (DailyState.trades_count daily_state < DailyState.max_trades daily_state)%Z /\ a' = a.
Proof.
  unfold RiskPolicyAgent._check_max_trades.
  destruct (_ <=? _)%Z eqn:E; [discriminate |].
  intros H. injection H as <-. apply Z.leb_gt in E. auto.
Qed.

Lemma _check_max_trades_holds daily_state a :
  (DailyState.trades_count daily_state < DailyState.max_trades daily_state)%Z ->
  RiskPolicyAgent._check_max_trades daily_state a = (true, a).
Proof.
  intros H. unfold RiskPolicyAgent._check_max_trades.
  rewrite (proj2 (Z.leb_gt _ _) H). reflexivity.
Qed.

Lemma _check_max_trades_reached daily_state a :
  (DailyState.max_trades daily_state <= DailyState.trades_count daily_state)%Z ->
  RiskPolicyAgent._check_max_trades daily_state a
  = (false,
     RiskApproval.reject
       ("Max trades per day (" ++ pretty (DailyState.max_trades daily_state) ++ ") reached")
       "max_trades_reached" a).
Proof.
  intros H. unfold RiskPolicyAgent._check_max_trades.
  rewrite (proj2 (Z.leb_le _ _) H). reflexivity.
Qed.

Lemma _check_symbol_validity_pass intent a a' :
  RiskPolicyAgent._check_symbol_validity settings intent a = (true, a') ->
  TradeIntent.symbol intent ∈ Settings.get_trading_symbols settings /\ a' = a.
Proof.
  unfold RiskPolicyAgent._check_symbol_validity.
  destruct (bool_decide _) eqn:E; cbn [negb]; [| discriminate].
  intros H. injection H as <-. apply bool_decide_eq_true_1 in E. auto.
Qed.

Lemma _check_symbol_validity_holds intent a :
  TradeIntent.symbol intent ∈ Settings.get_trading_symbols settings ->
  RiskPolicyAgent._check_symbol_validity settings intent a = (true, a).
Proof.
  intros H. unfold RiskPolicyAgent._check_symbol_validity.
  rewrite (bool_decide_eq_true_2 _ H). reflexivity.
Qed.

Lemma _check_symbol_validity_fails intent a :
  TradeIntent.symbol intent ∉ Settings.get_trading_symbols settings ->
  RiskPolicyAgent._check_symbol_validity settings intent a
  = (false,
     RiskApproval.reject
       ("Symbol " ++ TradeIntent.symbol intent ++ " not in allowed trading list")
       "invalid_symbol" a).
Proof.
  intros H. unfold RiskPolicyAgent._check_symbol_validity.
  rewrite (bool_decide_eq_false_2 _ H). reflexivity.
Qed.

Lemma _check_strategy_switch_pass now intent daily_state a a' :
  RiskPolicyAgent._check_strategy_switch settings now intent daily_state a = (true, a') ->
  switch_permitted settings now intent daily_state
  /\ ((~ switches_strategy intent daily_state /\ a' = a)
      \/ exists current,
           DailyState.active_strategy daily_state = Some current
           /\ current <> TradeIntent.strategy_id intent
           /\ a' = apply_write (switch_write current intent) a).
Proof.
  unfold RiskPolicyAgent._check_strategy_switch, switch_permitted, switches_strategy.
  destruct (DailyState.active_strategy daily_state) as [current |].
  2: { intros H. injection H as <-. split.
       - intros (c & Hc & _). discriminate.
       - left. split; [| reflexivity]. intros (c & Hc & _). discriminate. }
  destruct (decide (current = TradeIntent.strategy_id intent)) as [Heq | Hne].
  { intros H. injection H as <-. split.
    - intros (c & Hc & Hn). congruence.
    - left. split; [| reflexivity]. intros (c & Hc & Hn). congruence. }
  destruct (DailyState.strategy_switched_at daily_state) as [switched_at |].
  - destruct (_ <? _)%Z eqn:Ecool; [discriminate |].
    destruct (Qltb _ _) eqn:Econf; [discriminate |].
    intros H. injection H as <-. apply Z.ltb_ge in Ecool. apply Qltb_ge in Econf.
    split.
    + intros _. split; [| exact Econf]. intros t Ht. injection Ht as <-. exact Ecool.
    + right. exists current. auto.
  - destruct (Qltb _ _) eqn:Econf; [discriminate |].
    intros H. injection H as <-. apply Qltb_ge in Econf.
    split.
    + intros _. split; [| exact Econf]. intros t Ht. discriminate.
    + right. exists current. auto.
Qed.

Lemma _check_strategy_switch_holds now intent daily_state a :
  switch_permitted settings now intent daily_state ->
  fst (RiskPolicyAgent._check_strategy_switch settings now intent daily_state a) = true.
Proof.
  unfold RiskPolicyAgent._check_strategy_switch, switch_permitted, switches_strategy.
  intros Hperm.
  destruct (DailyState.active_strategy daily_state) as [current |]; [| reflexivity].
  destruct (decide (current = TradeIntent.strategy_id intent)) as [Heq | Hne]; [reflexivity |].
  destruct Hperm as [Hcool Hconf]; [exists current; auto |].
  rewrite (proj2 (Qltb_ge _ _) Hconf).
  destruct (DailyState.strategy_switched_at daily_state) as [switched_at |]; [| reflexivity].
  rewrite (proj2 (Z.ltb_ge _ _) (Hcool _ eq_refl)). reflexivity.
Qed.

(** *** The decision of an approval *)

(** An approved decision comes out of the sign-off step and the sizing
    step, run on the initial decision with the per-trade cap noted and, for
    a change of strategy, the switch recorded; the store is the one the PnL
    refresh left. *)
Lemma approve_approved_inv today now intent intent_id st decision st' :
  RiskPolicyAgent.approve settings today now intent intent_id st = (Ok decision, st') ->
  RiskApproval.approved decision = true ->
  let ledger := refreshed_ledger settings today st in
  let a4 :=
    RiskApproval.set_flag "max_risk_per_trade" (FlagFloat (per_trade_cap settings ledger))
      (initial_approval intent_id ledger) in
  guardrails_hold settings now intent ledger
  /\ exists a7,
      ((~ switches_strategy intent ledger /\ a7 = a4)
       \/ exists current,
            DailyState.active_strategy ledger = Some current
            /\ current <> TradeIntent.strategy_id intent
            /\ a7 = apply_write (switch_write current intent) a4)
      /\ RiskPolicyAgent._adjust_quantity intent ledger
           (RiskPolicyAgent._check_hitl_requirements settings intent ledger a7)
         = Ok decision.
Proof.
  unfold RiskPolicyAgent.approve, refreshed_ledger.
  destruct (Storage.get_or_create_daily_state settings today st) as [ds0 st0].
  destruct (RiskPolicyAgent._update_unrealized_pnl ds0 st0) as [ds1 st1].
  cbn [fst]. fold (initial_approval intent_id ds1).
  destruct (RiskPolicyAgent._check_safe_mode ds1 _) as [c1 a1] eqn:E1.
  destruct (RiskPolicyAgent._check_stop_loss intent a1) as [[c2 a2] | e] eqn:E2;
    [| discriminate].
  destruct (RiskPolicyAgent._check_daily_loss_budget intent ds1 a2 st1)
    as [[[c3 a3] ds3] st3] eqn:E3.
  destruct (RiskPolicyAgent._check_per_trade_risk settings intent ds3 a3) as [c4 a4] eqn:E4.
  destruct (RiskPolicyAgent._check_max_trades ds3 a4) as [c5 a5] eqn:E5.
  destruct (RiskPolicyAgent._check_strategy_switch settings now intent ds3 a5)
    as [c6 a6] eqn:E6.
  destruct (RiskPolicyAgent._check_symbol_validity settings intent a6) as [c7 a7] eqn:E7.
  unfold RiskPolicyAgent._check_liquidity.
  destruct (RiskPolicyAgent.all_true [c1; c2; c3; c4; c5; c6; c7; true]) eqn:Eall;
    cbn [negb].
  2: { intros H. injection H as <- _. discriminate. }
  intros Hrun Happroved. injection Hrun as Hrun _.
  unfold RiskPolicyAgent.all_true in Eall. cbn [forallb] in Eall.
  repeat match type of Eall with
         | (_ && _)%bool = true => apply andb_true_iff in Eall as [? Eall]
         end.
  subst c1 c2 c3 c4 c5 c6 c7.
  apply _check_safe_mode_pass in E1 as [Hsafe ->].
  pose proof (_check_stop_loss_pass intent _ _ E2) as Hstop.
  apply _check_stop_loss_pass_keeps in E2 as ->.
  apply _check_daily_loss_budget_pass in E3 as (Hb1 & Hb2 & -> & -> & ->).
  apply _check_per_trade_risk_pass in E4 as [Hcap ->].
  apply _check_max_trades_pass in E5 as [Hmax ->].
  apply _check_strategy_switch_pass in E6 as [Hperm Hsw].
  apply _check_symbol_validity_pass in E7 as [Hsym ->].
  split.
  - exact (conj Hsafe (conj Hstop (conj Hb1 (conj Hb2 (conj Hcap (conj Hmax
             (conj Hsym Hperm))))))).
  - exists a6. split; [exact Hsw | exact Hrun].
Qed.
End ApprovedDecisions.

Section ApprovalExtras.
Context {SM : SchemaMethods} {RT : PyRuntime}.
Variable settings : Settings.t.

(** X1. [approve] returns an approved decision exactly when the conditions
    of the guardrail checks hold on the ledger as refreshed at the start of
    the call: safe mode off, the stop strictly on the losing side of a
    present entry price, a positive remaining budget that covers the
    expected risk, the expected risk within the per-trade cap, the trade
    count below the daily maximum, the symbol on the allow-list, and any
    change of strategy outside the cooldown and confident enough. *)
Theorem approve_approves_iff_guardrails_hold today now intent intent_id st :
  (exists decision st',
      RiskPolicyAgent.approve settings today now intent intent_id st = (Ok decision, st')
      /\ RiskApproval.approved decision = true)
  <-> guardrails_hold settings now intent (refreshed_ledger settings today st).
Proof.
  split.
  - intros (decision & st' & Hrun & Happroved).
    exact (proj1 (approve_approved_inv settings today now intent intent_id st decision st'
                    Hrun Happroved)).
  - intros (Hsafe & Hstop & Hb1 & Hb2 & Hcap & Hmax & Hsym & Hperm).
    destruct (refreshed_ledger_run settings today st) as (ds0 & st0 & st1 & Hgc & Hup).
    destruct (approve_runs_every_check settings today now intent intent_id st ds0 st0 _ st1
                Hgc Hup (stop_on_losing_side_comparable intent Hstop))
      as (decision & st' & Hrun & Happroved & _).
    exists decision, st'. split; [exact Hrun |].
    rewrite Happroved. unfold standalone_checks. cbn [forallb].
    unfold RiskPolicyAgent._check_safe_mode. rewrite Hsafe.
    rewrite (_check_stop_loss_holds intent _ Hstop).
    rewrite (_check_daily_loss_budget_holds intent _ _ _ Hb1 Hb2).
    rewrite (_check_per_trade_risk_holds settings intent _ _ Hcap).
    rewrite (_check_max_trades_holds _ _ Hmax).
    rewrite (_check_strategy_switch_holds settings now intent _ _ Hperm).
    rewrite (_check_symbol_validity_holds settings intent _ Hsym).
    reflexivity.
Qed.
End ApprovalExtras.

Section SignOffAndSizing.
Context {SM : SchemaMethods} {RT : PyRuntime}.
Variable settings : Settings.t.

Lemma _check_hitl_requirements_required intent daily_state a :
  RiskApproval.hitl_required
    (RiskPolicyAgent._check_hitl_requirements settings intent daily_state a)
  = (RiskApproval.hitl_required a
     || (DailyState.trades_count daily_state
         <? Settings.REQUIRE_HITL_FIRST_N_TRADES settings)%Z
     || Qltb (TradeIntent.confidence_score intent)
          (Settings.HITL_CONFIDENCE_THRESHOLD settings))%bool.
Proof.
  unfold RiskPolicyAgent._check_hitl_requirements.
  destruct (_ <? _)%Z; destruct (Qltb _ _); cbn;
    repeat match goal with
           | |- context [match ?o with Some _ => _ | None => _ end] => destruct o
           | |- context [match ?s with EmptyString => _ | String _ _ => _ end] => destruct s
           end; cbn;
    destruct (RiskApproval.hitl_required a) eqn:E; cbn; rewrite ?E; reflexivity.
Qed.

Lemma _check_hitl_requirements_flag intent daily_state a :
  RiskApproval.hitl_required
    (RiskPolicyAgent._check_hitl_requirements settings intent daily_state a) = true ->
  flagged "hitl_required"
    (RiskPolicyAgent._check_hitl_requirements settings intent daily_state a).
Proof.
  unfold RiskPolicyAgent._check_hitl_requirements, flagged.
  match goal with
  | |- context [if RiskApproval.hitl_required ?x then _ else _] =>
      destruct (RiskApproval.hitl_required x) eqn:E
  end.
  - intros _. cbn. apply lookup_insert_eq.
  - rewrite E. discriminate.
Qed.

Lemma _check_hitl_requirements_keeps intent daily_state a :
  RiskApproval.adjusted_quantity
    (RiskPolicyAgent._check_hitl_requirements settings intent daily_state a)
  = RiskApproval.adjusted_quantity a
  /\ forall k, k <> "hitl_required"%string ->
       RiskApproval.guardrail_flags
         (RiskPolicyAgent._check_hitl_requirements settings intent daily_state a) !! k
       = RiskApproval.guardrail_flags a !! k.
Proof.
  unfold RiskPolicyAgent._check_hitl_requirements.
  destruct (_ <? _)%Z; destruct (Qltb _ _); cbn;
    repeat match goal with
           | |- context [match ?o with Some _ => _ | None => _ end] => destruct o
           | |- context [match ?s with EmptyString => _ | String _ _ => _ end] => destruct s
           end; cbn;
    try destruct (RiskApproval.hitl_required a); cbn;
    (split; [reflexivity | intros k Hk; rewrite ?lookup_insert_ne by congruence; reflexivity]).
Qed.

Lemma _adjust_quantity_keeps intent daily_state a a' :
  RiskPolicyAgent._adjust_quantity intent daily_state a = Ok a' ->
  RiskApproval.hitl_required a' = RiskApproval.hitl_required a
  /\ forall k, k <> "quantity_adjusted"%string ->
       RiskApproval.guardrail_flags a' !! k = RiskApproval.guardrail_flags a !! k.
Proof.
  unfold RiskPolicyAgent._adjust_quantity.
  destruct (TradeIntent.stop_loss_price intent); [| discriminate].
  repeat match goal with
         | |- context [if ?c then _ else _] => destruct c
         end;
    intros H; injection H as <-; cbn;
    (split; [reflexivity | intros k Hk; rewrite ?lookup_insert_ne by congruence; reflexivity]).
Qed.

Lemma inject_Z_le (x y : Z) : (x <= y)%Z -> inject_Z x <= inject_Z y.
Proof. intros H. unfold Qle. simpl. lia. Qed.

Lemma py_int_floor_bound (x : Q) : 0 <= x -> inject_Z (py_int x) <= x.
Proof.
  intros H. unfold py_int.
  destruct (Qle_bool 0 x) eqn:E.
  - apply Qfloor_le.
  - exfalso. apply Qle_bool_iff in H. congruence.
Qed.

(** The sizing step, on a decision that carries no adjusted quantity yet:
    the quantity that will be traded is 1, or it does not exceed the
    requested quantity and its risk at the distance between entry and stop
    stays within the cap. *)
Lemma _adjust_quantity_sizes intent daily_state a a' stop entry :
  RiskPolicyAgent._adjust_quantity intent daily_state a = Ok a' ->
  RiskApproval.adjusted_quantity a = None ->
  TradeIntent.stop_loss_price intent = Some stop ->
  TradeIntent.entry_price intent = Some entry ->
  ~ entry == 0 ->
  ~ entry == stop ->
  let max_risk :=
    RiskPolicyAgent.flag_number (RiskApproval.guardrail_flags a) "max_risk_per_trade"
      (DailyState.loss_budget_remaining daily_state) in
  0 <= max_risk ->
  let q := traded_quantity intent a' in
  (q = 1%Z
   \/ ((q <= TradeIntent.quantity intent)%Z /\ inject_Z q * Qabs (entry - stop) <= max_risk))
  /\ (q <> TradeIntent.quantity intent -> flagged "quantity_adjusted" a').
Proof.
  intros Hrun Hnone Hs He Hentry Hdiff max_risk Hcap.
  unfold RiskPolicyAgent._adjust_quantity in Hrun. rewrite Hs, He in Hrun.
  fold max_risk in Hrun. cbn [truthy] in Hrun.
  destruct (Qeq_bool entry 0) eqn:E0; [apply Qeq_bool_iff in E0; contradiction |].
  set (rps := Qabs (entry - stop)) in *.
  assert (Hrps : 0 < rps).
  { unfold rps. apply Qabs_case; intros; lra. }
  rewrite (proj2 (Qltb_lt 0 rps) Hrps) in Hrun.
  set (mq := py_int (max_risk / rps)) in *.
  assert (Hmq : inject_Z mq * rps <= max_risk).
  { assert (Hx : 0 <= max_risk / rps).
    { apply Qle_shift_div_l; [exact Hrps | lra]. }
    pose proof (py_int_floor_bound _ Hx) as Hfl. fold mq in Hfl.
    assert (Heq : max_risk / rps * rps == max_risk) by (field; lra).
    rewrite <- Heq. apply Qmult_le_compat_r; [exact Hfl | lra]. }
  unfold traded_quantity.
  destruct (mq <? TradeIntent.quantity intent)%Z eqn:Elt; injection Hrun as <-.
  - apply Z.ltb_lt in Elt. cbn [RiskApproval.adjusted_quantity RiskApproval.set_flag
                                 RiskApproval.set_adjusted_quantity truthy_int].
    destruct (Z.max 1 mq =? 0)%Z eqn:Ez; [apply Z.eqb_eq in Ez; lia |].
    split.
    + destruct (Z_le_gt_dec mq 1) as [Hle | Hgt].
      * left. lia.
      * right. rewrite Z.max_r by lia. split; [lia | exact Hmq].
    + intros _. unfold flagged. cbn. apply lookup_insert_eq.
  - apply Z.ltb_ge in Elt. rewrite Hnone. cbn [truthy_int].
    split; [| congruence].
    right. split; [lia |].
    apply Qle_trans with (inject_Z mq * rps); [| exact Hmq].
    apply Qmult_le_compat_r; [apply inject_Z_le; exact Elt | lra].
Qed.

(** X2. An approved decision requires human sign-off exactly when the
    trade is among the first [REQUIRE_HITL_FIRST_N_TRADES] of the day, or its
    confidence is below [HITL_CONFIDENCE_THRESHOLD], or it changes the
    active strategy; and whenever sign-off is required the flag
    [hitl_required] is recorded in the decision. *)
Theorem approve_requires_sign_off_exactly_when today now intent intent_id st decision st' :
  RiskPolicyAgent.approve settings today now intent intent_id st = (Ok decision, st') ->
  RiskApproval.approved decision = true ->
  let ledger := refreshed_ledger settings today st in
  (RiskApproval.hitl_required decision = true
   <-> ((DailyState.trades_count ledger < Settings.REQUIRE_HITL_FIRST_N_TRADES settings)%Z
        \/ TradeIntent.confidence_score intent < Settings.HITL_CONFIDENCE_THRESHOLD settings
        \/ switches_strategy intent ledger))
  /\ (RiskApproval.hitl_required decision = true -> flagged "hitl_required" decision).
Proof.
  intros Hrun Happroved ledger.
  destruct (approve_approved_inv settings today now intent intent_id st decision st'
              Hrun Happroved) as (_ & a7 & Ha7 & Hadj).
  fold ledger in Ha7, Hadj.
  destruct (_adjust_quantity_keeps _ _ _ _ Hadj) as [Hh Hflags].
  rewrite Hh, _check_hitl_requirements_required.
  assert (Hsw : RiskApproval.hitl_required a7 = true <-> switches_strategy intent ledger).
  { destruct Ha7 as [[Hno ->] | (current & Hc & Hne & ->)].
    - cbn. split; [discriminate | intros H; contradiction].
    - cbn. split; [intros _; exists current; auto | reflexivity]. }
  split.
  - rewrite !orb_true_iff, Z.ltb_lt, Qltb_lt, Hsw. tauto.
  - intros Hreq. unfold flagged. rewrite Hflags by discriminate.
    apply _check_hitl_requirements_flag.
    rewrite _check_hitl_requirements_required. exact Hreq.
Qed.

(** X3. The size of an approved trade, as the simulator will trade it
    (the adjusted quantity if one is set, else the requested quantity), is
    either the minimum of 1, or it does not exceed the requested quantity
    and its loss at the distance between entry and stop stays within the
    per-trade cap; a size that differs from the requested one is flagged
    [quantity_adjusted]. *)
Theorem approve_sizes_within_per_trade_cap
    today now intent intent_id st decision st' stop entry :
  RiskPolicyAgent.approve settings today now intent intent_id st = (Ok decision, st') ->
  RiskApproval.approved decision = true ->
  0 <= Settings.PER_TRADE_MAX_LOSS_PERCENT settings ->
  TradeIntent.stop_loss_price intent = Some stop ->
  TradeIntent.entry_price intent = Some entry ->
  ~ entry == 0 ->
  let q := traded_quantity intent decision in
  (q = 1%Z
   \/ ((q <= TradeIntent.quantity intent)%Z
       /\ inject_Z q * Qabs (entry - stop)
          <= per_trade_cap settings (refreshed_ledger settings today st)))
  /\ (q <> TradeIntent.quantity intent -> flagged "quantity_adjusted" decision).
Proof.
  intros Hrun Happroved Hpct Hs He Hentry.
  destruct (approve_approved_inv settings today now intent intent_id st decision st'
              Hrun Happroved) as (Hg & a7 & Ha7 & Hadj).
  set (ledger := refreshed_ledger settings today st) in *.
  destruct Hg as (_ & (stop' & entry' & Hs' & He' & Hside) & Hb1 & _).
  rewrite Hs in Hs'. rewrite He in He'. injection Hs' as <-. injection He' as <-.
  destruct (_check_hitl_requirements_keeps intent ledger a7) as [Hq Hflags].
  assert (Hnone : RiskApproval.adjusted_quantity a7 = None).
  { destruct Ha7 as [[_ ->] | (current & _ & _ & ->)]; reflexivity. }
  assert (Hcapflag : RiskApproval.guardrail_flags a7 !! "max_risk_per_trade"%string
                     = Some (FlagFloat (per_trade_cap settings ledger))).
  { destruct Ha7 as [[_ ->] | (current & _ & _ & ->)]; cbn.
    - apply lookup_insert_eq.
    - rewrite lookup_insert_ne by discriminate. apply lookup_insert_eq. }
  assert (Hmax : RiskPolicyAgent.flag_number
                   (RiskApproval.guardrail_flags
                      (RiskPolicyAgent._check_hitl_requirements settings intent ledger a7))
                   "max_risk_per_trade" (DailyState.loss_budget_remaining ledger)
                 = per_trade_cap settings ledger).
  { unfold RiskPolicyAgent.flag_number. rewrite Hflags by discriminate.
    rewrite Hcapflag. reflexivity. }
  pose proof (_adjust_quantity_sizes intent ledger _ decision stop entry Hadj) as Hsz.
  cbv zeta in Hsz. rewrite Hmax in Hsz. apply Hsz; try assumption.
  - rewrite Hq. exact Hnone.
  - destruct (TradeIntent.side intent); intros Heq; lra.
  - unfold per_trade_cap. apply py_min_glb; [| lra].
    apply Qle_shift_div_l; [reflexivity |].
    rewrite Qmult_0_l. apply Qmult_le_0_compat; lra.
Qed.

(** X4. Once the trade count of the refreshed ledger has reached the daily
    maximum, [approve] rejects every proposal on which the stop-loss check
    returns, and records the flag [max_trades_reached]; the rejection reason
    names the limit whenever the two later checks that can fail (strategy
    switch and allow-list) pass. *)
Theorem approve_rejects_at_trade_limit today now intent intent_id st :
  let ledger := refreshed_ledger settings today st in
  stop_loss_comparable intent ->
  (DailyState.max_trades ledger <= DailyState.trades_count ledger)%Z ->
  exists decision st',
    RiskPolicyAgent.approve settings today now intent intent_id st = (Ok decision, st')
    /\ RiskApproval.approved decision = false
    /\ flagged "max_trades_reached" decision
    /\ (switch_permitted settings now intent ledger ->
        TradeIntent.symbol intent ∈ Settings.get_trading_symbols settings ->
        RiskApproval.rejection_reason decision
        = Some ("Max trades per day (" ++ pretty (DailyState.max_trades ledger)
                ++ ") reached")%string).
Proof.
  intros ledger Hcmp Hmax.
  destruct (refreshed_ledger_run settings today st) as (ds0 & st0 & st1 & Hgc & Hup).
  fold ledger in Hup.
  destruct (approve_runs_every_check settings today now intent intent_id st ds0 st0 _ st1
              Hgc Hup Hcmp) as (decision & st' & Hrun & Happroved & Hflags & Hreason).
  set (a0 := initial_approval intent_id ledger) in *.
  assert (Hfalse : forallb fst (standalone_checks settings now intent ledger st1 a0) = false).
  { unfold standalone_checks. cbn [forallb].
    rewrite (_check_max_trades_reached ledger a0 Hmax). cbn [fst andb].
    now rewrite !andb_false_r. }
  exists decision, st'. split; [exact Hrun |]. split; [congruence |]. split.
  - apply (Hflags (RiskPolicyAgent._check_max_trades ledger a0)).
    + unfold standalone_checks. cbn. tauto.
    + rewrite (_check_max_trades_reached ledger a0 Hmax). reflexivity.
    + rewrite (_check_max_trades_reached ledger a0 Hmax). unfold flagged. cbn.
      apply lookup_insert_eq.
  - intros Hperm Hsym. rewrite (Hreason Hfalse).
    unfold standalone_checks, last_rejection. cbn [fold_left].
    rewrite (_check_max_trades_reached ledger a0 Hmax).
    rewrite (_check_strategy_switch_holds settings now intent ledger a0 Hperm).
    rewrite (_check_symbol_validity_holds settings intent a0 Hsym).
    reflexivity.
Qed.

(** X5. A proposal for a symbol that is not on the allow-list is rejected
    with the flag [invalid_symbol], and since the allow-list check is the
    last one that can fail, the rejection reason is always the one that names
    the symbol, whatever else failed before. *)
Theorem approve_rejects_unlisted_symbol today now intent intent_id st :
  stop_loss_comparable intent ->
  TradeIntent.symbol intent ∉ Settings.get_trading_symbols settings ->
  exists decision st',
    RiskPolicyAgent.approve settings today now intent intent_id st = (Ok decision, st')
    /\ RiskApproval.approved decision = false
    /\ flagged "invalid_symbol" decision
    /\ RiskApproval.rejection_reason decision
       = Some ("Symbol " ++ TradeIntent.symbol intent
               ++ " not in allowed trading list")%string.
Proof.
  intros Hcmp Hsym.
  destruct (refreshed_ledger_run settings today st) as (ds0 & st0 & st1 & Hgc & Hup).
  set (ledger := refreshed_ledger settings today st) in *.
  destruct (approve_runs_every_check settings today now intent intent_id st ds0 st0 _ st1
              Hgc Hup Hcmp) as (decision & st' & Hrun & Happroved & Hflags & Hreason).
  set (a0 := initial_approval intent_id ledger) in *.
  assert (Hfalse : forallb fst (standalone_checks settings now intent ledger st1 a0) = false).
  { unfold standalone_checks. cbn [forallb].
    rewrite (_check_symbol_validity_fails settings intent a0 Hsym). cbn [fst andb].
    now rewrite !andb_false_r. }
  exists decision, st'. split; [exact Hrun |]. split; [congruence |]. split.
  - apply (Hflags (RiskPolicyAgent._check_symbol_validity settings intent a0)).
    + unfold standalone_checks. cbn. tauto.
    + rewrite (_check_symbol_validity_fails settings intent a0 Hsym). reflexivity.
    + rewrite (_check_symbol_validity_fails settings intent a0 Hsym). unfold flagged. cbn.
      apply lookup_insert_eq.
  - rewrite (Hreason Hfalse).
    unfold standalone_checks, last_rejection. cbn [fold_left].
    rewrite (_check_symbol_validity_fails settings intent a0 Hsym).
    reflexivity.
Qed.
End SignOffAndSizing.

Section ApprovalStoreExtras.
Context {SM : SchemaMethods} {RT : PyRuntime}.
Variable settings : Settings.t.

(** X6. A strategy change requested inside the cooldown that follows the
    recorded switch time is rejected, with the flag
    [strategy_switch_cooldown]. *)
Theorem approve_rejects_switch_inside_cooldown today now intent intent_id st switched_at :
  let ledger := refreshed_ledger settings today st in
  stop_loss_comparable intent ->
  switches_strategy intent ledger ->
  DailyState.strategy_switched_at ledger = Some switched_at ->
  (now - switched_at < RiskPolicyAgent.strategy_switch_cooldown settings)%Z ->
  exists decision st',
    RiskPolicyAgent.approve settings today now intent intent_id st = (Ok decision, st')
    /\ RiskApproval.approved decision = false
    /\ flagged "strategy_switch_cooldown" decision.
Proof.
  intros ledger Hcmp (current & Hcur & Hne) Hat Hcool.
  destruct (refreshed_ledger_run settings today st) as (ds0 & st0 & st1 & Hgc & Hup).
  fold ledger in Hup.
  destruct (approve_runs_every_check settings today now intent intent_id st ds0 st0 _ st1
              Hgc Hup Hcmp) as (decision & st' & Hrun & Happroved & Hflags & _).
  set (a0 := initial_approval intent_id ledger) in *.
  assert (Hsw : exists reason,
             RiskPolicyAgent._check_strategy_switch settings now intent ledger a0
             = (false, RiskApproval.reject reason "strategy_switch_cooldown" a0)).
  { unfold RiskPolicyAgent._check_strategy_switch. rewrite Hcur, Hat.
    destruct (decide (current = TradeIntent.strategy_id intent)); [contradiction |].
    rewrite (proj2 (Z.ltb_lt _ _) Hcool). eexists. reflexivity. }
  destruct Hsw as (reason & Hsw).
  exists decision, st'. split; [exact Hrun |]. split.
  - rewrite Happroved. unfold standalone_checks. cbn [forallb].
    rewrite Hsw. cbn [fst andb]. now rewrite !andb_false_r.
  - apply (Hflags (RiskPolicyAgent._check_strategy_switch settings now intent ledger a0)).
    + unfold standalone_checks. cbn. tauto.
    + rewrite Hsw. reflexivity.
    + rewrite Hsw. unfold flagged. cbn. apply lookup_insert_eq.
Qed.

(** [approve] leaves the position book and the order log alone. *)
Lemma approve_book today now intent intent_id st :
  Storage.positions (snd (RiskPolicyAgent.approve settings today now intent intent_id st))
  = Storage.positions st
  /\ Storage.paper_orders
       (snd (RiskPolicyAgent.approve settings today now intent intent_id st))
     = Storage.paper_orders st.
Proof.
  destruct (Storage.get_or_create_daily_state settings today st) as [ds0 st0] eqn:Hgc.
  destruct (RiskPolicyAgent._update_unrealized_pnl ds0 st0) as [ds1 st1] eqn:Hup.
  assert (H0 : Storage.positions st0 = Storage.positions st
               /\ Storage.paper_orders st0 = Storage.paper_orders st).
  { unfold Storage.get_or_create_daily_state in Hgc.
    destruct (Storage.daily_state st !! today); injection Hgc as <- <-; auto. }
  assert (H1 : Storage.positions st1 = Storage.positions st0
               /\ Storage.paper_orders st1 = Storage.paper_orders st0).
  { unfold RiskPolicyAgent._update_unrealized_pnl in Hup. injection Hup as <- <-. auto. }
  destruct H0 as [Hp0 Ho0], H1 as [Hp1 Ho1].
  destruct (classic_comparable intent) as [Hcmp | Hcmp].
  - rewrite (approve_store settings today now intent intent_id st ds0 st0 ds1 st1
               Hgc Hup Hcmp).
    destruct (_ && _); cbn; split; congruence.
  - rewrite (approve_raises_on_missing_entry settings today now intent intent_id st
               ds0 st0 ds1 st1 Hgc Hup Hcmp).
    cbn. split; congruence.
Qed.

(** X7. [approve] writes nothing but the ledger row of the day: whatever it
    returns or raises, the position book, the order log and the ledger rows
    of other days are as in the store it was called with. *)
Theorem approve_writes_only_the_ledger_of_the_day {SL : SchemaLaws SM}
    today now intent intent_id st :
  let st' := snd (RiskPolicyAgent.approve settings today now intent intent_id st) in
  Storage.positions st' = Storage.positions st
  /\ Storage.paper_orders st' = Storage.paper_orders st
  /\ forall other, other <> today ->
       Storage.daily_state st' !! other = Storage.daily_state st !! other.
Proof.
  cbv zeta.
  destruct (approve_book today now intent intent_id st) as [Hp Ho].
  split; [exact Hp |]. split; [exact Ho |].
  intros other Hother.
  destruct (Storage.get_or_create_daily_state settings today st) as [ds0 st0] eqn:Hgc.
  destruct (RiskPolicyAgent._update_unrealized_pnl ds0 st0) as [ds1 st1] eqn:Hup.
  pose proof (get_or_create_date settings today st ds0 st0 Hgc) as Hdate0.
  destruct (_update_unrealized_pnl_date ds0 st0 ds1 st1 Hup) as (Hdate1 & Hst1 & _).
  assert (H0 : Storage.daily_state st0 !! other = Storage.daily_state st !! other).
  { unfold Storage.get_or_create_daily_state in Hgc.
    destruct (Storage.daily_state st !! today); injection Hgc as <- <-; [reflexivity |].
    cbn. apply lookup_insert_ne. congruence. }
  assert (H1 : Storage.daily_state st1 !! other = Storage.daily_state st !! other).
  { rewrite Hst1. cbn. rewrite lookup_insert_ne by congruence. exact H0. }
  destruct (classic_comparable intent) as [Hcmp | Hcmp].
  - rewrite (approve_store settings today now intent intent_id st ds0 st0 ds1 st1
               Hgc Hup Hcmp).
    destruct (_ && _); [| exact H1].
    cbn. rewrite lookup_insert_ne by congruence. exact H1.
  - rewrite (approve_raises_on_missing_entry settings today now intent intent_id st
               ds0 st0 ds1 st1 Hgc Hup Hcmp).
    exact H1.
Qed.

Lemma apply_write_safe_mode_active w a :
  RiskApproval.safe_mode_active (apply_write w a) = RiskApproval.safe_mode_active a.
Proof. destruct w; reflexivity. Qed.

Lemma apply_writes_safe_mode_active ws a :
  RiskApproval.safe_mode_active (apply_writes ws a) = RiskApproval.safe_mode_active a.
Proof.
  revert a. induction ws as [| w ws IH]; intros a; [reflexivity |].
  unfold apply_writes. cbn [fold_left]. fold (apply_writes ws (apply_write w a)).
  rewrite IH. apply apply_write_safe_mode_active.
Qed.

Lemma _check_hitl_requirements_safe_mode_active intent daily_state a :
  RiskApproval.safe_mode_active
    (RiskPolicyAgent._check_hitl_requirements settings intent daily_state a)
  = RiskApproval.safe_mode_active a.
Proof.
  unfold RiskPolicyAgent._check_hitl_requirements.
  destruct (_ <? _)%Z; destruct (Qltb _ _); cbn;
    repeat match goal with
           | |- context [match ?o with Some _ => _ | None => _ end] => destruct o
           | |- context [match ?s with EmptyString => _ | String _ _ => _ end] => destruct s
           end; cbn;
    try destruct (RiskApproval.hitl_required a); reflexivity.
Qed.

(** A rejection leaves [approve] as the initial decision with the writes of
    the eight checks applied and the approval withdrawn. *)
Lemma approve_rejection_form today now intent intent_id st decision st' :
  RiskPolicyAgent.approve settings today now intent intent_id st = (Ok decision, st') ->
  RiskApproval.approved decision = false ->
  exists ws,
    decision
    = RiskApproval.set_approved false
        (apply_writes ws
           (initial_approval intent_id (refreshed_ledger settings today st))).
Proof.
  intros Hrun Hrej.
  destruct (refreshed_ledger_run settings today st) as (ds0 & st0 & st1 & Hgc & Hup).
  set (ledger := refreshed_ledger settings today st) in *.
  assert (Hcmp : stop_loss_comparable intent).
  { destruct (classic_comparable intent) as [H | H]; [exact H |].
    rewrite (approve_raises_on_missing_entry settings today now intent intent_id st
               ds0 st0 ledger st1 Hgc Hup H) in Hrun. discriminate. }
  destruct (_check_safe_mode_shape ledger) as (w1 & _ & H1).
  destruct (_check_stop_loss_shape intent Hcmp) as (w2 & _ & H2).
  destruct (_check_daily_loss_budget_shape intent ledger st1)
    as (w3 & ds3 & st3 & _ & Hds3 & H3).
  destruct (_check_per_trade_risk_shape settings intent ds3) as (w4 & _ & H4).
  destruct (_check_max_trades_shape ds3) as (w5 & _ & H5).
  destruct (_check_strategy_switch_shape settings now intent ds3) as (w6 & _ & H6).
  destruct (_check_symbol_validity_shape settings intent) as (w7 & _ & H7).
  exists [w1; w2; w3; w4; w5; w6; w7].
  unfold RiskPolicyAgent.approve in Hrun. rewrite Hgc, Hup in Hrun.
  fold (initial_approval intent_id ledger) in Hrun.
  rewrite H1, H2, H3, H4, H5, H6, H7 in Hrun.
  unfold RiskPolicyAgent._check_liquidity in Hrun.
  destruct (negb (RiskPolicyAgent.all_true _)) eqn:Eall.
  - injection Hrun as <- _. reflexivity.
  - exfalso.
    destruct (RiskPolicyAgent._adjust_quantity _ _ _) as [d | e] eqn:Eadj; [| discriminate].
    injection Hrun as -> _.
    rewrite (_adjust_quantity_approved _ _ _ _ Eadj) in Hrej.
    rewrite _check_hitl_requirements_approved in Hrej.
    change (RiskApproval.approved (apply_writes [w1; w2; w3; w4; w5; w6; w7]
              (initial_approval intent_id ledger)) = false) in Hrej.
    rewrite apply_writes_approved_true in Hrej; [discriminate |].
    apply negb_false_iff in Eall. unfold RiskPolicyAgent.all_true in Eall.
    cbn [forallb] in Eall |- *.
    repeat (apply andb_true_iff in Eall as [? Eall]).
    repeat (apply andb_true_iff; split; try assumption); try reflexivity.
Qed.

(** X8. After the manual trigger of safe mode every decision [approve]
    returns is a rejection that reports safe mode as active and records the
    flag [safe_mode]. *)
Theorem approve_rejects_after_trigger_safe_mode {SL : SchemaLaws SM}
    today now intent intent_id st decision st' :
  RiskPolicyAgent.approve settings today now intent intent_id
    (RiskPolicyAgent.trigger_safe_mode settings today st) = (Ok decision, st') ->
  RiskApproval.approved decision = false
  /\ RiskApproval.safe_mode_active decision = true
  /\ flagged "safe_mode" decision.
Proof.
  intros Hrun.
  set (st1 := RiskPolicyAgent.trigger_safe_mode settings today st) in *.
  pose proof (trigger_safe_mode_latched settings today st) as Hl. fold st1 in Hl.
  assert (Hrej : RiskApproval.approved decision = false).
  { apply (proj2 (approve_latched settings today now intent intent_id st1 Hl)).
    rewrite Hrun. reflexivity. }
  destruct (refreshed_ledger_run settings today st1) as (ds0 & st0 & st2 & Hgc & Hup).
  set (ledger := refreshed_ledger settings today st1) in *.
  assert (Hsafe : DailyState.safe_mode ledger = true).
  { destruct (get_or_create_latched settings today st1 ds0 st0 Hgc Hl) as [_ Hs0].
    exact (proj2 (proj2 (_update_unrealized_pnl_date ds0 st0 ledger st2 Hup)) Hs0). }
  split; [exact Hrej |]. split.
  - destruct (approve_rejection_form today now intent intent_id st1 decision st' Hrun Hrej)
      as (ws & ->).
    cbn. fold ledger. rewrite apply_writes_safe_mode_active. exact Hsafe.
  - assert (Hcmp : stop_loss_comparable intent).
    { destruct (classic_comparable intent) as [H | H]; [exact H |].
      rewrite (approve_raises_on_missing_entry settings today now intent intent_id st1
                 ds0 st0 ledger st2 Hgc Hup H) in Hrun. discriminate. }
    destruct (approve_runs_every_check settings today now intent intent_id st1 ds0 st0 _ st2
                Hgc Hup Hcmp) as (d & st'' & Hrun' & _ & Hflags & _).
    rewrite Hrun in Hrun'. injection Hrun' as <- _.
    set (a0 := initial_approval intent_id ledger) in *.
    apply (Hflags (RiskPolicyAgent._check_safe_mode ledger a0)).
    + unfold standalone_checks. cbn. tauto.
    + unfold RiskPolicyAgent._check_safe_mode. rewrite Hsafe. reflexivity.
    + unfold RiskPolicyAgent._check_safe_mode. rewrite Hsafe. unfold flagged. cbn.
      apply lookup_insert_eq.
Qed.
End ApprovalStoreExtras.


Lemma approve_requires_sign_off_exactly_when_witness :
  exists decision st',
    RiskPolicyAgent.approve (SM := spec_schema) (RT := sample_runtime) Settings.default
      Scenario.today 0%Z (Scenario.test_intent "HINDCOPPER") None
      (Scenario.store_with (Scenario.ledger 200 0)) = (Ok decision, st')
    /\ (let ledger :=
          refreshed_ledger (SM := spec_schema) Settings.default Scenario.today
            (Scenario.store_with (Scenario.ledger 200 0)) in
        (RiskApproval.hitl_required decision = true
         <-> ((DailyState.trades_count ledger
               < Settings.REQUIRE_HITL_FIRST_N_TRADES Settings.default)%Z
              \/ TradeIntent.confidence_score (Scenario.test_intent "HINDCOPPER")
                 < Settings.HITL_CONFIDENCE_THRESHOLD Settings.default
              \/ switches_strategy (Scenario.test_intent "HINDCOPPER") ledger))
        /\ (RiskApproval.hitl_required decision = true -> flagged "hitl_required" decision)).
Proof.
  eexists _, _. split; [vm_compute; reflexivity |].
  eapply (approve_requires_sign_off_exactly_when (SM := spec_schema) (RT := sample_runtime)
            Settings.default Scenario.today 0%Z (Scenario.test_intent "HINDCOPPER") None
            (Scenario.store_with (Scenario.ledger 200 0))).
  - vm_compute. reflexivity.
  - reflexivity.
Defined.

Lemma approve_sizes_within_per_trade_cap_witness :
  exists decision st',
    RiskPolicyAgent.approve (SM := spec_schema) (RT := sample_runtime) Settings.default
      Scenario.today 0%Z (Scenario.test_intent "HINDCOPPER") None
      (Scenario.store_with (Scenario.ledger 200 3)) = (Ok decision, st')
    /\ (let q := traded_quantity (Scenario.test_intent "HINDCOPPER") decision in
        (q = 1%Z
         \/ ((q <= TradeIntent.quantity (Scenario.test_intent "HINDCOPPER"))%Z
             /\ inject_Z q * Qabs (2450 - 2400)
                <= per_trade_cap Settings.default
                     (refreshed_ledger (SM := spec_schema) Settings.default Scenario.today
                        (Scenario.store_with (Scenario.ledger 200 3)))))
        /\ (q <> TradeIntent.quantity (Scenario.test_intent "HINDCOPPER") ->
            flagged "quantity_adjusted" decision)).
Proof.
  eexists _, _. split; [vm_compute; reflexivity |].
  eapply (approve_sizes_within_per_trade_cap (SM := spec_schema) (RT := sample_runtime)
            Settings.default Scenario.today 0%Z (Scenario.test_intent "HINDCOPPER") None
            (Scenario.store_with (Scenario.ledger 200 3))).
  - vm_compute. reflexivity.
  - reflexivity.
  - unfold Qle. simpl. lia.
  - reflexivity.
  - reflexivity.
  - intros H. discriminate H.
Defined.

Lemma approve_rejects_at_trade_limit_witness :
  exists decision st',
    RiskPolicyAgent.approve (SM := spec_schema) (RT := sample_runtime) Settings.default
      Scenario.today 0%Z (Scenario.test_intent "HINDCOPPER") None
      (Scenario.store_with (Scenario.ledger 200 5)) = (Ok decision, st')
    /\ RiskApproval.approved decision = false
    /\ flagged "max_trades_reached" decision
    /\ (switch_permitted Settings.default 0%Z (Scenario.test_intent "HINDCOPPER")
          (refreshed_ledger (SM := spec_schema) Settings.default Scenario.today
             (Scenario.store_with (Scenario.ledger 200 5))) ->
        TradeIntent.symbol (Scenario.test_intent "HINDCOPPER")
          ∈ Settings.get_trading_symbols Settings.default ->
        RiskApproval.rejection_reason decision
        = Some ("Max trades per day ("
                ++ pretty (DailyState.max_trades
                             (refreshed_ledger (SM := spec_schema) Settings.default
                                Scenario.today (Scenario.store_with (Scenario.ledger 200 5))))
                ++ ") reached")%string).
Proof.
  apply (approve_rejects_at_trade_limit (SM := spec_schema) (RT := sample_runtime)
           Settings.default Scenario.today 0%Z (Scenario.test_intent "HINDCOPPER") None
           (Scenario.store_with (Scenario.ledger 200 5))).
  - right. discriminate.
  - vm_compute. discriminate.
Defined.

Lemma approve_rejects_unlisted_symbol_witness :
  exists decision st',
    RiskPolicyAgent.approve (SM := spec_schema) (RT := sample_runtime) Settings.default
      Scenario.today 0%Z (Scenario.test_intent "RELIANCE") None
      (Scenario.store_with (Scenario.ledger 200 3)) = (Ok decision, st')
    /\ RiskApproval.approved decision = false
    /\ flagged "invalid_symbol" decision
    /\ RiskApproval.rejection_reason decision
       = Some "Symbol RELIANCE not in allowed trading list"%string.
Proof.
  apply (approve_rejects_unlisted_symbol (SM := spec_schema) (RT := sample_runtime)
           Settings.default Scenario.today 0%Z (Scenario.test_intent "RELIANCE") None
           (Scenario.store_with (Scenario.ledger 200 3))).
  - right. discriminate.
  - apply (proj1 (bool_decide_eq_false _)). vm_compute. reflexivity.
Defined.

Lemma approve_rejects_switch_inside_cooldown_witness :
  exists decision st',
    RiskPolicyAgent.approve (SM := spec_schema) (RT := sample_runtime) Settings.default
      Scenario.today (timedelta_minutes 5) (Scenario.test_intent "HINDCOPPER") None
      (Scenario.store_with Scenario.cooling_ledger) = (Ok decision, st')
    /\ RiskApproval.approved decision = false
    /\ flagged "strategy_switch_cooldown" decision.
Proof.
  apply (approve_rejects_switch_inside_cooldown (SM := spec_schema) (RT := sample_runtime)
           Settings.default Scenario.today (timedelta_minutes 5)
           (Scenario.test_intent "HINDCOPPER") None
           (Scenario.store_with Scenario.cooling_ledger) 0%Z).
  - right. discriminate.
  - exists MEAN_REVERSION. split; [reflexivity | discriminate].
  - reflexivity.
  - vm_compute. reflexivity.
Defined.

Lemma approve_rejects_after_trigger_safe_mode_witness :
  exists decision st',
    RiskPolicyAgent.approve (SM := spec_schema) (RT := sample_runtime) Settings.default
      Scenario.today 0%Z (Scenario.test_intent "HINDCOPPER") None
      (RiskPolicyAgent.trigger_safe_mode Settings.default Scenario.today
         (Scenario.store_with (Scenario.ledger 200 3))) = (Ok decision, st')
    /\ RiskApproval.approved decision = false
    /\ RiskApproval.safe_mode_active decision = true
    /\ flagged "safe_mode" decision.
Proof.
  eexists _, _. split; [vm_compute; reflexivity |].
  eapply (approve_rejects_after_trigger_safe_mode (SM := spec_schema) (RT := sample_runtime)
            (SL := spec_schema_laws) Settings.default Scenario.today 0%Z
            (Scenario.test_intent "HINDCOPPER") None
            (Scenario.store_with (Scenario.ledger 200 3))).
  vm_compute. reflexivity.
Defined.

Lemma approve_writes_only_the_ledger_of_the_day_witness :
  let st := Scenario.store_with (Scenario.ledger 0 0) in
  let st' :=
    snd (RiskPolicyAgent.approve (SM := spec_schema) (RT := sample_runtime) Settings.default
           Scenario.today 0%Z (Scenario.test_intent "HINDCOPPER") None st) in
  Storage.positions st' = Storage.positions st
  /\ Storage.paper_orders st' = Storage.paper_orders st
  /\ forall other, other <> Scenario.today ->
       Storage.daily_state st' !! other = Storage.daily_state st !! other.
Proof.
  apply (approve_writes_only_the_ledger_of_the_day (SM := spec_schema)
           (RT := sample_runtime) (SL := spec_schema_laws) Settings.default Scenario.today
           0%Z (Scenario.test_intent "HINDCOPPER") None
           (Scenario.store_with (Scenario.ledger 0 0))).
Defined.

(** ** The fill simulator and the position book *)

Lemma slippage_is_adverse (price pct : Q) :
  0 <= price -> 0 <= pct ->
  price <= price * (1 + pct / 100)
  /\ price * (1 - pct / 100) <= price
  /\ Qabs (price * (1 + pct / 100) - price) == price * pct / 100
  /\ Qabs (price * (1 - pct / 100) - price) == price * pct / 100.
Proof.
  intros Hprice Hpct.
  assert (Hs : 0 <= price * pct / 100).
  { apply Qle_shift_div_l; [reflexivity |].
    rewrite Qmult_0_l. apply Qmult_le_0_compat; assumption. }
  assert (E1 : price * (1 + pct / 100) - price == price * pct / 100) by field.
  assert (E2 : price * (1 - pct / 100) - price == - (price * pct / 100)) by field.
  repeat split.
  - lra.
  - lra.
  - rewrite E1. apply Qabs_pos. exact Hs.
  - rewrite E2, Qabs_opp. apply Qabs_pos. exact Hs.
Qed.

Section FillSimulation.
Variable settings : Settings.t.

(** X9. A limit order whose price has been reached fills at the last
    traded price, not at the limit, with zero slippage and the brokerage
    fee. *)
Theorem _simulate_fill_limit_order_fills_at_ltp now order_id intent quantity ltp limit :
  TradeIntent.entry_type intent = LIMIT ->
  TradeIntent.entry_price intent = Some limit ->
  limit_reached (TradeIntent.side intent) ltp limit ->
  exists order,
    ExecutionPaperAgent._simulate_fill settings now order_id intent quantity ltp = Ok order
    /\ PaperOrder.status order = FILLED
    /\ PaperOrder.fill_price order = Some ltp
    /\ PaperOrder.slippage order = Some 0
    /\ PaperOrder.brokerage order = Some (Settings.PAPER_BROKERAGE_PER_ORDER settings)
    /\ PaperOrder.quantity order = quantity.
Proof.
  intros Htype Hlimit H.
  unfold ExecutionPaperAgent._simulate_fill, limit_reached in *.
  rewrite Htype, Hlimit. cbn [py_le].
  destruct (TradeIntent.side intent).
  - rewrite (proj2 (Qleb_le _ _) H).
    unfold py_min. rewrite (proj2 (Qltb_ge limit ltp) H).
    eexists. split; [reflexivity |]. cbn. repeat split.
  - rewrite (proj2 (Qleb_le _ _) H).
    unfold py_max. rewrite (proj2 (Qltb_ge ltp limit) H).
    eexists. split; [reflexivity |]. cbn. repeat split.
Qed.

(** X10. A limit order whose price has not been reached yields no order at
    all, pending or otherwise: the call raises [TypeError] where it formats
    the missing fill price for the log. *)
Theorem _simulate_fill_unreached_limit_raises now order_id intent quantity ltp limit :
  TradeIntent.entry_type intent = LIMIT ->
  TradeIntent.entry_price intent = Some limit ->
  ~ limit_reached (TradeIntent.side intent) ltp limit ->
  ExecutionPaperAgent._simulate_fill settings now order_id intent quantity ltp
  = Raise TypeError.
Proof.
  intros Htype Hlimit H.
  unfold ExecutionPaperAgent._simulate_fill, limit_reached in *.
  rewrite Htype, Hlimit. cbn [py_le].
  destruct (TradeIntent.side intent);
    apply Qnot_le_lt in H; rewrite (proj2 (Qleb_gt _ _) H); reflexivity.
Qed.

Lemma _simulate_fill_at_market now order_id intent quantity ltp :
  TradeIntent.entry_type intent <> LIMIT ->
  let fill :=
    Utils.calculate_slippage settings ltp (TradeSide_value (TradeIntent.side intent))
      (Some (Settings.PAPER_SLIPPAGE_PERCENT settings)) in
  ExecutionPaperAgent._simulate_fill settings now order_id intent quantity ltp
  = Ok (PaperOrder.mk order_id (TradeIntent.market_snapshot_id intent)
          (TradeIntent.symbol intent) (TradeIntent.side intent) quantity
          (TradeIntent.entry_type intent) (TradeIntent.entry_price intent) FILLED
          (Some fill) (Some now) (Some (Qabs (fill - ltp)))
          (Some (Settings.PAPER_BROKERAGE_PER_ORDER settings)) ltp).
Proof.
  intros Htype. unfold ExecutionPaperAgent._simulate_fill.
  destruct (TradeIntent.entry_type intent); try contradiction; reflexivity.
Qed.

(** X11. An order that is not a limit order (market, stop, stop-limit) is
    always filled, and for a non-negative price and slippage percentage the
    fill is never better than the last traded price: a BUY fills at or
    above it, a SELL at or below it, and the recorded slippage is the
    configured percentage of the price. *)
Theorem _simulate_fill_market_slippage_is_adverse now order_id intent quantity ltp :
  TradeIntent.entry_type intent <> LIMIT ->
  0 <= ltp ->
  0 <= Settings.PAPER_SLIPPAGE_PERCENT settings ->
  exists order fill slippage,
    ExecutionPaperAgent._simulate_fill settings now order_id intent quantity ltp = Ok order
    /\ PaperOrder.status order = FILLED
    /\ PaperOrder.fill_price order = Some fill
    /\ match TradeIntent.side intent with
       | BUY => ltp <= fill
       | SELL => fill <= ltp
       end
    /\ PaperOrder.slippage order = Some slippage
    /\ slippage == ltp * Settings.PAPER_SLIPPAGE_PERCENT settings / 100.
Proof.
  intros Htype Hltp Hpct.
  rewrite (_simulate_fill_at_market now order_id intent quantity ltp Htype).
  eexists _, _, _. split; [reflexivity |].
  cbn [PaperOrder.status PaperOrder.fill_price PaperOrder.slippage].
  split; [reflexivity |]. split; [reflexivity |].
  destruct (slippage_is_adverse ltp _ Hltp Hpct) as (Hb & Hs & Hbs & Hss).
  split; [| split; [reflexivity |]].
  - destruct (TradeIntent.side intent);
      [rewrite calculate_slippage_buy | rewrite calculate_slippage_sell]; assumption.
  - destruct (TradeIntent.side intent);
      [rewrite calculate_slippage_buy | rewrite calculate_slippage_sell]; assumption.
Qed.

Lemma _simulate_fill_filled now order_id intent quantity ltp order :
  ExecutionPaperAgent._simulate_fill settings now order_id intent quantity ltp = Ok order ->
  PaperOrder.status order = FILLED
  /\ PaperOrder.order_id order = order_id
  /\ PaperOrder.quantity order = quantity
  /\ PaperOrder.symbol order = TradeIntent.symbol intent
  /\ PaperOrder.side order = TradeIntent.side intent
  /\ exists fill, PaperOrder.fill_price order = Some fill.
Proof.
  unfold ExecutionPaperAgent._simulate_fill.
  destruct (TradeIntent.entry_type intent); cbn;
    try (intros H; injection H as <-; cbn; repeat split; eexists; reflexivity).
  destruct (TradeIntent.side intent), (TradeIntent.entry_price intent) as [lim |];
    cbn [py_le]; try discriminate;
    destruct (Qleb _ _); cbn; try discriminate;
    intros H; injection H as <-; cbn; repeat split; eexists; reflexivity.
Qed.
End FillSimulation.

Lemma _simulate_fill_limit_order_fills_at_ltp_witness :
  exists order,
    ExecutionPaperAgent._simulate_fill Settings.default 0%Z "id" Scenario.reversion_intent
      1%Z 99 = Ok order
    /\ PaperOrder.status order = FILLED
    /\ PaperOrder.fill_price order = Some 99
    /\ PaperOrder.slippage order = Some 0
    /\ PaperOrder.brokerage order = Some (Settings.PAPER_BROKERAGE_PER_ORDER Settings.default)
    /\ PaperOrder.quantity order = 1%Z.
Proof.
  apply (_simulate_fill_limit_order_fills_at_ltp Settings.default 0%Z "id"
           Scenario.reversion_intent 1%Z 99 100).
  - reflexivity.
  - reflexivity.
  - vm_compute. discriminate.
Defined.

Lemma _simulate_fill_unreached_limit_raises_witness :
  ExecutionPaperAgent._simulate_fill Settings.default 0%Z "id" Scenario.reversion_intent
    1%Z 101 = Raise TypeError.
Proof.
  apply (_simulate_fill_unreached_limit_raises Settings.default 0%Z "id"
           Scenario.reversion_intent 1%Z 101 100).
  - reflexivity.
  - reflexivity.
  - vm_compute. intros H. apply H. reflexivity.
Defined.

Lemma _simulate_fill_market_slippage_is_adverse_witness :
  exists order fill slippage,
    ExecutionPaperAgent._simulate_fill Settings.default 0%Z "id" Scenario.market_intent
      1%Z 2450 = Ok order
    /\ PaperOrder.status order = FILLED
    /\ PaperOrder.fill_price order = Some fill
    /\ 2450 <= fill
    /\ PaperOrder.slippage order = Some slippage
    /\ slippage == 2450 * Settings.PAPER_SLIPPAGE_PERCENT Settings.default / 100.
Proof.
  apply (_simulate_fill_market_slippage_is_adverse Settings.default 0%Z "id"
           Scenario.market_intent 1%Z 2450).
  - discriminate.
  - unfold Qle. simpl. lia.
  - unfold Qle. simpl. lia.
Defined.

Section ExecuteExtras.
Context {RT : PyRuntime}.
Variable settings : Settings.t.
Variable uuid4 : nat -> string.

Lemma get_or_create_same_ledger today st1 st2 :
  Storage.daily_state st1 = Storage.daily_state st2 ->
  fst (Storage.get_or_create_daily_state settings today st1)
  = fst (Storage.get_or_create_daily_state settings today st2).
Proof.
  intros H. unfold Storage.get_or_create_daily_state. rewrite H.
  destruct (Storage.daily_state st2 !! today); reflexivity.
Qed.

(** X12. Whenever [execute] returns an order, the decision was approved and
    the intent was not a duplicate; the order is filled, carries the next
    order id and the traded quantity (the adjusted quantity if one is set,
    else the requested one), and is stored in the order log; and the ledger
    of the day counts exactly one more trade, with the intent's strategy as
    the active one. *)
Theorem execute_returns_only_filled_orders
    today now clock ltp_answer intent approval w order w' :
  ExecutionPaperAgent.execute settings uuid4 today now clock ltp_answer intent approval w
  = (Ok (Some order), w') ->
  RiskApproval.approved approval = true
  /\ fst (ExecutionPaperAgent._is_duplicate clock intent w) = false
  /\ PaperOrder.status order = FILLED
  /\ PaperOrder.order_id order = uuid4 (World.uuid_draws w)
  /\ PaperOrder.quantity order = traded_quantity intent approval
  /\ PaperOrder.symbol order = TradeIntent.symbol intent
  /\ PaperOrder.side order = TradeIntent.side intent
  /\ Storage.paper_orders (World.storage w') !! PaperOrder.order_id order = Some order
  /\ World.uuid_draws w' = S (World.uuid_draws w)
  /\ exists ledger,
      Storage.daily_state (World.storage w') !! today = Some ledger
      /\ DailyState.trades_count ledger
         = (DailyState.trades_count
              (fst (Storage.get_or_create_daily_state settings today (World.storage w)))
            + 1)%Z
      /\ DailyState.active_strategy ledger = Some (TradeIntent.strategy_id intent).
Proof.
  unfold ExecutionPaperAgent.execute.
  destruct (RiskApproval.approved approval) eqn:Happ; cbn [negb]; [| discriminate].
  pose proof (_is_duplicate_storage clock intent w) as Hst.
  assert (Hdraws : fst (ExecutionPaperAgent._is_duplicate clock intent w) = false ->
                   World.uuid_draws (snd (ExecutionPaperAgent._is_duplicate clock intent w))
                   = World.uuid_draws w).
  { unfold ExecutionPaperAgent._is_duplicate.
    destruct (match World.recent_order_hashes w !! _ with Some _ => _ | None => _ end);
      reflexivity. }
  destruct (ExecutionPaperAgent._is_duplicate clock intent w) as [dup w1].
  cbn [fst snd] in Hst, Hdraws.
  destruct dup; [discriminate |]. specialize (Hdraws eq_refl).
  fold (traded_quantity intent approval).
  destruct (match ltp_answer with LtpFails => None | LtpData prices => _ end)
    as [ltp |]; [| discriminate].
  unfold ExecutionPaperAgent.draw_uuid.
  destruct (ExecutionPaperAgent._simulate_fill settings now _ intent _ ltp)
    as [o | e] eqn:Efill; [| discriminate].
  destruct (_simulate_fill_filled settings _ _ _ _ _ _ Efill)
    as (Hstatus & Hid & Hq & Hsym & Hside & fill & Hfill).
  destruct (decide (PaperOrder.status o = FILLED)) as [_ | Hn]; [| contradiction].
  cbn [World.storage].
  destruct (_update_position_net now o intent (World.storage w1) fill Hfill)
    as (st_pos & Hpos & _).
  rewrite Hpos.
  intros H. injection H as <- <-.
  repeat (split; [first [reflexivity | assumption | congruence] |]).
  split. { cbn. apply lookup_insert_eq. }
  split. { cbn. congruence. }
  pose proof (_update_position_ledger now o intent (World.storage w1) st_pos Hpos) as Hled.
  destruct (Storage.get_or_create_daily_state settings today st_pos) as [ds st0] eqn:Hgc.
  destruct (_update_daily_state_never_stamps settings today now intent st_pos ds st0 Hgc)
    as (ledger & Hrow & Hcount & Hact & _).
  exists ledger. split; [exact Hrow |]. split; [| exact Hact].
  rewrite Hcount.
  rewrite <- Hst.
  rewrite <- (get_or_create_same_ledger today st_pos (World.storage w1) Hled).
  rewrite Hgc. reflexivity.
Qed.

(** X13. The five-minute window of the duplicate test compares only the
    seconds component of the elapsed time: an identical intent seen a whole
    number of days plus less than five minutes after the recorded time is
    still reported as a duplicate, and the cache is left as it is. *)
Theorem _is_duplicate_ignores_whole_days clock intent w last_time days rest :
  World.recent_order_hashes w !! ExecutionPaperAgent.intent_hash intent = Some last_time ->
  (DupClock.t_seen clock - last_time = days * seconds 86400 + rest)%Z ->
  (0 <= rest < seconds 300)%Z ->
  ExecutionPaperAgent._is_duplicate clock intent w = (true, w).
Proof.
  intros Hlook Hdiff Hrest.
  unfold ExecutionPaperAgent._is_duplicate. rewrite Hlook, Hdiff.
  assert (Hsec : (td_seconds (days * seconds 86400 + rest) <? 300)%Z = true).
  { apply Z.ltb_lt. unfold td_seconds, seconds, usec_per_sec in *.
    replace (days * (86400 * 1000000) + rest)%Z
      with (rest + (days * 86400) * 1000000)%Z by ring.
    rewrite Z.div_add by lia.
    rewrite Z_mod_plus_full.
    assert (0 <= rest / 1000000 < 300)%Z.
    { split; [apply Z.div_pos; lia | apply Z.div_lt_upper_bound; lia]. }
    rewrite Z.mod_small by lia. lia. }
  rewrite Hsec. reflexivity.
Qed.
End ExecuteExtras.

Lemma execute_returns_only_filled_orders_witness :
  let w := Scenario.world_with (Scenario.store_with (Scenario.ledger 200 1)) in
  exists order w',
    ExecutionPaperAgent.execute (RT := sample_runtime) Settings.default sample_uuid4
      Scenario.today 0%Z (DupClock.mk 0 0 0) (LtpData {[ "HINDCOPPER"%string := 2450 ]})
      Scenario.market_intent Scenario.plain_approval w = (Ok (Some order), w')
    /\ RiskApproval.approved Scenario.plain_approval = true
    /\ fst (ExecutionPaperAgent._is_duplicate (RT := sample_runtime) (DupClock.mk 0 0 0)
              Scenario.market_intent w) = false
    /\ PaperOrder.status order = FILLED
    /\ PaperOrder.order_id order = sample_uuid4 (World.uuid_draws w)
    /\ PaperOrder.quantity order
       = traded_quantity Scenario.market_intent Scenario.plain_approval
    /\ PaperOrder.symbol order = TradeIntent.symbol Scenario.market_intent
    /\ PaperOrder.side order = TradeIntent.side Scenario.market_intent
    /\ Storage.paper_orders (World.storage w') !! PaperOrder.order_id order = Some order
    /\ World.uuid_draws w' = S (World.uuid_draws w)
    /\ exists ledger,
        Storage.daily_state (World.storage w') !! Scenario.today = Some ledger
        /\ DailyState.trades_count ledger
           = (DailyState.trades_count
                (fst (Storage.get_or_create_daily_state Settings.default Scenario.today
                        (World.storage w)))
              + 1)%Z
        /\ DailyState.active_strategy ledger
           = Some (TradeIntent.strategy_id Scenario.market_intent).
Proof.
  intros w. eexists _, _. split; [vm_compute; reflexivity |].
  eapply (execute_returns_only_filled_orders (RT := sample_runtime) Settings.default
            sample_uuid4 Scenario.today 0%Z (DupClock.mk 0 0 0)
            (LtpData {[ "HINDCOPPER"%string := 2450 ]}) Scenario.market_intent
            Scenario.plain_approval w).
  vm_compute. reflexivity.
Defined.

Lemma _is_duplicate_ignores_whole_days_witness :
  ExecutionPaperAgent._is_duplicate (RT := sample_runtime)
    (DupClock.mk (seconds 86400 + seconds 60) 0 0) Scenario.reversion_intent
    Scenario.day_old_cache
  = (true, Scenario.day_old_cache).
Proof.
  apply (_is_duplicate_ignores_whole_days (RT := sample_runtime)
           (DupClock.mk (seconds 86400 + seconds 60) 0 0) Scenario.reversion_intent
           Scenario.day_old_cache 0%Z 1%Z (seconds 60)).
  - vm_compute. reflexivity.
  - vm_compute. reflexivity.
  - vm_compute. split; [discriminate | reflexivity].
Defined.

(** ** The position book under fills *)

Lemma weighted_average_between (a f x y : Q) :
  0 < x -> 0 < y ->
  (a <= f -> a <= (a * x + f * y) / (x + y) /\ (a * x + f * y) / (x + y) <= f)
  /\ (f <= a -> f <= (a * x + f * y) / (x + y) /\ (a * x + f * y) / (x + y) <= a).
Proof.
  intros Hx Hy.
  assert (Hxy : 0 < x + y) by lra.
  split; intros H; split;
    first [apply Qle_shift_div_l; [exact Hxy | nra]
          | apply Qle_shift_div_r; [exact Hxy | nra]].
Qed.

Lemma inject_Z_pos (z : Z) : (0 < z)%Z -> 0 < inject_Z z.
Proof. intros H. unfold Qlt. simpl. lia. Qed.

(** X14. A fill on the side of an open position (a BUY into a long, a SELL
    into a short) grows the position and re-prices it at the
    quantity-weighted average of the old average and the fill price, which
    lies between the two; the stop-loss and the target of the position stay
    as they were, the levels of the new intent are not taken over. *)
Theorem _update_position_adds_at_weighted_average now order intent st position fill :
  Storage.get_position (PaperOrder.symbol order) st = Some position ->
  PaperOrder.fill_price order = Some fill ->
  same_direction order position ->
  (0 < PaperOrder.quantity order)%Z ->
  let held := Z.abs (Position.quantity position) in
  let average :=
    (Position.avg_price position * inject_Z held
     + fill * inject_Z (PaperOrder.quantity order))
    / inject_Z (held + PaperOrder.quantity order) in
  exists st' position',
    ExecutionPaperAgent._update_position now order intent st = Ok st'
    /\ Storage.get_position (PaperOrder.symbol order) st' = Some position'
    /\ Position.quantity position' = net_quantity (Some position) order
    /\ Z.abs (Position.quantity position') = (held + PaperOrder.quantity order)%Z
    /\ Position.avg_price position' = average
    /\ (Position.avg_price position <= fill ->
        Position.avg_price position <= average /\ average <= fill)
    /\ (fill <= Position.avg_price position ->
        fill <= average /\ average <= Position.avg_price position)
    /\ Position.stop_loss_price position' = Position.stop_loss_price position
    /\ Position.target_price position' = Position.target_price position.
Proof.
  intros Hget Hfill Hdir Hoq held average.
  pose proof (get_position_symbol _ _ _ Hget) as Hsym.
  assert (Hheld : (0 < held)%Z) by (unfold held; destruct Hdir as [[_ H] | [_ H]]; lia).
  assert (Hbounds :
            (Position.avg_price position <= fill ->
             Position.avg_price position <= average /\ average <= fill)
            /\ (fill <= Position.avg_price position ->
                fill <= average /\ average <= Position.avg_price position)).
  { unfold average. rewrite inject_Z_plus.
    apply weighted_average_between; apply inject_Z_pos; assumption. }
  unfold ExecutionPaperAgent._update_position. rewrite Hfill, Hget.
  unfold net_quantity, signed_quantity.
  destruct Hdir as [[Hside Hq] | [Hside Hq]]; rewrite Hside.
  - rewrite (proj2 (Z.leb_le 0 _)) by lia.
    destruct (Z.eqb_spec (Position.quantity position + PaperOrder.quantity order) 0)
      as [Hz | Hnz]; [lia |].
    cbn [negb Position.quantity Position.set_last_updated Position.set_quantity
           Position.set_avg_price].
    destruct (Z.eqb_spec (Position.quantity position + PaperOrder.quantity order) 0)
      as [Hz | _]; [lia |].
    eexists _, _. split; [reflexivity |].
    split; [apply get_position_save; exact Hsym |].
    cbn [Position.quantity Position.avg_price Position.stop_loss_price
           Position.target_price Position.set_last_updated Position.set_quantity
           Position.set_avg_price].
    split; [reflexivity |]. split; [unfold held; lia |].
    split.
    { unfold average, held. rewrite Z.abs_eq by lia. reflexivity. }
    destruct Hbounds as [Hb1 Hb2]. auto.
  - rewrite (proj2 (Z.leb_le _ 0)) by lia.
    destruct (Z.eqb_spec (Position.quantity position - PaperOrder.quantity order) 0)
      as [Hz | Hnz]; [lia |].
    cbn [negb Position.quantity Position.set_last_updated Position.set_quantity
           Position.set_avg_price].
    destruct (Z.eqb_spec (Position.quantity position - PaperOrder.quantity order) 0)
      as [Hz | _]; [lia |].
    eexists _, _. split; [reflexivity |].
    split; [apply get_position_save; exact Hsym |].
    cbn [Position.quantity Position.avg_price Position.stop_loss_price
           Position.target_price Position.set_last_updated Position.set_quantity
           Position.set_avg_price].
    split; [lia |]. split; [unfold held; lia |].
    split.
    { unfold average, held.
      replace (Z.abs (Position.quantity position - PaperOrder.quantity order))
        with (Z.abs (Position.quantity position) + PaperOrder.quantity order)%Z by lia.
      reflexivity. }
    destruct Hbounds as [Hb1 Hb2]. auto.
Qed.

(** X15. A fill against an open position (a SELL out of a long, a BUY out
    of a short) that does not bring it to zero changes the quantity only:
    the average price, the stop-loss and the target stay as they were, also
    when the fill is larger than the position and turns it to the other
    side; and the ledger is not touched, so no realized PnL is booked for
    the part that was closed. *)
Theorem _update_position_opposite_fill_keeps_average now order intent st position fill :
  Storage.get_position (PaperOrder.symbol order) st = Some position ->
  PaperOrder.fill_price order = Some fill ->
  opposite_direction order position ->
  net_quantity (Some position) order <> 0%Z ->
  exists st' position',
    ExecutionPaperAgent._update_position now order intent st = Ok st'
    /\ Storage.get_position (PaperOrder.symbol order) st' = Some position'
    /\ Position.quantity position' = net_quantity (Some position) order
    /\ Position.avg_price position' = Position.avg_price position
    /\ Position.stop_loss_price position' = Position.stop_loss_price position
    /\ Position.target_price position' = Position.target_price position
    /\ Storage.daily_state st' = Storage.daily_state st.
Proof.
  intros Hget Hfill Hdir Hnet.
  pose proof (get_position_symbol _ _ _ Hget) as Hsym.
  unfold ExecutionPaperAgent._update_position. rewrite Hfill, Hget.
  unfold net_quantity, signed_quantity in *.
  destruct Hdir as [[Hside Hq] | [Hside Hq]]; rewrite Hside in *.
  - rewrite (proj2 (Z.leb_gt _ 0)) by lia.
    cbn [Position.quantity Position.set_last_updated Position.set_quantity].
    destruct (Z.eqb_spec (Position.quantity position - PaperOrder.quantity order) 0)
      as [Hz | _]; [lia |].
    eexists _, _. split; [reflexivity |].
    split; [apply get_position_save; exact Hsym |].
    cbn. repeat split.
  - rewrite (proj2 (Z.leb_gt 0 _)) by lia.
    cbn [Position.quantity Position.set_last_updated Position.set_quantity].
    destruct (Z.eqb_spec (Position.quantity position + PaperOrder.quantity order) 0)
      as [Hz | _]; [lia |].
    eexists _, _. split; [reflexivity |].
    split; [apply get_position_save; exact Hsym |].
    cbn. repeat split.
Qed.

Lemma _update_position_adds_at_weighted_average_witness :
  let order := Scenario.buy_fill "b" "MCX" 5 106 in
  let position := Position.set_symbol "MCX" Scenario.long_position in
  let average := (100 * inject_Z (Z.abs 10) + 106 * inject_Z 5) / inject_Z (Z.abs 10 + 5) in
  exists st' position',
    ExecutionPaperAgent._update_position 1%Z order Scenario.reversion_intent
      Scenario.store_with_long_position = Ok st'
    /\ Storage.get_position "MCX" st' = Some position'
    /\ Position.quantity position' = net_quantity (Some position) order
    /\ Z.abs (Position.quantity position') = (Z.abs 10 + 5)%Z
    /\ Position.avg_price position' = average
    /\ (100 <= 106 -> 100 <= average /\ average <= 106)
    /\ (106 <= 100 -> 106 <= average /\ average <= 100)
    /\ Position.stop_loss_price position' = Some 98
    /\ Position.target_price position' = None.
Proof.
  apply (_update_position_adds_at_weighted_average 1%Z (Scenario.buy_fill "b" "MCX" 5 106)
           Scenario.reversion_intent Scenario.store_with_long_position
           (Position.set_symbol "MCX" Scenario.long_position) 106).
  - vm_compute. reflexivity.
  - reflexivity.
  - left. split; [reflexivity | vm_compute; reflexivity].
  - vm_compute. reflexivity.
Defined.

Lemma _update_position_opposite_fill_keeps_average_witness :
  let order := Scenario.sell_fill "s" "MCX" 15 97 in
  let position := Position.set_symbol "MCX" Scenario.long_position in
  exists st' position',
    ExecutionPaperAgent._update_position 1%Z order Scenario.reversion_intent
      Scenario.store_with_long_position = Ok st'
    /\ Storage.get_position "MCX" st' = Some position'
    /\ Position.quantity position' = net_quantity (Some position) order
    /\ Position.avg_price position' = 100
    /\ Position.stop_loss_price position' = Some 98
    /\ Position.target_price position' = None
    /\ Storage.daily_state st' = Storage.daily_state Scenario.store_with_long_position.
Proof.
  apply (_update_position_opposite_fill_keeps_average 1%Z (Scenario.sell_fill "s" "MCX" 15 97)
           Scenario.reversion_intent Scenario.store_with_long_position
           (Position.set_symbol "MCX" Scenario.long_position) 97).
  - vm_compute. reflexivity.
  - reflexivity.
  - left. split; [reflexivity | vm_compute; reflexivity].
  - vm_compute. discriminate.
Defined.

(** ** The store queries and the exits *)

(** ** The book as the queries see it *)

Lemma get_all_positions_In st p :
  In p (Storage.get_all_positions st)
  <-> Storage.get_position (Position.symbol p) st = Some p /\ Position.quantity p <> 0%Z.
Proof.
  unfold Storage.get_all_positions, Storage.get_position.
  rewrite filter_In, in_map_iff. split.
  - intros [([k row] & <- & Hin) Hq]. cbn [fst snd] in *.
    apply list_elem_of_In, elem_of_map_to_list in Hin.
    cbn [Position.symbol Position.set_symbol]. rewrite Hin. cbn.
    split; [reflexivity |].
    apply negb_true_iff, Z.eqb_neq in Hq. exact Hq.
  - intros [Hget Hq].
    destruct (Storage.positions st !! Position.symbol p) as [row |] eqn:E; [| discriminate].
    cbn in Hget. injection Hget as Hp. split.
    + exists (Position.symbol p, row). split; [exact Hp |].
      apply list_elem_of_In, elem_of_map_to_list. exact E.
    + apply negb_true_iff, Z.eqb_neq. exact Hq.
Qed.

Lemma NoDup_symbols_of_rows (rows : list (string * Position.t)) :
  NoDup (map fst rows) ->
  NoDup
    (map Position.symbol
       (List.filter (fun p => negb (Position.quantity p =? 0)%Z)
          (map (fun kp => Position.set_symbol (fst kp) (snd kp)) rows))).
Proof.
  induction rows as [| [k row] rows IH]; intros Hnd; [constructor |].
  cbn [map fst snd List.filter] in *. apply NoDup_cons in Hnd as [Hnotin Hrest].
  destruct (negb _); [| exact (IH Hrest)].
  cbn [map Position.symbol Position.set_symbol]. apply NoDup_cons.
  split; [| exact (IH Hrest)].
  intros Hin. apply Hnotin. apply list_elem_of_In. apply list_elem_of_In in Hin.
  apply in_map_iff in Hin as (p & Hp & Hin). apply filter_In in Hin as [Hin _].
  apply in_map_iff in Hin as ([k' row'] & <- & Hin). cbn in Hp. subst k'.
  apply in_map_iff. exists (k, row'). split; [reflexivity | exact Hin].
Qed.

(** X16. [get_all_positions] lists exactly the open positions: a position
    is in the list if and only if [get_position] returns it for its symbol
    and its quantity is not zero, and no symbol is listed twice. *)
Theorem get_all_positions_lists_open_positions st :
  (forall p,
      In p (Storage.get_all_positions st)
      <-> Storage.get_position (Position.symbol p) st = Some p
          /\ Position.quantity p <> 0%Z)
  /\ NoDup (map Position.symbol (Storage.get_all_positions st)).
Proof.
  split; [intros p; apply get_all_positions_In |].
  unfold Storage.get_all_positions. apply NoDup_symbols_of_rows.
  apply (NoDup_fst_map_to_list (Storage.positions st)).
Qed.

Section LedgerRowExtras.
Variable settings : Settings.t.

Lemma get_or_create_keeps_book today st :
  Storage.positions (snd (Storage.get_or_create_daily_state settings today st))
  = Storage.positions st
  /\ Storage.paper_orders (snd (Storage.get_or_create_daily_state settings today st))
     = Storage.paper_orders st.
Proof.
  unfold Storage.get_or_create_daily_state.
  destruct (Storage.daily_state st !! today); auto.
Qed.

(** X17. [get_or_create_daily_state] creates the ledger of a day once: the
    first call on a day without a row stores a fresh ledger (zero PnL, the
    full loss budget, no trades, safe mode off); every call returns a ledger
    dated with the day asked for; and a second call returns the same ledger
    and leaves the store as the first call left it. *)
Theorem get_or_create_daily_state_creates_once today st :
  let first := Storage.get_or_create_daily_state settings today st in
  Storage.get_or_create_daily_state settings today (snd first) = (fst first, snd first)
  /\ DailyState.date (fst first) = today
  /\ Storage.daily_state (snd first) !! today
     = Some (match Storage.daily_state st !! today with
             | Some row => row
             | None => fst first
             end)
  /\ (Storage.daily_state st !! today = None ->
      fst first
      = DailyState.fresh today (Settings.MAX_DAILY_LOSS settings)
          (Settings.MAX_DAILY_LOSS settings) (Settings.MAX_TRADES_PER_DAY settings)
      /\ DailyState.safe_mode (fst first) = false
      /\ DailyState.trades_count (fst first) = 0%Z
      /\ forall other, other <> today ->
           Storage.daily_state (snd first) !! other = Storage.daily_state st !! other).
Proof.
  cbv zeta. unfold Storage.get_or_create_daily_state.
  destruct (Storage.daily_state st !! today) as [row |] eqn:E; cbn [fst snd].
  - rewrite E. repeat split; try reflexivity; discriminate.
  - cbn [Storage.daily_state Storage.save_daily_state DailyState.date DailyState.fresh].
    rewrite lookup_insert_eq. cbn [DailyState.set_date DailyState.date].
    repeat split; try reflexivity.
    intros other Hother. apply lookup_insert_ne. congruence.
Qed.
End LedgerRowExtras.

(** ** Exits *)

Section ExitExtras.
Context {SM : SchemaMethods}.
Variable settings : Settings.t.
Variable uuid4 : nat -> string.

(** What one call of [_exit_position] computes and writes. *)
Lemma _exit_position_run today now position price reason w :
  let q := Position.quantity position in
  let fee := Settings.PAPER_BROKERAGE_PER_ORDER settings in
  let pct := Settings.PAPER_SLIPPAGE_PERCENT settings in
  let fill := if (0 <? q)%Z then price * (1 - pct / 100) else price * (1 + pct / 100) in
  let pnl :=
    if (0 <? q)%Z
    then (fill - Position.avg_price position) * inject_Z (Z.abs q) - fee * 2
    else (Position.avg_price position - fill) * inject_Z (Z.abs q) - fee * 2 in
  let order :=
    PaperOrder.mk (uuid4 (World.uuid_draws w)) None (Position.symbol position)
      (if (0 <? q)%Z then SELL else BUY) (Z.abs q) MARKET None FILLED (Some fill) (Some now)
      (Some (Qabs (fill - price))) (Some fee) price in
  exists ledger st0,
    Storage.get_or_create_daily_state settings today
      (Storage.save_paper_order order (World.storage w)) = (ledger, st0)
    /\ ExecutionPaperAgent._exit_position settings uuid4 today now position price reason w
       = (ExitAction.mk (Position.symbol position) reason fill pnl
            (uuid4 (World.uuid_draws w)),
          World.mk
            (Storage.delete_position (Position.symbol position)
               (Storage.save_daily_state (DailyState_update_pnl (Some pnl) None ledger) st0))
            (World.recent_order_hashes w) (S (World.uuid_draws w))).
Proof.
  cbv zeta. unfold ExecutionPaperAgent._exit_position, ExecutionPaperAgent.draw_uuid,
    ExecutionPaperAgent.slippage_percent, ExecutionPaperAgent.brokerage_per_order.
  cbn [World.storage World.uuid_draws World.recent_order_hashes World.set_storage].
  destruct (0 <? Position.quantity position)%Z;
    rewrite ?calculate_slippage_sell, ?calculate_slippage_buy;
    match goal with
    | |- context [Storage.get_or_create_daily_state settings today ?s] =>
        destruct (Storage.get_or_create_daily_state settings today s) as [ledger st0]
    end;
    exists ledger, st0; split; reflexivity.
Qed.

Lemma _exit_position_book today now position price reason w :
  let run := ExecutionPaperAgent._exit_position settings uuid4 today now position price
               reason w in
  Storage.positions (World.storage (snd run))
  = delete (Position.symbol position) (Storage.positions (World.storage w))
  /\ World.uuid_draws (snd run) = S (World.uuid_draws w)
  /\ World.recent_order_hashes (snd run) = World.recent_order_hashes w
  /\ ExitAction.symbol (fst run) = Position.symbol position
  /\ ExitAction.reason (fst run) = reason
  /\ ExitAction.order_id (fst run) = uuid4 (World.uuid_draws w).
Proof.
  cbv zeta.
  destruct (_exit_position_run today now position price reason w)
    as (ledger & st0 & Hgc & ->).
  match type of Hgc with
  | Storage.get_or_create_daily_state _ _ ?s = _ =>
      pose proof (get_or_create_keeps_book settings today s) as [Hp _]
  end.
  cbn.
  rewrite Hgc in Hp. cbn in Hp. rewrite Hp. repeat split.
Qed.

(** X18. [_exit_position] closes the whole position with one filled market
    order on the opposite side, at the observed price moved against the
    position by the slippage percentage: the position is deleted, every
    other position is left alone, and the realized PnL is the fill minus the
    average price, times the signed quantity, minus two brokerage fees,
    which for a non-negative price and slippage is never more than the same
    figure at the observed price. *)
Theorem _exit_position_closes_at_adverse_price today now position price reason w :
  0 <= price ->
  0 <= Settings.PAPER_SLIPPAGE_PERCENT settings ->
  let run := ExecutionPaperAgent._exit_position settings uuid4 today now position price
               reason w in
  let q := Position.quantity position in
  let fee := Settings.PAPER_BROKERAGE_PER_ORDER settings in
  Storage.get_position (Position.symbol position) (World.storage (snd run)) = None
  /\ (forall other, other <> Position.symbol position ->
      Storage.get_position other (World.storage (snd run))
      = Storage.get_position other (World.storage w))
  /\ (exists order,
        Storage.paper_orders (World.storage (snd run)) !! ExitAction.order_id (fst run)
        = Some order
        /\ PaperOrder.status order = FILLED
        /\ PaperOrder.order_type order = MARKET
        /\ PaperOrder.side order = (if (0 <? q)%Z then SELL else BUY)
        /\ PaperOrder.quantity order = Z.abs q
        /\ PaperOrder.fill_price order = Some (ExitAction.exit_price (fst run)))
  /\ ExitAction.realized_pnl (fst run)
     == (ExitAction.exit_price (fst run) - Position.avg_price position) * inject_Z q
        - 2 * fee
  /\ ExitAction.realized_pnl (fst run)
     <= (price - Position.avg_price position) * inject_Z q - 2 * fee.
Proof.
  intros Hprice Hpct. cbv zeta.
  destruct (_exit_position_book today now position price reason w)
    as (Hbook & _).
  destruct (_exit_position_run today now position price reason w)
    as (ledger & st0 & Hgc & Hrun).
  split; [| split; [| split]].
  - unfold Storage.get_position. rewrite Hbook, lookup_delete_eq. reflexivity.
  - intros other Hother. unfold Storage.get_position.
    rewrite Hbook, lookup_delete_ne by congruence. reflexivity.
  - rewrite Hrun. cbn [fst snd ExitAction.order_id ExitAction.exit_price World.storage
                         Storage.paper_orders Storage.delete_position
                         Storage.save_daily_state].
    match type of Hgc with
    | Storage.get_or_create_daily_state _ _ ?s = _ =>
        pose proof (get_or_create_keeps_book settings today s) as [_ Ho]
    end.
    rewrite Hgc in Ho. cbn [snd] in Ho. rewrite Ho.
    cbn [Storage.paper_orders Storage.save_paper_order PaperOrder.order_id].
    rewrite lookup_insert_eq. eexists. split; [reflexivity |]. cbn. repeat split.
  - rewrite Hrun. cbn [fst ExitAction.realized_pnl ExitAction.exit_price].
    destruct (slippage_is_adverse price _ Hprice Hpct) as (Hb & Hs & _).
    set (pct := Settings.PAPER_SLIPPAGE_PERCENT settings) in *.
    set (avg := Position.avg_price position).
    destruct (Z.ltb_spec 0 (Position.quantity position)) as [Hq | Hq].
    + rewrite Z.abs_eq by lia.
      assert (Hpos : 0 <= inject_Z (Position.quantity position)).
      { unfold Qle. simpl. lia. }
      split; [ring |].
      set (n := inject_Z (Position.quantity position)) in *.
      set (fill := price * (1 - pct / 100)) in *. nra.
    + rewrite Z.abs_neq by lia. rewrite inject_Z_opp.
      assert (Hneg : inject_Z (Position.quantity position) <= 0).
      { unfold Qle. simpl. lia. }
      split; [ring |].
      set (n := inject_Z (Position.quantity position)) in *.
      set (fill := price * (1 + pct / 100)) in *. nra.
Qed.
End ExitExtras.

Section FlattenExtras.
Context {SM : SchemaMethods}.
Variable settings : Settings.t.
Variable uuid4 : nat -> string.

(** The book after the loop of [flatten_all_positions]: the rows it was
    given, less the symbols of the listed positions that have a price. *)
Lemma flatten_loop_book today now (prices : gmap string Q) reason positions w :
  Storage.positions
    (World.storage
       (fold_left
          (fun w position =>
             match truthy (prices !! Position.symbol position) with
             | Some current_price =>
                 snd (ExecutionPaperAgent._exit_position settings uuid4 today now position
                        current_price reason w)
             | None => w
             end)
          positions w))
  = fold_left
      (fun book position =>
         match truthy (prices !! Position.symbol position) with
         | Some _ => delete (Position.symbol position) book
         | None => book
         end)
      positions (Storage.positions (World.storage w)).
Proof.
  revert w. induction positions as [| position positions IH]; intros w; [reflexivity |].
  cbn [fold_left]. rewrite IH.
  destruct (truthy (prices !! Position.symbol position)) as [current_price |];
    [| reflexivity].
  now rewrite (proj1 (_exit_position_book settings uuid4 today now position current_price
                        reason w)).
Qed.

Lemma flatten_loop_lookup (prices : gmap string Q) positions
    (book : gmap string Position.t) symbol :
  fold_left
    (fun book position =>
       match truthy (prices !! Position.symbol position) with
       | Some _ => delete (Position.symbol position) book
       | None => book
       end)
    positions book !! symbol
  = if bool_decide (symbol ∈ map Position.symbol positions
                    /\ truthy (prices !! symbol) <> None)
    then None else book !! symbol.
Proof.
  revert book. induction positions as [| position positions IH]; intros book.
  - cbn [fold_left map]. rewrite bool_decide_eq_false_2; [reflexivity |].
    intros [H _]. inversion H.
  - cbn [fold_left map]. rewrite IH.
    destruct (decide (truthy (prices !! symbol) = None)) as [Hnone | Hsome].
    + rewrite !bool_decide_eq_false_2 by (intros [_ H]; contradiction).
      destruct (truthy (prices !! Position.symbol position)) eqn:E; [| reflexivity].
      apply lookup_delete_ne. intros Heq. rewrite Heq in E. congruence.
    + destruct (decide (symbol ∈ map Position.symbol positions)) as [Hin | Hnotin].
      * rewrite !bool_decide_eq_true_2; [reflexivity | |]; split; try assumption.
        now apply list_elem_of_further.
      * rewrite (bool_decide_eq_false_2 (symbol ∈ map Position.symbol positions /\ _))
          by (intros [H _]; contradiction).
        destruct (decide (Position.symbol position = symbol)) as [Heq | Hne].
        -- rewrite bool_decide_eq_true_2
             by (split; [rewrite Heq; apply list_elem_of_here | assumption]).
           rewrite Heq.
           destruct (truthy (prices !! symbol)); [apply lookup_delete_eq | contradiction].
        -- rewrite bool_decide_eq_false_2.
           ++ destruct (truthy (prices !! Position.symbol position)); [| reflexivity].
              now apply lookup_delete_ne.
           ++ intros [H _]. apply elem_of_cons in H as [H | H]; [congruence | contradiction].
Qed.

(** X19. After [flatten_all_positions] has been answered with prices, the
    open positions are exactly those that were open before and for which the
    answer holds no price, or the price 0.0: every open position with a
    price is closed, no other position is touched, and none is opened. *)
Theorem flatten_all_positions_closes_priced_positions today now prices reason w p :
  let w' :=
    ExecutionPaperAgent.flatten_all_positions settings uuid4 today now (LtpData prices)
      reason w in
  In p (Storage.get_all_positions (World.storage w'))
  <-> In p (Storage.get_all_positions (World.storage w))
      /\ truthy (prices !! Position.symbol p) = None.
Proof.
  cbv zeta. unfold ExecutionPaperAgent.flatten_all_positions.
  destruct (Storage.get_all_positions (World.storage w)) as [| p0 rest] eqn:Hlist.
  { rewrite Hlist. cbn. tauto. }
  rewrite <- Hlist.
  rewrite !get_all_positions_In.
  unfold Storage.get_position at 1.
  rewrite flatten_loop_book, flatten_loop_lookup.
  fold (Storage.get_position (Position.symbol p) (World.storage w)).
  destruct (bool_decide _) eqn:Edec.
  - apply bool_decide_eq_true_1 in Edec as [Hin Hprice].
    cbn. split; [intros [H _]; discriminate | intros [_ H]; contradiction].
  - apply bool_decide_eq_false_1 in Edec.
    split; [| tauto].
    intros [Hget Hq]. split; [auto |].
    destruct (truthy (prices !! Position.symbol p)) eqn:E; [| reflexivity].
    exfalso. apply Edec. split; [| first [discriminate | rewrite E; discriminate]].
    apply list_elem_of_In, in_map_iff. exists p. split; [reflexivity |].
    apply get_all_positions_In. auto.
Qed.
End FlattenExtras.

Section MonitorExtras.
Context {SM : SchemaMethods} {PL : PositionLaws SM}.
Variable settings : Settings.t.
Variable uuid4 : nat -> string.

Lemma truthy_nonzero (x : Q) : ~ x == 0 -> truthy (Some x) = Some x.
Proof.
  intros H. cbn. destruct (Qeq_bool x 0) eqn:E; [| reflexivity].
  apply Qeq_bool_iff in E. contradiction.
Qed.

(** X20. A long position whose stop-loss and target are both reached by
    the observed price (the target at or below it, the stop at or above it)
    is exited twice in the same pass: monitoring reports a [stop_loss] exit
    and a [target] exit for the same symbol, with the same realized PnL and
    two consecutive order ids. *)
Theorem monitor_position_exits_twice today now prices position acc price stop target :
  prices !! Position.symbol position = Some price ->
  (0 < Position.quantity position)%Z ->
  Position.stop_loss_price position = Some stop ->
  Position.target_price position = Some target ->
  ~ stop == 0 ->
  ~ target == 0 ->
  target <= price ->
  price <= stop ->
  exists a1 a2 w',
    ExecutionPaperAgent.monitor_position settings uuid4 today now prices position acc
    = (fst acc ++ [a1; a2], w')
    /\ ExitAction.reason a1 = "stop_loss"%string
    /\ ExitAction.reason a2 = "target"%string
    /\ ExitAction.symbol a1 = Position.symbol position
    /\ ExitAction.symbol a2 = Position.symbol position
    /\ ExitAction.order_id a1 = uuid4 (World.uuid_draws (snd acc))
    /\ ExitAction.order_id a2 = uuid4 (S (World.uuid_draws (snd acc)))
    /\ ExitAction.realized_pnl a1 = ExitAction.realized_pnl a2
    /\ World.uuid_draws w' = S (S (World.uuid_draws (snd acc))).
Proof.
  intros Hprice Hq Hstop Htarget Hs0 Ht0 Htp Hps.
  destruct acc as [exit_actions w].
  unfold ExecutionPaperAgent.monitor_position. rewrite Hprice.
  rewrite position_update_pnl_stop_loss, position_update_pnl_target,
    position_update_pnl_quantity.
  rewrite Hstop, Htarget, (truthy_nonzero stop Hs0), (truthy_nonzero target Ht0).
  rewrite (proj2 (Z.ltb_lt _ _) Hq).
  rewrite (proj2 (Qleb_le _ _) Hps), (proj2 (Qleb_le _ _) Htp). cbn [andb].
  set (refreshed := Position_update_pnl price position).
  set (w1 := World.set_storage (Storage.save_position refreshed (World.storage w)) w).
  destruct (_exit_position_run settings uuid4 today now refreshed price "stop_loss" w1)
    as (l1 & s1 & _ & E1).
  rewrite E1.
  match goal with
  | |- context [ExecutionPaperAgent._exit_position settings uuid4 today now refreshed price
                  "target" ?w2] =>
      destruct (_exit_position_run settings uuid4 today now refreshed price "target" w2)
        as (l2 & s2 & _ & E2)
  end.
  rewrite E2. cbn [World.uuid_draws World.recent_order_hashes].
  eexists _, _, _. split.
  { rewrite <- app_assoc. reflexivity. }
  cbn [fst snd ExitAction.reason ExitAction.symbol ExitAction.order_id
         ExitAction.realized_pnl World.uuid_draws].
  unfold refreshed. rewrite position_update_pnl_symbol.
  repeat split.
Qed.

(** X21. A position whose stop-loss and target are both missing or 0.0 is
    never exited by monitoring, whatever the price: the pass reports no
    exit for it, stores no order and leaves the ledger alone; it only
    refreshes the mark of the position when the answer holds a price. *)
Theorem monitor_position_never_exits_without_levels today now prices position acc :
  truthy (Position.stop_loss_price position) = None ->
  truthy (Position.target_price position) = None ->
  let run :=
    ExecutionPaperAgent.monitor_position settings uuid4 today now prices position acc in
  fst run = fst acc
  /\ Storage.paper_orders (World.storage (snd run))
     = Storage.paper_orders (World.storage (snd acc))
  /\ Storage.daily_state (World.storage (snd run))
     = Storage.daily_state (World.storage (snd acc))
  /\ World.uuid_draws (snd run) = World.uuid_draws (snd acc)
  /\ (forall price,
        prices !! Position.symbol position = Some price ->
        exists refreshed,
          Storage.get_position (Position.symbol position) (World.storage (snd run))
          = Some refreshed
          /\ Position.quantity refreshed = Position.quantity position)
  /\ (prices !! Position.symbol position = None -> snd run = snd acc).
Proof.
  intros Hstop Htarget. cbv zeta.
  destruct acc as [exit_actions w].
  unfold ExecutionPaperAgent.monitor_position.
  destruct (prices !! Position.symbol position) as [price |].
  - rewrite position_update_pnl_stop_loss, position_update_pnl_target, Hstop, Htarget.
    cbn [fst snd World.storage World.set_storage World.uuid_draws Storage.paper_orders
           Storage.daily_state Storage.save_position].
    repeat split; try discriminate.
    intros price' Hp. injection Hp as <-.
    eexists. split.
    + rewrite <- (position_update_pnl_symbol price position).
      apply get_position_save. reflexivity.
    + apply position_update_pnl_quantity.
  - cbn. repeat split. intros price H. discriminate.
Qed.
End MonitorExtras.

Lemma _exit_position_closes_at_adverse_price_witness :
  let run :=
    ExecutionPaperAgent._exit_position (SM := spec_schema) Settings.default sample_uuid4
      Scenario.today 0%Z Scenario.long_position 97 "stop_loss"
      (Scenario.world_with Scenario.store_with_long_position) in
  let q := Position.quantity Scenario.long_position in
  let fee := Settings.PAPER_BROKERAGE_PER_ORDER Settings.default in
  Storage.get_position (Position.symbol Scenario.long_position) (World.storage (snd run))
  = None
  /\ (forall other, other <> Position.symbol Scenario.long_position ->
      Storage.get_position other (World.storage (snd run))
      = Storage.get_position other
          (World.storage (Scenario.world_with Scenario.store_with_long_position)))
  /\ (exists order,
        Storage.paper_orders (World.storage (snd run)) !! ExitAction.order_id (fst run)
        = Some order
        /\ PaperOrder.status order = FILLED
        /\ PaperOrder.order_type order = MARKET
        /\ PaperOrder.side order = (if (0 <? q)%Z then SELL else BUY)
        /\ PaperOrder.quantity order = Z.abs q
        /\ PaperOrder.fill_price order = Some (ExitAction.exit_price (fst run)))
  /\ ExitAction.realized_pnl (fst run)
     == (ExitAction.exit_price (fst run) - Position.avg_price Scenario.long_position)
        * inject_Z q - 2 * fee
  /\ ExitAction.realized_pnl (fst run)
     <= (97 - Position.avg_price Scenario.long_position) * inject_Z q - 2 * fee.
Proof.
  apply (_exit_position_closes_at_adverse_price (SM := spec_schema) Settings.default
           sample_uuid4 Scenario.today 0%Z Scenario.long_position 97 "stop_loss"
           (Scenario.world_with Scenario.store_with_long_position)).
  - unfold Qle. simpl. lia.
  - unfold Qle. simpl. lia.
Defined.

Lemma monitor_position_exits_twice_witness :
  exists a1 a2 w',
    ExecutionPaperAgent.monitor_position (SM := spec_schema) Settings.default sample_uuid4
      Scenario.today 0%Z {[ "MCX"%string := 97 ]} Scenario.crossed_position
      ([], Scenario.world_holding Scenario.crossed_position)
    = ([] ++ [a1; a2], w')
    /\ ExitAction.reason a1 = "stop_loss"%string
    /\ ExitAction.reason a2 = "target"%string
    /\ ExitAction.symbol a1 = "MCX"%string
    /\ ExitAction.symbol a2 = "MCX"%string
    /\ ExitAction.order_id a1 = sample_uuid4 0
    /\ ExitAction.order_id a2 = sample_uuid4 1
    /\ ExitAction.realized_pnl a1 = ExitAction.realized_pnl a2
    /\ World.uuid_draws w' = 2%nat.
Proof.
  apply (monitor_position_exits_twice (SM := spec_schema) (PL := spec_position_laws)
           Settings.default sample_uuid4 Scenario.today 0%Z {[ "MCX"%string := 97 ]}
           Scenario.crossed_position
           ([], Scenario.world_holding Scenario.crossed_position) 97 98 95).
  - reflexivity.
  - vm_compute. reflexivity.
  - reflexivity.
  - reflexivity.
  - intros H. discriminate H.
  - intros H. discriminate H.
  - unfold Qle. simpl. lia.
  - unfold Qle. simpl. lia.
Defined.

Lemma monitor_position_never_exits_without_levels_witness :
  let acc : list ExitAction.t * World.t :=
    ([], Scenario.world_holding Scenario.manual_position) in
  let run :=
    ExecutionPaperAgent.monitor_position (SM := spec_schema) Settings.default sample_uuid4
      Scenario.today 0%Z {[ "MCX"%string := 1 ]} Scenario.manual_position acc in
  fst run = fst acc
  /\ Storage.paper_orders (World.storage (snd run))
     = Storage.paper_orders (World.storage (snd acc))
  /\ Storage.daily_state (World.storage (snd run))
     = Storage.daily_state (World.storage (snd acc))
  /\ World.uuid_draws (snd run) = World.uuid_draws (snd acc)
  /\ (forall price,
        ({[ "MCX"%string := 1 ]} : gmap string Q)
          !! Position.symbol Scenario.manual_position = Some price ->
        exists refreshed,
          Storage.get_position (Position.symbol Scenario.manual_position)
            (World.storage (snd run))
          = Some refreshed
          /\ Position.quantity refreshed = Position.quantity Scenario.manual_position)
  /\ (({[ "MCX"%string := 1 ]} : gmap string Q)
        !! Position.symbol Scenario.manual_position = None -> snd run = snd acc).
Proof.
  apply (monitor_position_never_exits_without_levels (SM := spec_schema)
           (PL := spec_position_laws) Settings.default sample_uuid4 Scenario.today 0%Z
           {[ "MCX"%string := 1 ]} Scenario.manual_position
           ([], Scenario.world_holding Scenario.manual_position)).
  - reflexivity.
  - reflexivity.
Defined.

(** ** The proposals of the strategy evaluator *)

Section EvaluatorExtras.
Import StrategyBrainAgent.

Lemma finish_confidence strategy confidence :
  0 <= StrategyScore.confidence (finish strategy confidence)
  /\ StrategyScore.confidence (finish strategy confidence) <= 1.
Proof.
  unfold finish, py_max, py_min. cbn [StrategyScore.confidence].
  destruct (Qltb 1 confidence) eqn:E1.
  - destruct (Qltb 0 1) eqn:E2; lra.
  - apply Qltb_ge in E1.
    destruct (Qltb 0 confidence) eqn:E2; [apply Qltb_lt in E2; lra | lra].
Qed.

Lemma _evaluate_momentum_breakout_form snapshot score :
  _evaluate_momentum_breakout snapshot = Ok score ->
  exists confidence, score = finish MOMENTUM_BREAKOUT confidence.
Proof.
  unfold _evaluate_momentum_breakout.
  destruct (py_div _ _); [| discriminate].
  intros H. injection H as <-. eexists. reflexivity.
Qed.

Lemma _evaluate_mean_reversion_form snapshot score :
  _evaluate_mean_reversion snapshot = Ok score ->
  exists confidence, score = finish MEAN_REVERSION confidence.
Proof.
  unfold _evaluate_mean_reversion.
  destruct (py_div _ _); [| discriminate].
  match goal with
  | |- context [match ?banded with Ok _ => _ | Raise _ => _ end] => destruct banded
  end; [| discriminate].
  intros H. injection H as <-. eexists. reflexivity.
Qed.

Lemma _evaluate_volatility_expansion_form snapshot score :
  _evaluate_volatility_expansion snapshot = Ok score ->
  exists confidence, score = finish VOLATILITY_EXPANSION confidence.
Proof.
  unfold _evaluate_volatility_expansion.
  match goal with
  | |- context [match ?compressed with Ok _ => _ | Raise _ => _ end] => destruct compressed
  end; [| discriminate].
  intros H. injection H as <-. eexists. reflexivity.
Qed.

Lemma registry_score_form snapshot scores :
  collect_scores (strategy_evaluators init) snapshot = Ok scores ->
  Forall (fun score => exists strategy confidence, score = finish strategy confidence) scores.
Proof.
  intros H. apply collect_scores_each in H. cbn [strategy_evaluators init] in H.
  repeat match goal with
         | H : Forall2 _ (_ :: _) _ |- _ =>
             apply Forall2_cons_inv_l in H as (? & ? & ? & H & ->)
         | H : Forall2 _ [] _ |- _ => apply Forall2_nil_inv_l in H as ->
         end.
  cbn [snd] in *.
  destruct (_evaluate_momentum_breakout_form _ _ ltac:(eassumption)) as (c1 & ->).
  destruct (_evaluate_mean_reversion_form _ _ ltac:(eassumption)) as (c2 & ->).
  destruct (_evaluate_volatility_expansion_form _ _ ltac:(eassumption)) as (c3 & ->).
  apply Forall_cons; split; [eexists _, _; reflexivity |].
  apply Forall_cons; split; [eexists _, _; reflexivity |].
  apply Forall_cons; split; [eexists _, _; reflexivity |].
  apply Forall_nil_2.
Qed.

(** Whatever [evaluate] proposes was generated from one of the collected
    scores, whose confidence reaches the threshold. *)
Lemma evaluate_proposal self snapshot intent :
  evaluate self snapshot = Ok (Some intent) ->
  exists scores best,
    collect_scores (strategy_evaluators self) snapshot = Ok scores
    /\ In best scores
    /\ min_confidence_threshold self <= StrategyScore.confidence best
    /\ intent = _generate_trade_intent snapshot best.
Proof.
  unfold evaluate.
  destruct (collect_scores (strategy_evaluators self) snapshot) as [scores | e] eqn:Hscores;
    [| discriminate].
  destruct scores as [| s rest]; [discriminate |].
  destruct (py_max_by_first_maximum StrategyScore.confidence (s :: rest)) as
    (best & Hmax & before & after & Heq & _); [discriminate |].
  rewrite Hmax.
  destruct (Qltb _ _) eqn:E; [discriminate |].
  intros H. injection H as <-. apply Qltb_ge in E.
  exists (s :: rest), best. repeat split; try assumption.
  rewrite Heq. apply in_or_app. right. left. reflexivity.
Qed.

(** X22. Every score a strategy evaluator returns has a confidence between
    0 and 1. *)
Theorem evaluators_score_between_0_and_1 snapshot score :
  _evaluate_momentum_breakout snapshot = Ok score
  \/ _evaluate_mean_reversion snapshot = Ok score
  \/ _evaluate_volatility_expansion snapshot = Ok score ->
  0 <= StrategyScore.confidence score /\ StrategyScore.confidence score <= 1.
Proof.
  intros [H | [H | H]].
  - destruct (_evaluate_momentum_breakout_form _ _ H) as (c & ->). apply finish_confidence.
  - destruct (_evaluate_mean_reversion_form _ _ H) as (c & ->). apply finish_confidence.
  - destruct (_evaluate_volatility_expansion_form _ _ H) as (c & ->).
    apply finish_confidence.
Qed.

Lemma generated_intent_shape snapshot score :
  let intent := _generate_trade_intent snapshot score in
  TradeIntent.quantity intent = 1%Z
  /\ TradeIntent.market_snapshot_id intent = None
  /\ (exists stop,
        TradeIntent.stop_loss_price intent = Some stop
        /\ TradeIntent.expected_risk_rupees intent
           = Qabs (MarketSnapshot.ltp snapshot - stop) * inject_Z 1)
  /\ (exists target, TradeIntent.target_price intent = Some target)
  /\ TradeIntent.entry_type intent
     = match TradeIntent.entry_price intent with None => MARKET | Some _ => LIMIT end
  /\ TradeIntent.entry_price intent
     = match StrategyScore.strategy score with
       | MEAN_REVERSION => Some (MarketSnapshot.ltp snapshot)
       | _ => None
       end.
Proof.
  cbv zeta. unfold _generate_trade_intent.
  destruct (StrategyScore.strategy score);
    repeat match goal with
           | |- context [truthy ?x] => destruct (truthy x)
           | |- context [if ?c then _ else _] =>
               match type of c with bool => destruct c end
           end;
    cbn; repeat split;
    first [reflexivity | eexists; split; reflexivity | eexists; reflexivity].
Qed.

(** X23. Every proposal of [evaluate] is for one unit of the snapshot's
    symbol, carries a stop-loss and a target, states as expected risk the
    distance between the last price and the stop, and has a confidence
    between the threshold 0.6 and 1; it is a limit order at the last price
    when the strategy is mean reversion and a market order without entry
    price otherwise. *)
Theorem evaluate_proposal_shape snapshot intent :
  evaluate init snapshot = Ok (Some intent) ->
  0.6 <= TradeIntent.confidence_score intent
  /\ TradeIntent.confidence_score intent <= 1
  /\ TradeIntent.symbol intent = MarketSnapshot.symbol snapshot
  /\ TradeIntent.quantity intent = 1%Z
  /\ (exists stop,
        TradeIntent.stop_loss_price intent = Some stop
        /\ TradeIntent.expected_risk_rupees intent
           == Qabs (MarketSnapshot.ltp snapshot - stop))
  /\ 0 <= TradeIntent.expected_risk_rupees intent
  /\ (exists target, TradeIntent.target_price intent = Some target)
  /\ (TradeIntent.strategy_id intent = MEAN_REVERSION ->
      TradeIntent.entry_type intent = LIMIT
      /\ TradeIntent.entry_price intent = Some (MarketSnapshot.ltp snapshot))
  /\ (TradeIntent.strategy_id intent <> MEAN_REVERSION ->
      TradeIntent.entry_type intent = MARKET /\ TradeIntent.entry_price intent = None).
Proof.
  intros Hrun.
  destruct (evaluate_proposal init snapshot intent Hrun)
    as (scores & best & Hscores & Hin & Hthr & ->).
  pose proof (registry_score_form snapshot scores Hscores) as Hform.
  rewrite Forall_forall in Hform.
  destruct (Hform best (proj2 (list_elem_of_In _ _) Hin)) as (strategy & c & Hbest).
  destruct (generated_intent_fields snapshot best) as (Hstrat & Hconf & Hsym).
  destruct (generated_intent_shape snapshot best)
    as (Hq & _ & (stop & Hstop & Hrisk) & Htarget & Htype & Hentry).
  rewrite Hconf, Hstrat.
  split; [exact Hthr |].
  split; [rewrite Hbest; apply finish_confidence |].
  split; [exact Hsym |]. split; [exact Hq |].
  split. { exists stop. split; [exact Hstop |]. rewrite Hrisk. cbn. ring. }
  split. { rewrite Hrisk. apply Qmult_le_0_compat; [apply Qabs_nonneg | discriminate]. }
  split; [exact Htarget |].
  rewrite Htype, Hentry.
  split; intros H; destruct (StrategyScore.strategy best); try discriminate;
    try contradiction; split; reflexivity.
Qed.

(** X24. A mean-reversion proposal on a positive last price is a limit
    order at that price against the deviation from the VWAP (a SELL above
    it, a BUY otherwise), with the target at the VWAP and the stop one
    percent of the price away on the losing side, which is also its expected
    risk; so the stop-loss check of the guardrail engine passes it and
    [approve] returns a decision for it. *)
Theorem mean_reversion_proposal_has_valid_stop snapshot intent :
  evaluate init snapshot = Ok (Some intent) ->
  TradeIntent.strategy_id intent = MEAN_REVERSION ->
  0 < MarketSnapshot.ltp snapshot ->
  stop_on_losing_side intent
  /\ TradeIntent.entry_price intent = Some (MarketSnapshot.ltp snapshot)
  /\ TradeIntent.side intent
     = (if Qltb (MarketSnapshot.vwap snapshot) (MarketSnapshot.ltp snapshot)
        then SELL else BUY)
  /\ TradeIntent.target_price intent = Some (MarketSnapshot.vwap snapshot)
  /\ TradeIntent.expected_risk_rupees intent == MarketSnapshot.ltp snapshot * 0.01
  /\ forall (SM : SchemaMethods) (RT : PyRuntime) settings today now intent_id st,
      exists decision st',
        RiskPolicyAgent.approve settings today now intent intent_id st = (Ok decision, st').
Proof.
  intros Hrun Hstrategy Hltp.
  destruct (evaluate_proposal init snapshot intent Hrun)
    as (scores & best & _ & _ & _ & ->).
  destruct (generated_intent_fields snapshot best) as (Hstrat & _ & _).
  rewrite Hstrat in Hstrategy.
  set (ltp := MarketSnapshot.ltp snapshot) in *.
  assert (Hform :
            TradeIntent.side (_generate_trade_intent snapshot best)
            = (if Qltb (MarketSnapshot.vwap snapshot) ltp then SELL else BUY)
            /\ TradeIntent.entry_price (_generate_trade_intent snapshot best) = Some ltp
            /\ TradeIntent.stop_loss_price (_generate_trade_intent snapshot best)
               = Some (if Qltb (MarketSnapshot.vwap snapshot) ltp
                       then ltp * 1.01 else ltp * 0.99)
            /\ TradeIntent.target_price (_generate_trade_intent snapshot best)
               = Some (MarketSnapshot.vwap snapshot)
            /\ TradeIntent.expected_risk_rupees (_generate_trade_intent snapshot best)
               = Qabs (ltp - (if Qltb (MarketSnapshot.vwap snapshot) ltp
                              then ltp * 1.01 else ltp * 0.99)) * inject_Z 1).
  { unfold _generate_trade_intent. rewrite Hstrategy. fold ltp.
    destruct (Qltb (MarketSnapshot.vwap snapshot) ltp); cbn; repeat split. }
  destruct Hform as (Hside & Hentry & Hstop & Htarget & Hrisk).
  assert (Hlosing : stop_on_losing_side (_generate_trade_intent snapshot best)).
  { eexists _, _. split; [exact Hstop |]. split; [exact Hentry |].
    rewrite Hside. destruct (Qltb (MarketSnapshot.vwap snapshot) ltp); lra. }
  split; [exact Hlosing |]. split; [exact Hentry |]. split; [exact Hside |].
  split; [exact Htarget |]. split.
  - rewrite Hrisk. destruct (Qltb (MarketSnapshot.vwap snapshot) ltp).
    + rewrite Qabs_neg by lra. cbn [inject_Z]. ring.
    + rewrite Qabs_pos by lra. cbn [inject_Z]. ring.
  - intros SM RT settings today now intent_id st.
    destruct (refreshed_ledger_run settings today st) as (ds0 & st0 & st1 & Hgc & Hup).
    destruct (approve_runs_every_check settings today now _ intent_id st ds0 st0 _ st1
                Hgc Hup (stop_on_losing_side_comparable _ Hlosing))
      as (decision & st' & Happrove & _).
    exists decision, st'. exact Happrove.
Qed.
End EvaluatorExtras.

Lemma evaluators_score_between_0_and_1_witness :
  exists score,
    StrategyBrainAgent._evaluate_mean_reversion Scenario.stretched_snapshot = Ok score
    /\ 0 <= StrategyScore.confidence score /\ StrategyScore.confidence score <= 1.
Proof.
  eexists. split; [vm_compute; reflexivity |].
  eapply (evaluators_score_between_0_and_1 Scenario.stretched_snapshot).
  right. left. vm_compute. reflexivity.
Defined.

Lemma evaluate_proposal_shape_witness :
  exists intent,
    StrategyBrainAgent.evaluate StrategyBrainAgent.init Scenario.tied_snapshot
    = Ok (Some intent)
    /\ 0.6 <= TradeIntent.confidence_score intent
    /\ TradeIntent.confidence_score intent <= 1
    /\ TradeIntent.symbol intent = MarketSnapshot.symbol Scenario.tied_snapshot
    /\ TradeIntent.quantity intent = 1%Z
    /\ (exists stop,
          TradeIntent.stop_loss_price intent = Some stop
          /\ TradeIntent.expected_risk_rupees intent
             == Qabs (MarketSnapshot.ltp Scenario.tied_snapshot - stop))
    /\ 0 <= TradeIntent.expected_risk_rupees intent
    /\ (exists target, TradeIntent.target_price intent = Some target)
    /\ (TradeIntent.strategy_id intent = MEAN_REVERSION ->
        TradeIntent.entry_type intent = LIMIT
        /\ TradeIntent.entry_price intent
           = Some (MarketSnapshot.ltp Scenario.tied_snapshot))
    /\ (TradeIntent.strategy_id intent <> MEAN_REVERSION ->
        TradeIntent.entry_type intent = MARKET /\ TradeIntent.entry_price intent = None).
Proof.
  eexists. split; [vm_compute; reflexivity |].
  eapply (evaluate_proposal_shape Scenario.tied_snapshot).
  vm_compute. reflexivity.
Defined.

Lemma mean_reversion_proposal_has_valid_stop_witness :
  exists intent,
    StrategyBrainAgent.evaluate StrategyBrainAgent.init Scenario.stretched_snapshot
    = Ok (Some intent)
    /\ stop_on_losing_side intent
    /\ TradeIntent.entry_price intent = Some (MarketSnapshot.ltp Scenario.stretched_snapshot)
    /\ TradeIntent.side intent
       = (if Qltb (MarketSnapshot.vwap Scenario.stretched_snapshot)
               (MarketSnapshot.ltp Scenario.stretched_snapshot)
          then SELL else BUY)
    /\ TradeIntent.target_price intent
       = Some (MarketSnapshot.vwap Scenario.stretched_snapshot)
    /\ TradeIntent.expected_risk_rupees intent
       == MarketSnapshot.ltp Scenario.stretched_snapshot * 0.01
    /\ forall (SM : SchemaMethods) (RT : PyRuntime) settings today now intent_id st,
        exists decision st',
          RiskPolicyAgent.approve settings today now intent intent_id st
          = (Ok decision, st').
Proof.
  eexists. split; [vm_compute; reflexivity |].
  eapply (mean_reversion_proposal_has_valid_stop Scenario.stretched_snapshot).
  - vm_compute. reflexivity.
  - reflexivity.
  - vm_compute. reflexivity.
Defined.

(** ** The per-symbol loop of the scheduler *)

Section SchedulerExtras.
Context {SM : SchemaMethods} {RT : PyRuntime}.
Variable settings : Settings.t.
Variable uuid4 : nat -> string.
Variable strategy_brain : StrategyBrainAgent.t.

Lemma same_trading_state_refl w : same_trading_state w w.
Proof. repeat split. Qed.

Lemma approve_same_trading_state today now intent intent_id w :
  same_trading_state w
    (World.set_storage
       (snd (RiskPolicyAgent.approve settings today now intent intent_id (World.storage w)))
       w).
Proof.
  destruct (approve_book settings today now intent intent_id (World.storage w)) as [Hp Ho].
  repeat split; assumption.
Qed.

(** X25. A proposal without entry price that carries a stop-loss, which is
    what the strategy evaluator emits for every breakout and expansion
    proposal, never gets past the guardrail engine in the scheduler: the
    stop-loss check raises, the loop goes on to the next symbol, and
    positions, orders, the duplicate cache and the ledger object of the
    tick are as before. *)
Theorem process_symbol_drops_market_proposals today input daily_state w snapshot intent :
  SymbolInput.snapshot input = Some snapshot ->
  StrategyBrainAgent.evaluate strategy_brain snapshot = Ok (Some intent) ->
  TradeIntent.entry_price intent = None ->
  TradeIntent.stop_loss_price intent <> None ->
  let run :=
    TradingScheduler.process_symbol settings uuid4 strategy_brain today input
      (daily_state, w) in
  fst run = daily_state
  /\ same_trading_state w (snd run)
  /\ fst (RiskPolicyAgent.approve settings today (SymbolInput.approve_now input)
            (with_snapshot_id (SymbolInput.snapshot_id input) intent)
            (Some (SymbolInput.intent_id input)) (World.storage w))
     = Raise TypeError.
Proof.
  intros Hsnap Heval Hentry Hstop. cbv zeta.
  unfold TradingScheduler.process_symbol. rewrite Hsnap, Heval.
  fold (with_snapshot_id (SymbolInput.snapshot_id input) intent).
  set (linked := with_snapshot_id (SymbolInput.snapshot_id input) intent).
  assert (Hcmp : ~ stop_loss_comparable linked).
  { unfold stop_loss_comparable, linked. cbn. intros [H | H]; congruence. }
  pose proof (approve_same_trading_state today (SymbolInput.approve_now input) linked
                (Some (SymbolInput.intent_id input)) w) as Hsame.
  destruct (Storage.get_or_create_daily_state settings today (World.storage w))
    as [ds0 st0] eqn:Hgc.
  destruct (RiskPolicyAgent._update_unrealized_pnl ds0 st0) as [ds1 st1] eqn:Hup.
  rewrite (approve_raises_on_missing_entry settings today _ linked _ _ ds0 st0 ds1 st1
             Hgc Hup Hcmp) in *.
  cbn [fst snd] in *. auto.
Qed.

(** X26. A proposal that is approved subject to human sign-off is not
    executed by the scheduler.  The loop counts it as pending on the ledger
    object the tick read before monitoring and saves that object: the
    stored row of its day becomes this copy, whatever the store held for
    that day by then. *)
Theorem process_symbol_sign_off_saves_tick_ledger
    today input daily_state w snapshot intent decision st :
  SymbolInput.snapshot input = Some snapshot ->
  StrategyBrainAgent.evaluate strategy_brain snapshot = Ok (Some intent) ->
  RiskPolicyAgent.approve settings today (SymbolInput.approve_now input)
    (with_snapshot_id (SymbolInput.snapshot_id input) intent)
    (Some (SymbolInput.intent_id input)) (World.storage w) = (Ok decision, st) ->
  RiskApproval.approved decision = true ->
  RiskApproval.hitl_required decision = true ->
  let pending :=
    DailyState.set_hitl_approvals_pending
      (DailyState.hitl_approvals_pending daily_state + 1)%Z daily_state in
  let run :=
    TradingScheduler.process_symbol settings uuid4 strategy_brain today input
      (daily_state, w) in
  fst run = pending
  /\ Storage.daily_state (World.storage (snd run)) !! DailyState.date daily_state
     = Some pending
  /\ same_trading_state w (snd run).
Proof.
  intros Hsnap Heval Happrove Happroved Hhitl. cbv zeta.
  unfold TradingScheduler.process_symbol. rewrite Hsnap, Heval.
  fold (with_snapshot_id (SymbolInput.snapshot_id input) intent).
  pose proof (approve_book settings today (SymbolInput.approve_now input)
                (with_snapshot_id (SymbolInput.snapshot_id input) intent)
                (Some (SymbolInput.intent_id input)) (World.storage w)) as [Hp Ho].
  rewrite Happrove in *. cbn [snd] in Hp, Ho.
  rewrite Happroved, Hhitl. cbn [negb fst snd World.storage World.set_storage].
  split; [reflexivity |]. split.
  - cbn. apply lookup_insert_eq.
  - repeat split; assumption.
Qed.

(** X27. While the refreshed ledger counts fewer trades than
    [REQUIRE_HITL_FIRST_N_TRADES], the scheduler executes nothing: whatever
    the market data and the strategy evaluator answer for a symbol,
    positions, orders, the duplicate cache and the order ids drawn are as
    before. *)
Theorem process_symbol_never_executes_within_sign_off_quota today input daily_state w :
  (DailyState.trades_count (refreshed_ledger settings today (World.storage w))
   < Settings.REQUIRE_HITL_FIRST_N_TRADES settings)%Z ->
  same_trading_state w
    (snd (TradingScheduler.process_symbol settings uuid4 strategy_brain today input
            (daily_state, w))).
Proof.
  intros Hquota.
  unfold TradingScheduler.process_symbol.
  destruct (SymbolInput.snapshot input) as [snapshot |];
    [| apply same_trading_state_refl].
  destruct (StrategyBrainAgent.evaluate strategy_brain snapshot) as [[intent |] | e];
    try apply same_trading_state_refl.
  fold (with_snapshot_id (SymbolInput.snapshot_id input) intent).
  set (linked := with_snapshot_id (SymbolInput.snapshot_id input) intent).
  pose proof (approve_same_trading_state today (SymbolInput.approve_now input) linked
                (Some (SymbolInput.intent_id input)) w) as Hsame.
  destruct (RiskPolicyAgent.approve settings today (SymbolInput.approve_now input) linked
              (Some (SymbolInput.intent_id input)) (World.storage w))
    as [[decision | e] st] eqn:Happrove; cbn [snd] in Hsame; [| exact Hsame].
  destruct (RiskApproval.approved decision) eqn:Happroved; cbn [negb]; [| exact Hsame].
  assert (Hhitl : RiskApproval.hitl_required decision = true).
  { destruct (approve_approved_inv settings today _ linked _ _ decision st
                Happrove Happroved) as (_ & a7 & _ & Hadj).
    rewrite (proj1 (_adjust_quantity_keeps _ _ _ _ Hadj)).
    rewrite _check_hitl_requirements_required.
    rewrite (proj2 (Z.ltb_lt _ _) Hquota). now rewrite orb_true_r. }
  rewrite Hhitl. cbn [snd].
  destruct Hsame as (Hp & Ho & Hh & Hd). repeat split; assumption.
Qed.
End SchedulerExtras.

Lemma process_symbol_drops_market_proposals_witness :
  let ledger := Scenario.ledger 200 3 in
  let w := Scenario.world_with (Scenario.store_with ledger) in
  let run :=
    TradingScheduler.process_symbol (SM := spec_schema) (RT := sample_runtime)
      Settings.default sample_uuid4 StrategyBrainAgent.init Scenario.today
      Scenario.tied_input (ledger, w) in
  exists intent,
    StrategyBrainAgent.evaluate StrategyBrainAgent.init Scenario.tied_snapshot
    = Ok (Some intent)
    /\ fst run = ledger
    /\ same_trading_state w (snd run)
    /\ fst (RiskPolicyAgent.approve (SM := spec_schema) (RT := sample_runtime)
              Settings.default Scenario.today
              (SymbolInput.approve_now Scenario.tied_input)
              (with_snapshot_id (SymbolInput.snapshot_id Scenario.tied_input) intent)
              (Some (SymbolInput.intent_id Scenario.tied_input)) (World.storage w))
       = Raise TypeError.
Proof.
  intros ledger w run. eexists. split; [vm_compute; reflexivity |].
  eapply (process_symbol_drops_market_proposals (SM := spec_schema) (RT := sample_runtime)
            Settings.default sample_uuid4 StrategyBrainAgent.init Scenario.today
            Scenario.tied_input ledger w Scenario.tied_snapshot).
  - reflexivity.
  - vm_compute. reflexivity.
  - reflexivity.
  - discriminate.
Defined.

Lemma process_symbol_sign_off_saves_tick_ledger_witness :
  let tick_ledger := Scenario.ledger 200 0 in
  let w := Scenario.world_with (Scenario.store_with Scenario.ledger_after_loss) in
  let pending :=
    DailyState.set_hitl_approvals_pending
      (DailyState.hitl_approvals_pending tick_ledger + 1)%Z tick_ledger in
  let run :=
    TradingScheduler.process_symbol (SM := spec_schema) (RT := sample_runtime)
      Settings.default sample_uuid4 StrategyBrainAgent.init Scenario.today
      Scenario.stretched_input (tick_ledger, w) in
  fst run = pending
  /\ Storage.daily_state (World.storage (snd run)) !! DailyState.date tick_ledger
     = Some pending
  /\ same_trading_state w (snd run).
Proof.
  intros tick_ledger w.
  eapply (process_symbol_sign_off_saves_tick_ledger (SM := spec_schema)
            (RT := sample_runtime) Settings.default sample_uuid4 StrategyBrainAgent.init
            Scenario.today Scenario.stretched_input tick_ledger w
            Scenario.stretched_snapshot).
  - reflexivity.
  - vm_compute. reflexivity.
  - vm_compute. reflexivity.
  - reflexivity.
  - reflexivity.
Defined.

Lemma process_symbol_never_executes_within_sign_off_quota_witness :
  let tick_ledger := Scenario.ledger 200 0 in
  let w := Scenario.world_with (Scenario.store_with tick_ledger) in
  same_trading_state w
    (snd (TradingScheduler.process_symbol (SM := spec_schema) (RT := sample_runtime)
            Settings.default sample_uuid4 StrategyBrainAgent.init Scenario.today
            Scenario.stretched_input (tick_ledger, w))).
Proof.
  intros tick_ledger w.
  apply (process_symbol_never_executes_within_sign_off_quota (SM := spec_schema)
           (RT := sample_runtime) Settings.default sample_uuid4 StrategyBrainAgent.init
           Scenario.today Scenario.stretched_input tick_ledger w).
  vm_compute. reflexivity.
Defined.

(** ** Monitoring and the tick *)

Section MonitorInvariant.
Context {SM : SchemaMethods} {PL : PositionLaws SM}.
Variable settings : Settings.t.
Variable uuid4 : nat -> string.

(** The loop body of [monitor_positions] keeps every property of the
    process state that the refresh of the mark and an exit keep. *)
Lemma monitor_position_preserves (P : World.t -> Prop) today now prices position acc :
  (forall price w,
      P w ->
      P (World.set_storage
           (Storage.save_position (Position_update_pnl price position) (World.storage w)) w)) ->
  (forall price reason w,
      P w ->
      P (snd (ExecutionPaperAgent._exit_position settings uuid4 today now
                (Position_update_pnl price position) price reason w))) ->
  P (snd acc) ->
  P (snd (ExecutionPaperAgent.monitor_position settings uuid4 today now prices position acc)).
Proof.
  intros Hsave Hexit.
  assert (Hstep : forall price reason (acc : list ExitAction.t * World.t),
             P (snd acc) ->
             P (snd (let '(a, w0) :=
                       ExecutionPaperAgent._exit_position settings uuid4 today now
                         (Position_update_pnl price position) price reason (snd acc) in
                     (fst acc ++ [a], w0)))).
  { intros price reason acc0 H. pose proof (Hexit price reason (snd acc0) H) as H'.
    destruct (ExecutionPaperAgent._exit_position _ _ _ _ _ _ _ _) as [a w0]. exact H'. }
  destruct acc as [exit_actions w]. cbn [snd]. intros Hw.
  unfold ExecutionPaperAgent.monitor_position.
  destruct (prices !! Position.symbol position) as [price |]; [| exact Hw].
  set (p := Position_update_pnl price position).
  set (w1 := World.set_storage (Storage.save_position p (World.storage w)) w).
  assert (Hw1 : P w1) by (apply Hsave; exact Hw).
  match goal with
  | |- P (snd (match ?stop_part with (_, _) => _ end)) =>
      assert (Hs : P (snd stop_part)); [| destruct stop_part as [ea ws] ]
  end.
  - destruct (truthy (Position.stop_loss_price p)) as [stop |]; [| exact Hw1].
    destruct ((0 <? Position.quantity p)%Z && Qleb price stop).
    + apply (Hstep price "stop_loss"%string (exit_actions, w1) Hw1).
    + destruct ((Position.quantity p <? 0)%Z && Qleb stop price).
      * apply (Hstep price "stop_loss"%string (exit_actions, w1) Hw1).
      * exact Hw1.
  - cbn [snd] in Hs.
    destruct (truthy (Position.target_price p)) as [target |]; [| exact Hs].
    destruct ((0 <? Position.quantity p)%Z && Qleb target price).
    + apply (Hstep price "target"%string (ea, ws) Hs).
    + destruct ((Position.quantity p <? 0)%Z && Qleb price target).
      * apply (Hstep price "target"%string (ea, ws) Hs).
      * exact Hs.
Qed.

Lemma holdings_within_refl book : holdings_within book book.
Proof. intros symbol row H. exists row. repeat split. exact H. Qed.

Lemma holdings_within_delete book book' symbol :
  holdings_within book book' -> holdings_within book (delete symbol book').
Proof.
  intros H k row' Hk. apply lookup_delete_Some in Hk as [_ Hk]. exact (H k row' Hk).
Qed.

Lemma holdings_within_insert book book' symbol row row' :
  book !! symbol = Some row -> same_holding row row' ->
  holdings_within book book' -> holdings_within book (<[symbol := row']> book').
Proof.
  intros Hrow Hsame H k r Hk. apply lookup_insert_Some in Hk as [[<- <-] | [_ Hk]].
  - exists row. auto.
  - exact (H k r Hk).
Qed.

Lemma monitor_positions_holdings today now ltp_answer w :
  holdings_within (Storage.positions (World.storage w))
    (Storage.positions
       (World.storage
          (snd (ExecutionPaperAgent.monitor_positions settings uuid4 today now
                  ltp_answer w)))).
Proof.
  set (book := Storage.positions (World.storage w)).
  unfold ExecutionPaperAgent.monitor_positions.
  pose proof (fun p => proj1 (get_all_positions_In (World.storage w) p)) as Hlisted.
  destruct (Storage.get_all_positions (World.storage w)) as [| p0 rest];
    [apply holdings_within_refl |].
  destruct ltp_answer as [| prices]; [apply holdings_within_refl |].
  revert Hlisted. generalize (p0 :: rest). intros l Hlisted.
  assert (Hacc : holdings_within book
                   (Storage.positions (World.storage (snd (@nil ExitAction.t, w)))))
    by apply holdings_within_refl.
  revert Hacc. generalize (@nil ExitAction.t, w).
  induction l as [| p l IH]; intros acc Hacc; [exact Hacc |].
  cbn [fold_left]. apply IH; [intros q Hq; apply Hlisted; now right |].
  destruct (Hlisted p (or_introl eq_refl)) as [Hget _].
  unfold Storage.get_position in Hget. fold book in Hget.
  destruct (book !! Position.symbol p) as [row |] eqn:Hrow; [| discriminate].
  cbn in Hget. injection Hget as Hp.
  apply (monitor_position_preserves
           (fun w => holdings_within book (Storage.positions (World.storage w)))).
  - intros price w0 Hw0. cbn [World.storage World.set_storage Storage.positions
                                Storage.save_position].
    rewrite position_update_pnl_symbol.
    apply (holdings_within_insert book _ _ row); [exact Hrow | | exact Hw0].
    unfold same_holding.
    rewrite position_update_pnl_quantity, position_update_pnl_avg_price,
      position_update_pnl_stop_loss, position_update_pnl_target.
    rewrite <- Hp. repeat split.
  - intros price reason w0 Hw0.
    rewrite (proj1 (_exit_position_book settings uuid4 today now _ price reason w0)).
    apply holdings_within_delete. exact Hw0.
  - exact Hacc.
Qed.

Lemma monitor_positions_cache today now ltp_answer w :
  World.recent_order_hashes
    (snd (ExecutionPaperAgent.monitor_positions settings uuid4 today now ltp_answer w))
  = World.recent_order_hashes w.
Proof.
  unfold ExecutionPaperAgent.monitor_positions.
  destruct (Storage.get_all_positions (World.storage w)) as [| p0 rest]; [reflexivity |].
  destruct ltp_answer as [| prices]; [reflexivity |].
  generalize (p0 :: rest). intros l.
  assert (Hacc : World.recent_order_hashes (snd (@nil ExitAction.t, w))
                 = World.recent_order_hashes w) by reflexivity.
  revert Hacc. generalize (@nil ExitAction.t, w).
  induction l as [| p l IH]; intros acc Hacc; [exact Hacc |].
  cbn [fold_left]. apply IH.
  apply (monitor_position_preserves
           (fun w' => World.recent_order_hashes w' = World.recent_order_hashes w)).
  - intros price w0 Hw0. exact Hw0.
  - intros price reason w0 Hw0.
    destruct (_exit_position_book settings uuid4 today now
                (Position_update_pnl price p) price reason w0) as (_ & _ & Hh & _).
    congruence.
  - exact Hacc.
Qed.

Lemma holdings_within_trans book1 book2 book3 :
  holdings_within book1 book2 -> holdings_within book2 book3 ->
  holdings_within book1 book3.
Proof.
  intros H12 H23 k row3 Hk.
  destruct (H23 k row3 Hk) as (row2 & Hk2 & Q2 & A2 & S2 & T2).
  destruct (H12 k row2 Hk2) as (row1 & Hk1 & Q1 & A1 & S1 & T1).
  exists row1. split; [exact Hk1 |]. unfold same_holding. repeat split; congruence.
Qed.

Lemma flatten_all_positions_holdings today now ltp_answer reason w :
  holdings_within (Storage.positions (World.storage w))
    (Storage.positions
       (World.storage
          (ExecutionPaperAgent.flatten_all_positions settings uuid4 today now ltp_answer
             reason w)))
  /\ World.recent_order_hashes
       (ExecutionPaperAgent.flatten_all_positions settings uuid4 today now ltp_answer
          reason w)
     = World.recent_order_hashes w.
Proof.
  unfold ExecutionPaperAgent.flatten_all_positions.
  destruct (Storage.get_all_positions (World.storage w)) as [| p0 rest];
    [split; [apply holdings_within_refl | reflexivity] |].
  destruct ltp_answer as [| prices]; [split; [apply holdings_within_refl | reflexivity] |].
  set (P := fun w' : World.t =>
              holdings_within (Storage.positions (World.storage w))
                (Storage.positions (World.storage w'))
              /\ World.recent_order_hashes w' = World.recent_order_hashes w).
  assert (Hloop : forall l w0,
             P w0 ->
             P (fold_left
                  (fun w position =>
                     match truthy (prices !! Position.symbol position) with
                     | Some current_price =>
                         snd (ExecutionPaperAgent._exit_position settings uuid4 today now
                                position current_price reason w)
                     | None => w
                     end)
                  l w0)).
  { induction l as [| p l IH]; intros w0 Hacc; [exact Hacc |].
    cbn [fold_left]. apply IH.
    destruct (truthy (prices !! Position.symbol p)) as [price |]; [| exact Hacc].
    destruct (_exit_position_book settings uuid4 today now p price reason w0)
      as (Hbook & _ & Hh & _).
    unfold P. rewrite Hbook, Hh. destruct Hacc as [Hw Hc].
    split; [apply holdings_within_delete; exact Hw | exact Hc]. }
  apply (Hloop (p0 :: rest) w). split; [apply holdings_within_refl | reflexivity].
Qed.

(** X28. Position monitoring never opens a position and never changes a
    holding: every position the book holds after [monitor_positions] was in
    the book before under the same symbol, with the same quantity, average
    price, stop-loss and target; monitoring only refreshes marks and closes
    positions. *)
Theorem monitor_positions_never_opens_or_resizes today now ltp_answer w symbol position' :
  Storage.get_position symbol
    (World.storage
       (snd (ExecutionPaperAgent.monitor_positions settings uuid4 today now ltp_answer w)))
  = Some position' ->
  exists position,
    Storage.get_position symbol (World.storage w) = Some position
    /\ same_holding position position'.
Proof.
  pose proof (monitor_positions_holdings today now ltp_answer w) as Hinv.
  unfold Storage.get_position.
  destruct (Storage.positions _ !! symbol) as [row' |] eqn:Hrow'; [| discriminate].
  cbn. intros H. injection H as <-.
  destruct (Hinv symbol row' Hrow') as (row & Hrow & Hsame).
  rewrite Hrow. cbn. eexists. split; [reflexivity |]. exact Hsame.
Qed.
End MonitorInvariant.

Section TickInvariant.
Context {SM : SchemaMethods} {RT : PyRuntime} {PL : PositionLaws SM}.
Variable settings : Settings.t.
Variable uuid4 : nat -> string.
Variable strategy_brain : StrategyBrainAgent.t.

(** X30. A tick that does not reach the proposal loop, because it falls
    outside trading hours, finds the ledger in safe mode or falls into the
    exit-only window, never opens a position and never changes a holding:
    every position in the book after the tick was there before with the
    same quantity, average price, stop-loss and target; and the duplicate
    cache is as before. *)
Theorem tick_without_proposals_never_opens_positions today input w :
  let tick :=
    TradingScheduler._run_trading_cycle settings uuid4 strategy_brain today input w in
  (forall exit_actions, fst tick <> CycleCompleted exit_actions) ->
  holdings_within (Storage.positions (World.storage w))
    (Storage.positions (World.storage (snd tick)))
  /\ World.recent_order_hashes (snd tick) = World.recent_order_hashes w.
Proof.
  cbv zeta. rewrite _run_trading_cycle_cases.
  destruct (fst (Utils.is_trading_hours settings (CycleInput.time_trading_hours input)));
    [| intros _; split; [apply holdings_within_refl | reflexivity]].
  cbv zeta.
  set (ledger := Storage.get_or_create_daily_state settings today (World.storage w)).
  set (w0 := World.set_storage (snd ledger) w).
  set (monitored :=
         ExecutionPaperAgent.monitor_positions settings uuid4 today
           (CycleInput.monitor_now input) (CycleInput.monitor_ltp input) w0).
  assert (Hmon : holdings_within (Storage.positions (World.storage w))
                   (Storage.positions (World.storage (snd monitored)))
                 /\ World.recent_order_hashes (snd monitored)
                    = World.recent_order_hashes w).
  { split.
    - pose proof (monitor_positions_holdings settings uuid4 today
                    (CycleInput.monitor_now input) (CycleInput.monitor_ltp input) w0) as H.
      replace (Storage.positions (World.storage w0))
        with (Storage.positions (World.storage w)) in H; [exact H |].
      symmetry. apply (get_or_create_keeps_book settings today (World.storage w)).
    - unfold monitored. rewrite monitor_positions_cache. reflexivity. }
  destruct (DailyState.safe_mode (fst ledger)).
  - intros _. cbn [fst snd].
    destruct (flatten_all_positions_holdings settings uuid4 today
                (CycleInput.flatten_now input) (CycleInput.flatten_ltp input) "safe_mode"
                (snd monitored)) as [Hf Hc].
    destruct Hmon as [Hm Hmc].
    split; [exact (holdings_within_trans _ _ _ Hm Hf) | congruence].
  - destruct (Utils.is_exit_only_time settings (CycleInput.time_exit_only input)).
    + intros _. exact Hmon.
    + intros H. exfalso. exact (H _ eq_refl).
Qed.
End TickInvariant.

Lemma monitor_positions_never_opens_or_resizes_witness :
  exists position,
    Storage.get_position "MCX"
      (World.storage (Scenario.world_holding Scenario.manual_position))
    = Some position
    /\ same_holding position
         (spec_Position_update_pnl 101 Scenario.manual_position).
Proof.
  apply (monitor_positions_never_opens_or_resizes (SM := spec_schema)
           (PL := spec_position_laws) Settings.default sample_uuid4 Scenario.today 0%Z
           (LtpData {[ "MCX"%string := 101 ]})
           (Scenario.world_holding Scenario.manual_position) "MCX").
  vm_compute. reflexivity.
Defined.

Lemma tick_without_proposals_never_opens_positions_witness :
  let tick :=
    TradingScheduler._run_trading_cycle (SM := spec_schema) (RT := sample_runtime)
      Settings.default sample_uuid4 StrategyBrainAgent.init Scenario.today
      (Scenario.tick_at (time_of_day 10 0)) Scenario.latched_world in
  holdings_within (Storage.positions (World.storage Scenario.latched_world))
    (Storage.positions (World.storage (snd tick)))
  /\ World.recent_order_hashes (snd tick)
     = World.recent_order_hashes Scenario.latched_world.
Proof.
  apply (tick_without_proposals_never_opens_positions (SM := spec_schema)
           (RT := sample_runtime) (PL := spec_position_laws) Settings.default sample_uuid4
           StrategyBrainAgent.init Scenario.today (Scenario.tick_at (time_of_day 10 0))
           Scenario.latched_world).
  vm_compute. intros exit_actions H. discriminate H.
Defined.

(** ** The configured symbols *)

Lemma lstrip_starts_clean s :
  match lstrip s with
  | String c _ => is_py_space c = false
  | EmptyString => True
  end.
Proof.
  induction s as [| c s IH]; [exact I |].
  cbn [lstrip]. destruct (is_py_space c) eqn:E; [exact IH | exact E].
Qed.

Lemma rstrip_keeps_start s :
  match s with
  | String c _ => is_py_space c = false
  | EmptyString => True
  end ->
  lstrip (rstrip s) = rstrip s.
Proof.
  destruct s as [| c s]; [reflexivity |].
  intros Hc. cbn [rstrip].
  destruct (rstrip s); rewrite ?Hc; cbn [lstrip]; rewrite Hc; reflexivity.
Qed.

Lemma rstrip_idempotent s : rstrip (rstrip s) = rstrip s.
Proof.
  induction s as [| c s IH]; [reflexivity |].
  cbn [rstrip]. destruct (rstrip s) as [| d r] eqn:E.
  - destruct (is_py_space c) eqn:Ec; [reflexivity |].
    cbn [rstrip]. rewrite Ec. reflexivity.
  - cbn [rstrip]. cbn [rstrip] in IH.
    destruct (rstrip r) as [| e r'] eqn:Er.
    + destruct (is_py_space d) eqn:Ed; [discriminate |].
      rewrite IH. reflexivity.
    + rewrite IH. reflexivity.
Qed.

Lemma str_strip_idempotent s : str_strip (str_strip s) = str_strip s.
Proof.
  unfold str_strip.
  rewrite (rstrip_keeps_start (lstrip s) (lstrip_starts_clean s)).
  apply rstrip_idempotent.
Qed.

(** X29. The configured symbols are normalised: every symbol that
    [get_trading_symbols] returns is the stripped form of a comma-separated
    field of [TRADING_SYMBOLS], is not empty, and has no white space left at
    either end (stripping it again changes nothing). *)
Theorem get_trading_symbols_are_trimmed settings symbol :
  symbol ∈ Settings.get_trading_symbols settings ->
  symbol <> ""%string
  /\ str_strip symbol = symbol
  /\ exists field,
      field ∈ split_comma (Settings.TRADING_SYMBOLS settings)
      /\ symbol = str_strip field.
Proof.
  unfold Settings.get_trading_symbols. intros H.
  apply list_elem_of_In, filter_In in H as [Hin Hne].
  apply in_map_iff in Hin as (field & <- & Hfield).
  split.
  - intros Heq. rewrite Heq in Hne. discriminate.
  - split; [apply str_strip_idempotent |].
    exists field. split; [apply list_elem_of_In; exact Hfield | reflexivity].
Qed.

Lemma get_trading_symbols_are_trimmed_witness :
  "MCX"%string <> ""%string
  /\ str_strip "MCX" = "MCX"%string
  /\ exists field,
      field ∈ split_comma (Settings.TRADING_SYMBOLS Scenario.untidy_settings)
      /\ "MCX"%string = str_strip field.
Proof.
  apply (get_trading_symbols_are_trimmed Scenario.untidy_settings "MCX").
  apply list_elem_of_In. vm_compute. left. reflexivity.
Defined.

